(** * repo_analyzer.py: the retrieval / selection / analysis pipeline

    A shallow embedding of the core of [UniversalRepoAnalyzer]
    (src/repo_analyzer.py) and the properties its specification states,
    followed by properties of the code beyond them: the effects of each
    stage, the provenance of what it returns, the URL parser and the
    pipeline as a whole.

    Conventions of the embedding.
    - A Python [str] is a [string]; the embedding is exact on ASCII text
      (characters above 127 are carried as opaque UTF-8 bytes, which
      [lower] leaves alone).
    - A Python [int] is a [Z].
    - A Python [dict] is an insertion-ordered association list with unique
      keys ([dict_set] overwrites in place or appends), a Python [set] of
      strings is a [gset string].
    - Network calls are answered by oracles indexed by the number of the
      call; [time.sleep] and the calls made are recorded in a trace.
    - A function that can raise returns a [result]. Logging is dropped. *)

From Stdlib Require Import ZArith Lia Bool Ascii String List Sorted Permutation.
From Stdlib Require Import DecimalString.
From stdpp Require Import base tactics option list gmap strings.

Set Warnings "-register-all".
Local Open Scope Z_scope.

(* ===================================================================== *)
(** * Python built-ins used by the analyzer *)
(* ===================================================================== *)

Module Py.

(** [len(s)] *)
Definition len (s : string) : Z := Z.of_nat (String.length s).

(** [len(l)] on lists *)
Definition llen {A} (l : list A) : Z := Z.of_nat (List.length l).

Definition is_upper (c : ascii) : bool :=
  let n := nat_of_ascii c in (65 <=? n)%nat && (n <=? 90)%nat.

Definition lower_char (c : ascii) : ascii :=
  if is_upper c then ascii_of_nat (nat_of_ascii c + 32) else c.

(** [s.lower()] *)
Fixpoint lower (s : string) : string :=
  match s with
  | EmptyString => EmptyString
  | String c t => String (lower_char c) (lower t)
  end.

(** [s.startswith(p)] *)
Definition startswith (p s : string) : bool := String.prefix p s.

(** [sub in s] *)
Fixpoint contains (sub s : string) : bool :=
  startswith sub s ||
  match s with
  | EmptyString => false
  | String _ t => contains sub t
  end.

(** [s.endswith(suf)] *)
Fixpoint endswith (suf s : string) : bool :=
  String.eqb suf s ||
  match s with
  | EmptyString => false
  | String _ t => endswith suf t
  end.

(** [s.find(c)] for a one-character [c]: the first index, or -1. *)
Fixpoint find (c : ascii) (s : string) : Z :=
  match s with
  | EmptyString => -1
  | String d t =>
      if Ascii.eqb d c then 0
      else let r := find c t in if r =? -1 then -1 else r + 1
  end.

(** [s.rfind(c)] for a one-character [c]: the last index, or -1. *)
Fixpoint rfind (c : ascii) (s : string) : Z :=
  match s with
  | EmptyString => -1
  | String d t =>
      let r := rfind c t in
      if r =? -1 then (if Ascii.eqb d c then 0 else -1) else r + 1
  end.

(** [s.count(c)] for a one-character [c]. *)
Fixpoint count (c : ascii) (s : string) : Z :=
  match s with
  | EmptyString => 0
  | String d t => (if Ascii.eqb d c then 1 else 0) + count c t
  end.

(** The bound of a slice, as CPython's [PySlice_AdjustIndices] computes
    it for step 1: a negative index counts from the end, and the result
    is clamped to [0, n]. *)
Definition adjust_index (n i : Z) : Z :=
  if i <? 0 then Z.max 0 (i + n) else Z.min i n.

Fixpoint skipn_str (n : nat) (s : string) : string :=
  match n, s with
  | O, _ => s
  | S _, EmptyString => EmptyString
  | S m, String _ t => skipn_str m t
  end.

Fixpoint firstn_str (n : nat) (s : string) : string :=
  match n, s with
  | O, _ => EmptyString
  | S _, EmptyString => EmptyString
  | S m, String c t => String c (firstn_str m t)
  end.

(** [s[a:b]] *)
Definition slice (s : string) (a b : Z) : string :=
  let n := len s in
  let a' := adjust_index n a in
  let b' := adjust_index n b in
  firstn_str (Z.to_nat (b' - a')) (skipn_str (Z.to_nat a') s).

(** [s[:b]] *)
Definition slice_to (s : string) (b : Z) : string := slice s 0 b.

(** [s[a:]] *)
Definition slice_from (s : string) (a : Z) : string := slice s a (len s).

(** [l[:b]] on lists *)
Definition lslice_to {A} (l : list A) (b : Z) : list A :=
  take (Z.to_nat (adjust_index (llen l) b)) l.

(** [s.split(c)] for a one-character separator [c]. *)
Fixpoint split_go (c : ascii) (cur : string) (s : string) : list string :=
  match s with
  | EmptyString => [String.rev cur]
  | String d t =>
      if Ascii.eqb d c then String.rev cur :: split_go c EmptyString t
      else split_go c (String d cur) t
  end.

Definition split (c : ascii) (s : string) : list string :=
  split_go c EmptyString s.

(** [sep.join(l)] *)
Fixpoint join (sep : string) (l : list string) : string :=
  match l with
  | [] => EmptyString
  | [x] => x
  | x :: rest => x +:+ sep +:+ join sep rest
  end.

(** [x in l] on lists of strings *)
Definition mem (x : string) (l : list string) : bool :=
  bool_decide (x ∈ l).

(** [range(n)] *)
Definition range (n : Z) : list Z := List.map Z.of_nat (seq 0 (Z.to_nat n)).

(** [enumerate(l)] *)
Definition enumerate {A} (l : list A) : list (Z * A) :=
  List.combine (range (llen l)) l.

(** [any(...)] *)
Definition any {A} (f : A -> bool) (l : list A) : bool := existsb f l.

(** [os.path.basename(p)] (posixpath): what follows the last slash. *)
Definition basename (p : string) : string :=
  slice_from p (rfind "/" p + 1).

(** [os.path.splitext(p)[1]] (posixpath, [genericpath._splitext]): the
    extension starts at the last dot of the last component, provided a
    character other than a dot precedes it in that component. *)
Fixpoint all_dots (s : string) : bool :=
  match s with
  | EmptyString => true
  | String c t => Ascii.eqb c "." && all_dots t
  end.

Definition splitext_ext (p : string) : string :=
  let name := basename p in
  let i := rfind "." name in
  if i =? -1 then EmptyString
  else if all_dots (slice_to name i) then EmptyString
  else slice_from name i.

(** [pathlib.PurePosixPath(p).name]: the last component of the parsed
    path, where empty components and [.] components are dropped. *)
Definition path_name (p : string) : string :=
  List.last
    (List.filter (fun c => negb (String.eqb c "" || String.eqb c "."))
                 (split "/" p))
    EmptyString.

(** [pathlib.PurePosixPath(p).suffix]: from the last dot of the name,
    when that dot is neither the first nor the last character. *)
Definition path_suffix (p : string) : string :=
  let name := path_name p in
  let i := rfind "." name in
  if (0 <? i) && (i <? len name - 1) then slice_from name i
  else EmptyString.

End Py.


(* ===================================================================== *)
(** * Python dictionaries and JSON values *)
(* ===================================================================== *)

(** [d.get(k)] on an insertion-ordered dictionary. *)
Fixpoint dict_get {V} (k : string) (d : list (string * V)) : option V :=
  match d with
  | [] => None
  | (k', v) :: rest => if String.eqb k k' then Some v else dict_get k rest
  end.

(** [d[k] = v]: an existing key keeps its position, a new key goes last. *)
Fixpoint dict_set {V} (k : string) (v : V) (d : list (string * V))
  : list (string * V) :=
  match d with
  | [] => [(k, v)]
  | (k', v') :: rest =>
      if String.eqb k k' then (k, v) :: rest else (k', v') :: dict_set k v rest
  end.

(** [k in d] *)
Definition dict_mem {V} (k : string) (d : list (string * V)) : bool :=
  match dict_get k d with Some _ => true | None => false end.

Definition dict_keys {V} (d : list (string * V)) : list string := d.*1.

(** What [json.loads] returns: [None], [bool], [int], [float] (kept as the
    literal that was read), [str], [list] and [dict]. *)
Inductive json : Type :=
| JNull
| JBool (b : bool)
| JInt (n : Z)
| JFloat (lexeme : string)
| JString (s : string)
| JArray (items : list json)
| JObject (fields : list (string * json)).

Module Json.

Definition dquote : ascii := "034"%char.
Definition backslash : ascii := "092"%char.

Definition is_ws (c : ascii) : bool :=
  Ascii.eqb c " " || Ascii.eqb c "009" || Ascii.eqb c "010" || Ascii.eqb c "013".

Fixpoint skip_ws (s : string) : string :=
  match s with
  | String c t => if is_ws c then skip_ws t else s
  | EmptyString => s
  end.

Definition is_digit (c : ascii) : bool :=
  let n := nat_of_ascii c in (48 <=? n)%nat && (n <=? 57)%nat.

Definition digit_val (c : ascii) : Z := Z.of_nat (nat_of_ascii c) - 48.

Definition hex_val (c : ascii) : option Z :=
  let n := Z.of_nat (nat_of_ascii c) in
  if (48 <=? n) && (n <=? 57) then Some (n - 48)
  else if (65 <=? n) && (n <=? 70) then Some (n - 55)
  else if (97 <=? n) && (n <=? 102) then Some (n - 87)
  else None.

Definition hex4 (a b c d : ascii) : option Z :=
  match hex_val a, hex_val b, hex_val c, hex_val d with
  | Some x, Some y, Some z, Some w => Some (((x * 16 + y) * 16 + z) * 16 + w)
  | _, _, _, _ => None
  end.

Definition chr (n : Z) : ascii := ascii_of_nat (Z.to_nat n).

(** The UTF-8 bytes of a code point. *)
Definition utf8 (u : Z) : string :=
  if u <? 128 then String (chr u) ""
  else if u <? 2048 then
    String (chr (192 + u / 64)) (String (chr (128 + u mod 64)) "")
  else if u <? 65536 then
    String (chr (224 + u / 4096))
      (String (chr (128 + (u / 64) mod 64)) (String (chr (128 + u mod 64)) ""))
  else
    String (chr (240 + u / 262144))
      (String (chr (128 + (u / 4096) mod 64))
         (String (chr (128 + (u / 64) mod 64)) (String (chr (128 + u mod 64)) ""))).

(** The one-character escapes of a JSON string. *)
Definition simple_escape (c : ascii) : option ascii :=
  if Ascii.eqb c dquote then Some dquote
  else if Ascii.eqb c backslash then Some backslash
  else if Ascii.eqb c "/" then Some "/"%char
  else if Ascii.eqb c "b" then Some "008"%char
  else if Ascii.eqb c "f" then Some "012"%char
  else if Ascii.eqb c "n" then Some "010"%char
  else if Ascii.eqb c "r" then Some "013"%char
  else if Ascii.eqb c "t" then Some "009"%char
  else None.

(** The low half of a surrogate pair written as a second [\uXXXX]. *)
Definition low_surrogate (s : string) : option (Z * string) :=
  match s with
  | String b (String u (String h1 (String h2 (String h3 (String h4 rest))))) =>
      if Ascii.eqb b backslash && Ascii.eqb u "u" then
        match hex4 h1 h2 h3 h4 with
        | Some lo => if (56320 <=? lo) && (lo <=? 57343) then Some (lo, rest) else None
        | None => None
        end
      else None
  | _ => None
  end.

(** [json.decoder.scanstring] in strict mode, entered after the opening
    quote; [acc] is what was read so far, reversed. *)
Fixpoint scan_string (s acc : string) : option (string * string) :=
  match s with
  | EmptyString => None
  | String c t =>
      if Ascii.eqb c dquote then Some (String.rev acc, t)
      else if (nat_of_ascii c <? 32)%nat then None
      else if Ascii.eqb c backslash then
        match t with
        | EmptyString => None
        | String e t1 =>
            match simple_escape e with
            | Some x => scan_string t1 (String x acc)
            | None =>
                if Ascii.eqb e "u" then
                  match t1 with
                  | String h1 (String h2 (String h3 (String h4 t2))) =>
                      match hex4 h1 h2 h3 h4 with
                      | None => None
                      | Some hi =>
                          if (55296 <=? hi) && (hi <=? 56319) then
                            match t2 with
                            | String b (String u (String g1 (String g2 (String g3 (String g4 t3))))) =>
                                match low_surrogate t2 with
                                | Some (lo, _) =>
                                    scan_string t3
                                      (String.rev_app
                                         (utf8 (65536 + (hi - 55296) * 1024 + (lo - 56320)))
                                         acc)
                                | None => scan_string t2 (String.rev_app (utf8 hi) acc)
                                end
                            | _ => scan_string t2 (String.rev_app (utf8 hi) acc)
                            end
                          else scan_string t2 (String.rev_app (utf8 hi) acc)
                      end
                  | _ => None
                  end
                else None
            end
        end
      else scan_string t (String c acc)
  end.

(** The longest run of digits at the head of [s], and what follows. *)
Fixpoint span_digits (s : string) : string * string :=
  match s with
  | String c t =>
      if is_digit c then let '(d, r) := span_digits t in (String c d, r)
      else (EmptyString, s)
  | EmptyString => (EmptyString, s)
  end.

Fixpoint digits_val (acc : Z) (s : string) : Z :=
  match s with
  | String c t => digits_val (acc * 10 + digit_val c) t
  | EmptyString => acc
  end.

(** The integer part: a single zero, or a non-zero digit and more digits. *)
Definition scan_int (s : string) : option (string * string) :=
  match s with
  | String c t =>
      if Ascii.eqb c "0" then Some ("0", t)
      else if is_digit c then let '(d, r) := span_digits t in Some (String c d, r)
      else None
  | EmptyString => None
  end.

(** The optional fraction: a dot and at least one digit. *)
Definition scan_frac (s : string) : string * string :=
  match s with
  | String c t =>
      if Ascii.eqb c "." then
        match span_digits t with
        | (EmptyString, _) => (EmptyString, s)
        | (d, r) => (String c d, r)
        end
      else (EmptyString, s)
  | EmptyString => (EmptyString, s)
  end.

(** The optional exponent: e or E, an optional sign, at least one digit. *)
Definition scan_exp (s : string) : string * string :=
  match s with
  | String c t =>
      if Ascii.eqb c "e" || Ascii.eqb c "E" then
        let '(sign, t') :=
          match t with
          | String g u =>
              if Ascii.eqb g "-" || Ascii.eqb g "+" then (String g "", u)
              else (EmptyString, t)
          | EmptyString => (EmptyString, t)
          end in
        match span_digits t' with
        | (EmptyString, _) => (EmptyString, s)
        | (d, r) => (String c (sign +:+ d), r)
        end
      else (EmptyString, s)
  | EmptyString => (EmptyString, s)
  end.

(** A number: an optional minus sign, the integer part, an optional
    fraction and an optional exponent. It is an [int] when it has neither
    fraction nor exponent, a [float] otherwise. *)
Definition scan_number (s : string) : option (json * string) :=
  let '(neg, s1) :=
    match s with
    | String c t => if Ascii.eqb c "-" then (true, t) else (false, s)
    | EmptyString => (false, s)
    end in
  match scan_int s1 with
  | None => None
  | Some (ip, s2) =>
      let '(fp, s3) := scan_frac s2 in
      let '(ep, s4) := scan_exp s3 in
      match fp, ep with
      | EmptyString, EmptyString =>
          let v := digits_val 0 ip in Some (JInt (if neg then - v else v), s4)
      | _, _ =>
          Some (JFloat ((if neg then "-" else "") +:+ ip +:+ fp +:+ ep), s4)
      end
  end.

(** A keyword at the head of [s]. *)
Definition keyword (k : string) (v : json) (s : string) : option (json * string) :=
  if Py.startswith k s then Some (v, Py.skipn_str (String.length k) s) else None.

(** The scalar values: literals, numbers and the three non-finite floats
    that [json.loads] accepts. *)
Definition scan_scalar (s : string) : option (json * string) :=
  match keyword "null" JNull s with
  | Some r => Some r
  | None =>
  match keyword "true" (JBool true) s with
  | Some r => Some r
  | None =>
  match keyword "false" (JBool false) s with
  | Some r => Some r
  | None =>
  match scan_number s with
  | Some r => Some r
  | None =>
  match keyword "NaN" (JFloat "NaN") s with
  | Some r => Some r
  | None =>
  match keyword "Infinity" (JFloat "Infinity") s with
  | Some r => Some r
  | None => keyword "-Infinity" (JFloat "-Infinity") s
  end end end end end end.

(** [scan_once]: one JSON value at the head of [s] and the text after it.
    The three functions call each other at most twice per character read,
    so [fuel] bounds the recursion ([parse_fuel_enough] below). *)
Fixpoint parse_value (fuel : nat) (s : string) : option (json * string) :=
  match fuel with
  | O => None
  | S fuel' =>
      match s with
      | EmptyString => None
      | String c t =>
          if Ascii.eqb c dquote then
            match scan_string t "" with
            | Some (x, r) => Some (JString x, r)
            | None => None
            end
          else if Ascii.eqb c "{" then
            match skip_ws t with
            | String d r =>
                if Ascii.eqb d "}" then Some (JObject [], r)
                else parse_members fuel' (String d r) []
            | EmptyString => None
            end
          else if Ascii.eqb c "[" then
            match skip_ws t with
            | String d r =>
                if Ascii.eqb d "]" then Some (JArray [], r)
                else parse_elements fuel' (String d r) []
            | EmptyString => None
            end
          else scan_scalar s
      end
  end
with parse_elements (fuel : nat) (s : string) (acc : list json)
  : option (json * string) :=
  match fuel with
  | O => None
  | S fuel' =>
      match parse_value fuel' s with
      | None => None
      | Some (v, r) =>
          match skip_ws r with
          | String d r' =>
              if Ascii.eqb d "]" then Some (JArray (acc ++ [v]), r')
              else if Ascii.eqb d "," then
                parse_elements fuel' (skip_ws r') (acc ++ [v])
              else None
          | EmptyString => None
          end
      end
  end
with parse_members (fuel : nat) (s : string) (acc : list (string * json))
  : option (json * string) :=
  match fuel with
  | O => None
  | S fuel' =>
      match s with
      | String q t =>
          if Ascii.eqb q dquote then
            match scan_string t "" with
            | None => None
            | Some (k, r) =>
                match skip_ws r with
                | String d r1 =>
                    if Ascii.eqb d ":" then
                      match parse_value fuel' (skip_ws r1) with
                      | None => None
                      | Some (v, r2) =>
                          match skip_ws r2 with
                          | String e r3 =>
                              if Ascii.eqb e "}" then
                                Some (JObject (dict_set k v acc), r3)
                              else if Ascii.eqb e "," then
                                parse_members fuel' (skip_ws r3) (dict_set k v acc)
                              else None
                          | EmptyString => None
                          end
                      end
                    else None
                | EmptyString => None
                end
            end
          else None
      | EmptyString => None
      end
  end.

(** [json.loads(s)]: one value, surrounded by white space only; [None]
    stands for [json.JSONDecodeError]. The limits of the interpreter are
    not part of the embedding: on a text nested deeper than the recursion
    limit, or with an integer literal longer than the digit limit of
    CPython 3.11 and later, [json.loads] raises [RecursionError] or
    [ValueError], where [loads] returns the value. *)
Definition loads (s : string) : option json :=
  match parse_value (2 * String.length s + 2) (skip_ws s) with
  | Some (v, r) =>
      match skip_ws r with
      | EmptyString => Some v
      | String _ _ => None
      end
  | None => None
  end.

End Json.

(* ===================================================================== *)
(** * Constants and configuration *)
(* ===================================================================== *)

Module Constants.

Definition GITHUB_API_BASE : string := "https://api.github.com/repos".
Definition GITHUB_TREE_ENDPOINT : string := "/git/trees/HEAD?recursive=1".
Definition GITHUB_CONTENTS_ENDPOINT : string := "/contents".

Definition MODEL_NAME_MAP : list (string * string) :=
  [ ("claude-sonnet", "anthropic.claude-3-7-sonnet-20250219-v1:0");
    ("claude-opus", "anthropic.claude-opus-4-20250514-v1:0");
    ("claude-haiku", "anthropic.claude-3-5-haiku-20241022-v1:0");
    ("gpt-4", "gpt-4");
    ("gpt-4-turbo", "gpt-4");
    ("gpt-3.5", "gpt-35-turbo");
    ("gemini", "vertex_ai/gemini-pro");
    ("gemini-pro", "vertex_ai/gemini-pro") ].
Definition DEFAULT_MODEL : string := "claude-sonnet".
Definition AI_MAX_RETRIES : Z := 3.
Definition AI_RETRY_DELAY : Z := 2.

Definition DEFAULT_MAX_FILES_TO_ANALYZE : Z := 50.
Definition DEFAULT_MAX_FILE_SIZE : Z := 10000.
Definition MAX_FILES_IN_PROMPT : Z := 200.
Definition MAX_TOTAL_CONTENT_SIZE : Z := 100000.

Definition PRIORITY_PATTERNS : list string :=
  [ "package.json"; "pom.xml"; "build.gradle"; "Cargo.toml"; "go.mod";
    "requirements.txt"; "setup.py"; "pyproject.toml"; "composer.json";
    "Gemfile"; "mix.exs"; "project.clj"; "deps.edn";
    "tsconfig.json"; "webpack.config.js"; "vite.config.js"; "rollup.config.js";
    "babel.config.js"; "jest.config.js"; "cypress.json";
    "Dockerfile"; ".github/workflows"; ".gitlab-ci.yml"; "Jenkinsfile";
    "docker-compose.yml"; "k8s.yml"; "kubernetes.yml";
    "README.md"; "CONTRIBUTING.md"; ".env.example"; "makefile"; "Makefile" ].

Definition SUPPORTED_EXTENSIONS : list string :=
  [ ".js"; ".ts"; ".jsx"; ".tsx"; ".py"; ".java"; ".go"; ".rs"; ".rb";
    ".php"; ".cpp"; ".c"; ".cs"; ".swift"; ".kt"; ".scala"; ".clj";
    ".json"; ".yaml"; ".yml"; ".toml"; ".xml"; ".md"; ".txt"; ".sh";
    ".dockerfile"; ".makefile" ].

End Constants.

(** The entries of [self.config] that the core reads. *)
Record Config : Type := {
  max_files_to_analyze : Z;
  max_file_size : Z;
  excluded_directories : list string;
  excluded_file_extensions : list string
}.

(** [Constants.DEFAULT_CONFIG] *)
Definition DEFAULT_CONFIG : Config := {|
  max_files_to_analyze := Constants.DEFAULT_MAX_FILES_TO_ANALYZE;
  max_file_size := Constants.DEFAULT_MAX_FILE_SIZE;
  excluded_directories :=
    [ "node_modules"; ".git"; "__pycache__"; "dist"; "build";
      "target"; ".idea"; ".vscode"; "coverage"; ".nyc_output" ];
  excluded_file_extensions :=
    [ ".log"; ".tmp"; ".cache"; ".lock"; ".map"; ".min.js"; ".min.css" ]
|}.

(** The analyzer object: [self.model] and [self.config]. *)
Record Analyzer : Type := {
  model : string;
  config : Config
}.

(* ===================================================================== *)
(** * Exceptions, effects and the outside world *)
(* ===================================================================== *)

(** The exceptions that travel through the core; each carries [str(e)]. *)
Inductive exn : Type :=
| GitHubAPIError (msg : string)
| AIModelError (msg : string)
| RequestsTimeout (msg : string)
| RequestException (msg : string)
| PyException (cls msg : string).

(** [str(e)] *)
Definition exn_str (e : exn) : string :=
  match e with
  | GitHubAPIError m | AIModelError m | RequestsTimeout m
  | RequestException m | PyException _ m => m
  end.

Inductive result (A : Type) : Type :=
| Ok (a : A)
| Raise (e : exn).
Arguments Ok {A} a.
Arguments Raise {A} e.

(** The [X-RateLimit-Reset] header when it is present and not empty:
    either [int] and [datetime.fromtimestamp] accept it, or one of them
    raises an exception of class [cls] ([ValueError], [OverflowError],
    [OSError]). *)
Inductive reset_header : Type :=
| ResetAt (epoch : Z)
| ResetUnreadable (cls msg : string).

(** What the analyzer reads of a [requests.Response]. [http_error] is the
    text of the [HTTPError] that [raise_for_status] raises for it. *)
Record response : Type := {
  status_code : Z;
  text : string;
  rate_limit_reset : option reset_header;
  http_error : string
}.

(** The header [X-RateLimit-Reset] is absent, empty, or a time stamp. *)
Definition reset_readable (r : response) : Prop :=
  match rate_limit_reset r with
  | Some (ResetUnreadable _ _) => False
  | _ => True
  end.

(** The outcome of one [requests.get]. *)
Inductive http_outcome : Type :=
| HttpTimeout (msg : string)
| HttpFailed (msg : string)
| HttpResponse (r : response).

(** The outcome of one [client.chat.completions.create]: an exception, or
    a response whose choices carry their [message.content] ([None] for a
    content that is not a string). *)
Inductive ai_outcome : Type :=
| AIRaises (e : exn)
| AIResponds (choices : list (option string)).

(** The outside world: the answer to the [n]-th HTTP request (to a given
    URL) and to the [n]-th model call (of a given model). The text of a
    prompt is not built: the answer to the [n]-th call stands for the
    answer to whatever prompt that call carried. *)
Record Env : Type := {
  http_get : nat -> string -> http_outcome;
  chat_create : nat -> string -> ai_outcome
}.

Inductive event : Type :=
| EvGet (url : string)
| EvChat (model_name : string)
| EvSleep (seconds : Z).

(** The state threaded through the core: how many requests and model
    calls were made, and everything that happened, oldest first. *)
Record world : Type := {
  http_calls : nat;
  ai_calls : nat;
  trace : list event
}.

Definition world0 : world := {| http_calls := 0; ai_calls := 0; trace := [] |}.

(** The world after one more request, one more model call, a sleep. *)
Definition after_get (url : string) (w : world) : world :=
  {| http_calls := S (http_calls w); ai_calls := ai_calls w;
     trace := trace w ++ [EvGet url] |}.

Definition after_chat (model_name : string) (w : world) : world :=
  {| http_calls := http_calls w; ai_calls := S (ai_calls w);
     trace := trace w ++ [EvChat model_name] |}.

Definition after_sleep (seconds : Z) (w : world) : world :=
  {| http_calls := http_calls w; ai_calls := ai_calls w;
     trace := trace w ++ [EvSleep seconds] |}.

Definition M (A : Type) : Type := world -> result A * world.

Definition ret {A} (a : A) : M A := fun w => (Ok a, w).

Definition raise {A} (e : exn) : M A := fun w => (Raise e, w).

Definition bind {A B} (m : M A) (k : A -> M B) : M B :=
  fun w =>
    match m w with
    | (Ok a, w') => k a w'
    | (Raise e, w') => (Raise e, w')
    end.

(** [try: m except ...: h e]; the handler [h] re-raises what it does not
    catch. *)
Definition try_except {A} (m : M A) (h : exn -> M A) : M A :=
  fun w =>
    match m w with
    | (Ok a, w') => (Ok a, w')
    | (Raise e, w') => h e w'
    end.

Notation "x <- m ;; k" := (bind m (fun x => k))
  (at level 100, m at next level, right associativity).
Notation "m ;;; k" := (bind m (fun _ => k))
  (at level 100, right associativity).

(** [time.sleep(seconds)] *)
Definition sleep (seconds : Z) : M unit :=
  fun w => (Ok tt, after_sleep seconds w).

(** [requests.get(url, ...)] *)
Definition requests_get (env : Env) (url : string) : M response :=
  fun w =>
    let w' := after_get url w in
    match http_get env (http_calls w) url with
    | HttpTimeout msg => (Raise (RequestsTimeout msg), w')
    | HttpFailed msg => (Raise (RequestException msg), w')
    | HttpResponse r => (Ok r, w')
    end.

(** [self.client.chat.completions.create(model=..., messages=...)] *)
Definition chat_completions_create (env : Env) (model_name : string)
  : M (list (option string)) :=
  fun w =>
    let w' := after_chat model_name w in
    match chat_create env (ai_calls w) model_name with
    | AIRaises e => (Raise e, w')
    | AIResponds choices => (Ok choices, w')
    end.

(** [response.raise_for_status()] *)
Definition raise_for_status (r : response) : M unit :=
  if (400 <=? status_code r) && (status_code r <? 600)
  then raise (RequestException (http_error r))
  else ret tt.

(** [response.json()]; a body that is not JSON raises
    [requests.exceptions.JSONDecodeError], a [RequestException]. *)
Definition response_json (r : response) : M json :=
  match Json.loads (text r) with
  | Some v => ret v
  | None => raise (RequestException "Expecting value")
  end.

(** [response.status_code == 403 and 'rate limit' in response.text.lower()] *)
Definition is_rate_limited (r : response) : bool :=
  (status_code r =? 403) && Py.contains "rate limit" (Py.lower (text r)).

(* ===================================================================== *)
(** * Hosting API client: metadata and file tree *)
(* ===================================================================== *)

(** The [except] clauses shared by the two retry loops: a time-out is
    retried (after a sleep, unless it was the last attempt); any other
    [RequestException] is retried the same way, and on the last attempt it
    is raised as [GitHubAPIError]; anything else propagates. *)
Definition retry_handler {A} (what : string) (attempt : Z) (continue : M A)
  (e : exn) : M A :=
  match e with
  | RequestsTimeout _ =>
      (if attempt <? 2 then sleep (2 ^ attempt) else ret tt) ;;; continue
  | RequestException msg =>
      if attempt <? 2 then sleep (2 ^ attempt) ;;; continue
      else raise (GitHubAPIError (what +:+ msg))
  | _ => raise e
  end.

(** One attempt of [_fetch_repo_info]: the body of its [try]. *)
Definition fetch_repo_info_attempt (env : Env) (url : string) : M json :=
  r <- requests_get env url ;;
  if is_rate_limited r then
    match rate_limit_reset r with
    | Some (ResetUnreadable cls msg) => raise (PyException cls msg)
    | _ => raise (GitHubAPIError "GitHub API rate limit exceeded")
    end
  else
    raise_for_status r ;;;
    response_json r.

(** The loop [for attempt in range(3)] of [_fetch_repo_info], from the
    attempts that remain; falling out of the loop returns [{}]. *)
Fixpoint fetch_repo_info_loop (env : Env) (url : string) (attempts : list Z)
  : M json :=
  match attempts with
  | [] => ret (JObject [])
  | attempt :: rest =>
      try_except (fetch_repo_info_attempt env url)
        (retry_handler "Failed to fetch repository info: " attempt
           (fetch_repo_info_loop env url rest))
  end.

(** [f"{Constants.GITHUB_API_BASE}/{owner}/{repo}"] *)
Definition repo_url (owner repo : string) : string :=
  Constants.GITHUB_API_BASE +:+ "/" +:+ owner +:+ "/" +:+ repo.

Definition _fetch_repo_info (env : Env) (owner repo : string) : M json :=
  let url := repo_url owner repo in
  fetch_repo_info_loop env url (Py.range 3).

(** [item['path']] for the items whose [item['type'] == 'blob']; a
    missing key is a [KeyError], an item that is not a dictionary a
    [TypeError]. *)
Fixpoint blob_paths (items : list json) : result (list json) :=
  match items with
  | [] => Ok []
  | JObject item :: rest =>
      match dict_get "type" item with
      | None => Raise (PyException "KeyError" "'type'")
      | Some ty =>
          match ty with
          | JString "blob" =>
              match dict_get "path" item with
              | None => Raise (PyException "KeyError" "'path'")
              | Some p =>
                  match blob_paths rest with
                  | Ok ps => Ok (p :: ps)
                  | Raise e => Raise e
                  end
              end
          | _ => blob_paths rest
          end
      end
  | _ :: _ => Raise (PyException "TypeError" "indices must be integers")
  end.

(** [[item['path'] for item in tree_data.get('tree', []) if ...]] *)
Definition tree_file_paths (tree_data : json) : result (list json) :=
  match tree_data with
  | JObject d =>
      match dict_get "tree" d with
      | None => Ok []
      | Some (JArray items) => blob_paths items
      | Some (JObject []) => Ok []
      | Some (JObject (_ :: _)) =>
          Raise (PyException "TypeError" "string indices must be integers")
      | Some (JString s) =>
          if String.eqb s "" then Ok []
          else Raise (PyException "TypeError" "string indices must be integers")
      | Some _ => Raise (PyException "TypeError" "object is not iterable")
      end
  | _ => Raise (PyException "AttributeError" "object has no attribute 'get'")
  end.

Definition lift {A} (r : result A) : M A :=
  match r with Ok a => ret a | Raise e => raise e end.

(** One attempt of [_fetch_complete_file_tree]: the body of its [try]. *)
Definition fetch_tree_attempt (env : Env) (url : string) : M (list json) :=
  r <- requests_get env url ;;
  if is_rate_limited r then
    raise (GitHubAPIError "GitHub API rate limit exceeded")
  else
    raise_for_status r ;;;
    tree_data <- response_json r ;;
    lift (tree_file_paths tree_data).

Fixpoint fetch_tree_loop (env : Env) (url : string) (attempts : list Z)
  : M (list json) :=
  match attempts with
  | [] => ret []
  | attempt :: rest =>
      try_except (fetch_tree_attempt env url)
        (retry_handler "Failed to fetch file tree: " attempt
           (fetch_tree_loop env url rest))
  end.

(** [f"{Constants.GITHUB_API_BASE}/{owner}/{repo}{Constants.GITHUB_TREE_ENDPOINT}"] *)
Definition tree_url (owner repo : string) : string :=
  Constants.GITHUB_API_BASE +:+ "/" +:+ owner +:+ "/" +:+ repo
  +:+ Constants.GITHUB_TREE_ENDPOINT.

Definition _fetch_complete_file_tree (env : Env) (owner repo : string)
  : M (list json) :=
  let url := tree_url owner repo in
  fetch_tree_loop env url (Py.range 3).

(* ===================================================================== *)
(** * AI client *)
(* ===================================================================== *)

(** The terms whose presence in [str(e).lower()] stops the retries. *)
Definition AUTH_TERMS : list string :=
  ["authentication"; "api_key"; "unauthorized"; "forbidden"].

(** [any(term in error_str for term in [...])] with
    [error_str = str(e).lower()] *)
Definition is_auth_error (e : exn) : bool :=
  Py.any (fun term => Py.contains term (Py.lower (exn_str e))) AUTH_TERMS.

(** [str(n)] for an integer *)
Definition str_of_Z (n : Z) : string := NilZero.string_of_int (Z.to_int n).

Definition auth_failed_msg (self : Analyzer) (e : exn) : string :=
  "Authentication failed for " +:+ model self +:+ ": " +:+ exn_str e.

Definition exhausted_msg (model_name : string) (e : exn) : string :=
  "AI model " +:+ model_name +:+ " failed after "
  +:+ str_of_Z Constants.AI_MAX_RETRIES +:+ " attempts: " +:+ exn_str e.

(** One attempt of [_call_ai_model]: the body of its [try]. *)
Definition call_ai_attempt (env : Env) (model_name : string)
  : M (option string) :=
  choices <- chat_completions_create env model_name ;;
  match choices with
  | content :: _ => ret content
  | [] => raise (AIModelError "AI model returned empty response")
  end.

(** The clause [except Exception as e] of [_call_ai_model]. *)
Definition call_ai_handler (self : Analyzer) (model_name : string)
  (attempt : Z) (continue : M (option string)) (e : exn)
  : M (option string) :=
  if is_auth_error e then raise (AIModelError (auth_failed_msg self e))
  else if attempt =? Constants.AI_MAX_RETRIES - 1 then
    raise (AIModelError (exhausted_msg model_name e))
  else
    sleep (Constants.AI_RETRY_DELAY * 2 ^ attempt) ;;; continue.

(** The loop [for attempt in range(Constants.AI_MAX_RETRIES)], from the
    attempts that remain. *)
Fixpoint call_ai_loop (env : Env) (self : Analyzer) (model_name : string)
  (attempts : list Z) : M (option string) :=
  match attempts with
  | [] => raise (AIModelError "Unexpected error in AI model call")
  | attempt :: rest =>
      try_except (call_ai_attempt env model_name)
        (call_ai_handler self model_name attempt
           (call_ai_loop env self model_name rest))
  end.

(** [Constants.MODEL_NAME_MAP.get(self.model, MODEL_NAME_MAP[DEFAULT_MODEL])] *)
Definition provider_model_name (self : Analyzer) : string :=
  match dict_get (model self) Constants.MODEL_NAME_MAP with
  | Some name => name
  | None =>
      match dict_get Constants.DEFAULT_MODEL Constants.MODEL_NAME_MAP with
      | Some name => name
      | None => ""
      end
  end.

Definition _call_ai_model (env : Env) (self : Analyzer) : M (option string) :=
  call_ai_loop env self (provider_model_name self)
    (Py.range Constants.AI_MAX_RETRIES).

(* ===================================================================== *)
(** * File filter *)
(* ===================================================================== *)

(** The loop of [_filter_files], with the set of supported extensions as
    a parameter. *)
Fixpoint filter_files (supported : list string) (cfg : Config)
  (all_files : list string) : list string :=
  match all_files with
  | [] => []
  | file_path :: rest =>
      if Py.any (fun excluded_dir => Py.mem excluded_dir (Py.split "/" file_path))
                (excluded_directories cfg)
      then filter_files supported cfg rest
      else if Py.any (fun ext => Py.endswith ext file_path)
                     (excluded_file_extensions cfg)
      then filter_files supported cfg rest
      else
        let file_ext := Py.lower (Py.path_suffix file_path) in
        if negb (String.eqb file_ext "") && negb (Py.mem file_ext supported)
        then filter_files supported cfg rest
        else file_path :: filter_files supported cfg rest
  end.

Definition _filter_files (self : Analyzer) (all_files : list string)
  : list string :=
  filter_files Constants.SUPPORTED_EXTENSIONS (config self) all_files.

(** The filter keeps a path or drops it on the path alone. *)
Definition kept (supported : list string) (cfg : Config) (file_path : string)
  : bool :=
  negb (Py.any (fun excluded_dir => Py.mem excluded_dir (Py.split "/" file_path))
               (excluded_directories cfg))
  && negb (Py.any (fun ext => Py.endswith ext file_path)
                  (excluded_file_extensions cfg))
  && negb (negb (String.eqb (Py.lower (Py.path_suffix file_path)) "")
           && negb (Py.mem (Py.lower (Py.path_suffix file_path)) supported)).

(* ===================================================================== *)
(** * Heuristic file ranker *)
(* ===================================================================== *)

(** The loop over [enumerate(Constants.PRIORITY_PATTERNS)] with its
    [break]: the score of the first pattern found in the path, 0 when there
    is none. [total] is [len(Constants.PRIORITY_PATTERNS)]. *)
Fixpoint priority_score (total : Z) (patterns : list (Z * string))
  (file_path : string) : Z :=
  match patterns with
  | [] => 0
  | (i, pattern) :: rest =>
      if Py.contains (Py.lower pattern) (Py.lower file_path)
      then (total - i) * 10
      else priority_score total rest file_path
  end.

Definition DOC_FILE_NAMES : list string :=
  ["readme.md"; "license"; "contributing.md"].

(** The score that the body of the loop of [_heuristic_file_selection]
    gives to one path. *)
Definition file_score (file_path : string) : Z :=
  let score := 0 in
  let file_name := Py.lower (Py.basename file_path) in
  let score :=
    score + priority_score (Py.llen Constants.PRIORITY_PATTERNS)
              (Py.enumerate Constants.PRIORITY_PATTERNS) file_path in
  let score := if Py.count "/" file_path =? 0 then score + 5 else score in
  let score :=
    if Py.contains "config" file_name || Py.contains "setup" file_name
    then score + 3 else score in
  let score := if Py.mem file_name DOC_FILE_NAMES then score + 2 else score in
  score.

(** [scored_files] after the loop. *)
Fixpoint score_files (all_files : list string) : list (string * Z) :=
  match all_files with
  | [] => []
  | file_path :: rest =>
      let score := file_score file_path in
      if score >? 0 then (file_path, score) :: score_files rest
      else score_files rest
  end.

(** [list.sort(key=lambda x: x[1], reverse=True)], a stable sort, as an
    insertion sort from the right: an entry goes before the first entry
    whose score is not greater than its own. *)
Fixpoint insert_by_score (x : string * Z) (l : list (string * Z))
  : list (string * Z) :=
  match l with
  | [] => [x]
  | y :: rest =>
      if y.2 >? x.2 then y :: insert_by_score x rest else x :: y :: rest
  end.

Fixpoint sort_by_score_desc (l : list (string * Z)) : list (string * Z) :=
  match l with
  | [] => []
  | x :: rest => insert_by_score x (sort_by_score_desc rest)
  end.

(** The ranking with the limit as a parameter. *)
Definition heuristic_rank (limit : Z) (all_files : list string) : list string :=
  let scored_files := sort_by_score_desc (score_files all_files) in
  List.map fst (Py.lslice_to scored_files limit).

Definition _heuristic_file_selection (self : Analyzer) (all_files : list string)
  : list string :=
  heuristic_rank (max_files_to_analyze (config self)) all_files.

(* ===================================================================== *)
(** * AI file selector *)
(* ===================================================================== *)

(** Whether a float literal denotes zero (underflow is not modelled). *)
Fixpoint float_is_zero (lexeme : string) : bool :=
  match lexeme with
  | EmptyString => true
  | String c t =>
      if Ascii.eqb c "e" || Ascii.eqb c "E" then true
      else if Ascii.eqb c "N" || Ascii.eqb c "I" then false
      else if Json.is_digit c && negb (Ascii.eqb c "0") then false
      else float_is_zero t
  end.

(** Truth value of a JSON value, as [if v] and [x if v else y] test it. *)
Definition truthy (v : json) : bool :=
  match v with
  | JNull => false
  | JBool b => b
  | JInt n => negb (n =? 0)
  | JFloat lexeme => negb (float_is_zero lexeme)
  | JString s => negb (String.eqb s "")
  | JArray items => match items with [] => false | _ => true end
  | JObject fields => match fields with [] => false | _ => true end
  end.

(** [[c for c in s]] *)
Fixpoint chars (s : string) : list string :=
  match s with
  | EmptyString => []
  | String c t => String c "" :: chars t
  end.

(** What iterating over a JSON value yields: the items of a list, the
    keys of a dictionary, the characters of a string; anything else is
    not iterable. *)
Definition iterate (v : json) : result (list json) :=
  match v with
  | JArray items => Ok items
  | JObject fields => Ok (List.map JString (dict_keys fields))
  | JString s => Ok (List.map JString (chars s))
  | _ => Raise (PyException "TypeError" "object is not iterable")
  end.

(** The items as strings, or the [TypeError] of [str.join] on an item
    that is not one. *)
Fixpoint all_strings (items : list json) : result (list string) :=
  match items with
  | [] => Ok []
  | JString s :: rest =>
      match all_strings rest with
      | Ok l => Ok (s :: l)
      | Raise e => Raise e
      end
  | _ :: _ => Raise (PyException "TypeError" "expected str instance")
  end.

(** [topics = repo_info.get('topics', [])] followed by
    [", ".join(topics) if topics else default]: the only step of the
    construction of a prompt that can raise. *)
Definition topics_str (repo_info : list (string * json)) (default : string)
  : result string :=
  let topics :=
    match dict_get "topics" repo_info with
    | Some v => v
    | None => JArray []
    end in
  if truthy topics then
    match iterate topics with
    | Raise _ => Raise (PyException "TypeError" "can only join an iterable")
    | Ok items =>
        match all_strings items with
        | Ok l => Ok (Py.join ", " l)
        | Raise e => Raise e
        end
    end
  else Ok default.

(** [[f for f in selected_files if isinstance(f, str) and f in all_files]] *)
Fixpoint valid_selection (selected_files : list json) (all_files : list string)
  : list string :=
  match selected_files with
  | [] => []
  | JString f :: rest =>
      if Py.mem f all_files then f :: valid_selection rest all_files
      else valid_selection rest all_files
  | _ :: rest => valid_selection rest all_files
  end.

(** The text between the first [opener] and the last [closer], both
    included, parsed by [json.loads]: the extraction that the selector
    (with brackets), the structure analyzer and the final analysis (with
    braces) apply to a model response. [Ok None] when a delimiter is
    missing, [Raise] for [json.JSONDecodeError]. *)
Definition extract_json (opener closer : ascii) (ai_response : string)
  : result (option json) :=
  let start_idx := Py.find opener ai_response in
  let end_idx := Py.rfind closer ai_response + 1 in
  if negb (start_idx =? -1) && (end_idx >? 0) then
    let json_str := Py.slice ai_response start_idx end_idx in
    match Json.loads json_str with
    | Some v => Ok (Some v)
    | None => Raise (PyException "JSONDecodeError" "Expecting value")
    end
  else Ok None.

(** The [try] block of [_ai_select_files_to_analyze]: [Some] selection
    when it returns one, [None] when control falls through to the
    fallback. *)
Definition ai_selection_attempt (env : Env) (self : Analyzer)
  (all_files : list string) : M (option (list string)) :=
  ai_response <- _call_ai_model env self ;;
  match ai_response with
  | Some response_text =>
      extracted <- lift (extract_json "[" "]" response_text) ;;
      match extracted with
      | Some selected_files =>
          items <- lift (iterate selected_files) ;;
          let valid_selected := valid_selection items all_files in
          match valid_selected with
          | _ :: _ =>
              ret (Some (Py.lslice_to valid_selected
                           (max_files_to_analyze (config self))))
          | [] => ret None
          end
      | None => ret None
      end
  | None => ret None
  end.

Definition _ai_select_files_to_analyze (env : Env) (self : Analyzer)
  (all_files : list string) (repo_info : list (string * json))
  : M (list string) :=
  lift (topics_str repo_info "None specified") ;;;
  selected <- try_except (ai_selection_attempt env self all_files)
                (fun _ => ret None) ;;
  match selected with
  | Some files => ret files
  | None => ret (_heuristic_file_selection self all_files)
  end.

(* ===================================================================== *)
(** * Content fetcher *)
(* ===================================================================== *)

Module Base64.

(** The value of a character of the base64 alphabet. *)
Definition value (c : ascii) : option Z :=
  let n := Z.of_nat (nat_of_ascii c) in
  if (65 <=? n) && (n <=? 90) then Some (n - 65)
  else if (97 <=? n) && (n <=? 122) then Some (n - 71)
  else if (48 <=? n) && (n <=? 57) then Some (n + 4)
  else if n =? 43 then Some 62
  else if n =? 47 then Some 63
  else None.

(** [binascii.a2b_base64] without strict mode: characters outside the
    alphabet are skipped, a complete pad sequence ends the data, and data
    that stops inside a group of four is an error. [out] is reversed. *)
Fixpoint a2b (s : string) (quad_pos leftchar pads : Z) (out : string)
  : option string :=
  match s with
  | EmptyString => if quad_pos =? 0 then Some (String.rev out) else None
  | String c t =>
      if Ascii.eqb c "=" then
        if (quad_pos >=? 2) && (quad_pos + (pads + 1) >=? 4)
        then Some (String.rev out)
        else a2b t quad_pos leftchar
               (if quad_pos >=? 2 then pads + 1 else pads) out
      else
        match value c with
        | None => a2b t quad_pos leftchar pads out
        | Some v =>
            if quad_pos =? 0 then a2b t 1 v 0 out
            else if quad_pos =? 1 then
              a2b t 2 (v mod 16) 0 (String (Json.chr (leftchar * 4 + v / 16)) out)
            else if quad_pos =? 2 then
              a2b t 3 (v mod 4) 0 (String (Json.chr (leftchar * 16 + v / 4)) out)
            else
              a2b t 0 0 0 (String (Json.chr (leftchar * 64 + v)) out)
        end
  end.

Fixpoint is_ascii (s : string) : bool :=
  match s with
  | EmptyString => true
  | String c t => (nat_of_ascii c <? 128)%nat && is_ascii t
  end.

(** [base64.b64decode(s)] for a [str]; [None] when it raises. *)
Definition b64decode (s : string) : option string :=
  if is_ascii s then a2b s 0 0 0 EmptyString else None.

Definition byte (c : ascii) : Z := Z.of_nat (nat_of_ascii c).

Definition is_cont (c : ascii) : bool := (128 <=? byte c) && (byte c <=? 191).

(** Whether a byte string is well-formed UTF-8, that is, whether
    [bytes.decode('utf-8')] returns. *)
Fixpoint utf8_valid (s : string) : bool :=
  match s with
  | EmptyString => true
  | String a t =>
      let x := byte a in
      if x <? 128 then utf8_valid t
      else if (194 <=? x) && (x <=? 223) then
        match t with
        | String b t1 => is_cont b && utf8_valid t1
        | _ => false
        end
      else if (224 <=? x) && (x <=? 239) then
        match t with
        | String b (String c t2) =>
            is_cont b && is_cont c
            && (if x =? 224 then 160 <=? byte b else true)
            && (if x =? 237 then byte b <=? 159 else true)
            && utf8_valid t2
        | _ => false
        end
      else if (240 <=? x) && (x <=? 244) then
        match t with
        | String b (String c (String d t3)) =>
            is_cont b && is_cont c && is_cont d
            && (if x =? 240 then 144 <=? byte b else true)
            && (if x =? 244 then byte b <=? 143 else true)
            && utf8_valid t3
        | _ => false
        end
      else false
  end.

End Base64.

(** ["\n... (truncated)"] *)
Definition TRUNCATION_MARKER : string := String "010" "... (truncated)".

(** The size limit per file: a text longer than [max_size] is cut to
    [decoded_text[:max_size]] and the marker is added. *)
Definition truncate (max_size : Z) (decoded_text : string) : string :=
  if Py.len decoded_text >? max_size
  then Py.slice_to decoded_text max_size +:+ TRUNCATION_MARKER
  else decoded_text.

(** How one turn of a loop ends. *)
Inductive loop_ctl : Type := Continue | Break.

(** The part of the loop body that follows [content_data = response.json()]
    in [_fetch_file_contents]: the new dictionary and total, or the state
    unchanged when the entry is skipped. *)
Definition store_content (self : Analyzer) (file_path : string)
  (content_data : json) (file_contents : list (string * string))
  (total_content_size : Z) : result (list (string * string) * Z) :=
  match content_data with
  | JObject d =>
      match dict_get "encoding" d with
      | Some (JString "base64") =>
          match dict_get "content" d with
          | Some (JString content) =>
              match Base64.b64decode content with
              | Some decoded_bytes =>
                  if Base64.utf8_valid decoded_bytes then
                    let decoded_text := decoded_bytes in
                    let max_size := max_file_size (config self) in
                    let decoded_text := truncate max_size decoded_text in
                    Ok (dict_set file_path decoded_text file_contents,
                        total_content_size + Py.len decoded_text)
                  else Ok (file_contents, total_content_size)
              | None => Ok (file_contents, total_content_size)
              end
          | _ => Ok (file_contents, total_content_size)
          end
      | _ => Ok (file_contents, total_content_size)
      end
  | _ => Raise (PyException "AttributeError" "object has no attribute 'get'")
  end.

(** The [try] block of the loop body of [_fetch_file_contents]. *)
Definition fetch_one_file (env : Env) (self : Analyzer) (url : string)
  (file_path : string) (file_contents : list (string * string))
  (total_content_size : Z)
  : M (loop_ctl * (list (string * string) * Z)) :=
  r <- requests_get env url ;;
  if is_rate_limited r then ret (Break, (file_contents, total_content_size))
  else if status_code r =? 404 then
    ret (Continue, (file_contents, total_content_size))
  else
    raise_for_status r ;;;
    content_data <- response_json r ;;
    st <- lift (store_content self file_path content_data file_contents
                  total_content_size) ;;
    ret (Continue, st).

(** The loop of [_fetch_file_contents], with the budget as a parameter;
    it returns the dictionary and the running total. Both [except] clauses
    go on with the next path and leave the state as it was. *)
Fixpoint fetch_contents_loop (env : Env) (self : Analyzer)
  (owner repo : string) (max_total_size : Z) (file_paths : list string)
  (file_contents : list (string * string)) (total_content_size : Z)
  : M (list (string * string) * Z) :=
  match file_paths with
  | [] => ret (file_contents, total_content_size)
  | file_path :: rest =>
      if total_content_size >=? max_total_size
      then ret (file_contents, total_content_size)
      else
        let url := Constants.GITHUB_API_BASE +:+ "/" +:+ owner +:+ "/" +:+ repo
                   +:+ Constants.GITHUB_CONTENTS_ENDPOINT +:+ "/" +:+ file_path in
        step <- try_except
                  (fetch_one_file env self url file_path file_contents
                     total_content_size)
                  (fun _ => ret (Continue, (file_contents, total_content_size))) ;;
        match step with
        | (Break, st) => ret st
        | (Continue, (file_contents', total')) =>
            fetch_contents_loop env self owner repo max_total_size rest
              file_contents' total'
        end
  end.

Definition fetch_file_contents_with (max_total_size : Z) (env : Env)
  (self : Analyzer) (owner repo : string) (file_paths : list string)
  : M (list (string * string)) :=
  st <- fetch_contents_loop env self owner repo max_total_size file_paths [] 0 ;;
  ret st.1.

Definition _fetch_file_contents (env : Env) (self : Analyzer)
  (owner repo : string) (file_paths : list string)
  : M (list (string * string)) :=
  fetch_file_contents_with Constants.MAX_TOTAL_CONTENT_SIZE env self owner repo
    file_paths.

(** [sum(len(v) for v in file_contents.values())] *)
Fixpoint total_length (file_contents : list (string * string)) : Z :=
  match file_contents with
  | [] => 0
  | (_, v) :: rest => Py.len v + total_length rest
  end.

(* ===================================================================== *)
(** * Structure analyzer *)
(* ===================================================================== *)

(** [sorted(l)] on strings, as an insertion sort. *)
Fixpoint insert_str (x : string) (l : list string) : list string :=
  match l with
  | [] => [x]
  | y :: rest => if String.ltb y x then y :: insert_str x rest else x :: y :: rest
  end.

Fixpoint sorted_strs (l : list string) : list string :=
  match l with
  | [] => []
  | x :: rest => insert_str x (sorted_strs rest)
  end.

(** The directories that the inner loop adds for one path:
    ['/'.join(dir_parts[:i+1])] for each [i]. *)
Definition dir_prefixes (file_path : string) : list string :=
  let dir_parts := Py.lslice_to (Py.split "/" file_path) (-1) in
  List.map (fun i => Py.join "/" (Py.lslice_to dir_parts (i + 1)))
           (Py.range (Py.llen dir_parts)).

(** The first loop of [_heuristic_structure_analysis]: the set of
    directories and the count of each extension. *)
Fixpoint scan_tree (all_files : list string) (directories : gset string)
  (file_extensions : list (string * Z)) : gset string * list (string * Z) :=
  match all_files with
  | [] => (directories, file_extensions)
  | file_path :: rest =>
      let directories := directories ∪ list_to_set (dir_prefixes file_path) in
      let file_extensions :=
        if Py.contains "." file_path then
          let ext := Py.lower (Py.splitext_ext file_path) in
          let seen := match dict_get ext file_extensions with
                      | Some n => n
                      | None => 0
                      end in
          dict_set ext (seen + 1) file_extensions
        else file_extensions in
      scan_tree rest directories file_extensions
  end.

Definition extension_to_language : list (string * string) :=
  [ (".js", "JavaScript"); (".ts", "TypeScript"); (".py", "Python");
    (".java", "Java"); (".go", "Go"); (".rs", "Rust"); (".cpp", "C++");
    (".c", "C"); (".cs", "C#"); (".rb", "Ruby"); (".php", "PHP");
    (".swift", "Swift"); (".kt", "Kotlin"); (".scala", "Scala") ].

(** [languages_detected] after its loop. *)
Fixpoint detect_languages (file_extensions : list (string * Z)) : list string :=
  match file_extensions with
  | [] => []
  | (ext, count) :: rest =>
      match dict_get ext extension_to_language with
      | Some lang =>
          if count >? 0 then lang :: detect_languages rest
          else detect_languages rest
      | None => detect_languages rest
      end
  end.

(** [[d for d in directories if any(m in d for m in markers)]] *)
Definition dirs_with (markers : list string) (directories : list string)
  : list string :=
  List.filter (fun d => Py.any (fun m => Py.contains m d) markers) directories.

Definition jstrings (l : list string) : json := JArray (List.map JString l).

(** [{lang: "estimated" for lang in langs}] *)
Fixpoint estimated (langs : list string) (acc : list (string * json))
  : list (string * json) :=
  match langs with
  | [] => acc
  | lang :: rest => estimated rest (dict_set lang (JString "estimated") acc)
  end.

(** The deterministic fallback. A Python set is iterated in an order of
    its own; here it is the order of [elements]. *)
Definition _heuristic_structure_analysis (all_files : list string)
  (repo_info : list (string * json)) : json :=
  let '(directories, file_extensions) := scan_tree all_files ∅ [] in
  let dirs := elements directories in
  let languages_detected := detect_languages file_extensions in
  let has_tests :=
    Py.any (fun f => Py.contains "test" (Py.lower f)
                     || Py.contains "spec" (Py.lower f)) all_files in
  let has_ci_cd :=
    Py.any (fun f => Py.contains ".github/" f || Py.contains ".gitlab-ci" f
                     || Py.contains "jenkinsfile" (Py.lower f)) all_files in
  let has_docker :=
    Py.any (fun f => Py.contains "dockerfile" (Py.lower f)
                     || Py.contains "docker-compose" (Py.lower f)) all_files in
  let has_docs :=
    Py.any (fun f => Py.contains "readme" (Py.lower f)
                     || Py.contains "doc" (Py.lower f)) all_files in
  let package_json_count :=
    Py.llen (List.filter (fun f => Py.endswith "package.json" f) all_files) in
  let is_monorepo :=
    (package_json_count >? 1)
    || Py.any (fun f => Py.contains "lerna.json" f || Py.contains "nx.json" f)
              all_files in
  JObject
    [ ("directories", JObject
        [ ("main_directories", jstrings (Py.lslice_to (sorted_strs dirs) 10));
          ("source_directories", jstrings (dirs_with ["src"; "lib"; "app"] dirs));
          ("config_directories",
             jstrings (dirs_with ["config"; "conf"; ".github"] dirs));
          ("test_directories",
             jstrings (dirs_with ["test"; "spec"; "__tests__"] dirs));
          ("doc_directories",
             jstrings (dirs_with ["doc"; "docs"; "documentation"] dirs)) ]);
      ("languages", JObject
        [ ("primary_language",
             match dict_get "language" repo_info with
             | Some v => v
             | None => JString "Unknown"
             end);
          ("secondary_languages", jstrings (Py.lslice_to languages_detected 5));
          ("language_distribution",
             JObject (estimated (Py.lslice_to languages_detected 3) []));
          ("frameworks_detected", JArray []) ]);
      ("project_type", JObject
        [ ("architecture",
             JString (if is_monorepo then "monorepo" else "single-project"));
          ("complexity", JString "moderate");
          ("domain", JString "unknown");
          ("scale", JString "unknown") ]);
      ("features", JObject
        [ ("has_tests", JBool has_tests);
          ("has_ci_cd", JBool has_ci_cd);
          ("has_documentation", JBool has_docs);
          ("has_docker", JBool has_docker);
          ("has_database", JBool false);
          ("has_api", JBool false);
          ("has_frontend",
             JBool (Py.any (fun ext => dict_mem ext file_extensions)
                           [".html"; ".css"; ".js"; ".ts"]));
          ("has_backend",
             JBool (Py.any (fun ext => dict_mem ext file_extensions)
                           [".py"; ".java"; ".go"; ".php"])) ]);
      ("monorepo_analysis", JObject
        [ ("is_monorepo", JBool is_monorepo);
          ("workspace_tool", JString "unknown");
          ("packages", JArray []);
          ("shared_dependencies", JBool false) ]);
      ("build_system", JObject
        [ ("build_tools", JArray []);
          ("package_managers", JArray []);
          ("bundlers", JArray []);
          ("task_runners", JArray []) ]);
      ("deployment", JObject
        [ ("deployment_targets", JArray []);
          ("containerization", JString (if has_docker then "docker" else "none"));
          ("infrastructure_as_code", JString "none") ]);
      ("quality_assurance", JObject
        [ ("linting", JArray []);
          ("formatting", JArray []);
          ("testing_frameworks", JArray []);
          ("code_coverage", JBool false) ]);
      ("insights", JObject
        [ ("architectural_patterns", JArray []);
          ("notable_conventions", JArray []);
          ("potential_improvements", JArray []);
          ("estimated_team_size", JString "unknown");
          ("maintenance_level", JString "unknown");
          ("fallback_analysis", JBool true) ]) ].

(** The [try] block of [_ai_analyze_repo_structure]: [Some] analysis when
    it returns one, [None] when control falls through to the fallback. *)
Definition ai_structure_attempt (env : Env) (self : Analyzer)
  : M (option json) :=
  ai_response <- _call_ai_model env self ;;
  match ai_response with
  | Some response_text => lift (extract_json "{" "}" response_text)
  | None => ret None
  end.

Definition _ai_analyze_repo_structure (env : Env) (self : Analyzer)
  (all_files : list string) (repo_info : list (string * json)) : M json :=
  lift (topics_str repo_info "None") ;;;
  analysis <- try_except (ai_structure_attempt env self) (fun _ => ret None) ;;
  match analysis with
  | Some structure_analysis => ret structure_analysis
  | None => ret (_heuristic_structure_analysis all_files repo_info)
  end.

(** The sections of a structure analysis and the fields of each, as the
    prompt of [_ai_analyze_repo_structure] lists them. *)
Definition STRUCTURE_SHAPE : list (string * list string) :=
  [ ("directories", ["main_directories"; "source_directories";
                     "config_directories"; "test_directories";
                     "doc_directories"]);
    ("languages", ["primary_language"; "secondary_languages";
                   "language_distribution"; "frameworks_detected"]);
    ("project_type", ["architecture"; "complexity"; "domain"; "scale"]);
    ("features", ["has_tests"; "has_ci_cd"; "has_documentation"; "has_docker";
                  "has_database"; "has_api"; "has_frontend"; "has_backend"]);
    ("monorepo_analysis", ["is_monorepo"; "workspace_tool"; "packages";
                           "shared_dependencies"]);
    ("build_system", ["build_tools"; "package_managers"; "bundlers";
                      "task_runners"]);
    ("deployment", ["deployment_targets"; "containerization";
                    "infrastructure_as_code"]);
    ("quality_assurance", ["linting"; "formatting"; "testing_frameworks";
                           "code_coverage"]);
    ("insights", ["architectural_patterns"; "notable_conventions";
                  "potential_improvements"; "estimated_team_size";
                  "maintenance_level"]) ].

(** A section is present and is a dictionary that has all its fields. *)
Definition has_section (v : json) (section : string * list string) : bool :=
  match v with
  | JObject top =>
      match dict_get section.1 top with
      | Some (JObject fields) =>
          forallb (fun k => dict_mem k fields) section.2
      | _ => false
      end
  | _ => false
  end.

(** The full fixed shape of a StructureAnalysis. *)
Definition has_full_shape (v : json) : bool :=
  forallb (has_section v) STRUCTURE_SHAPE.

(** The marker [insights.fallback_analysis] is present and true. *)
Definition is_fallback (v : json) : bool :=
  match v with
  | JObject top =>
      match dict_get "insights" top with
      | Some (JObject fields) =>
          match dict_get "fallback_analysis" fields with
          | Some (JBool true) => true
          | _ => false
          end
      | _ => false
      end
  | _ => false
  end.

(* ===================================================================== *)
(** * The ranking and the extraction as the specification words them *)
(* ===================================================================== *)

(** The index of the first element that satisfies [f]. *)
Fixpoint first_index {A} (f : A -> bool) (l : list A) : option nat :=
  match l with
  | [] => None
  | x :: rest =>
      if f x then Some O
      else match first_index f rest with
           | Some i => Some (S i)
           | None => None
           end
  end.

(** A priority pattern matches a path when it occurs in it, case apart. *)
Definition pattern_matches (file_path pattern : string) : bool :=
  Py.contains (Py.lower pattern) (Py.lower file_path).

(** The score in the words of the specification: the first matching
    pattern awards (patternListLength - patternIndex) * 10, then +5 for a
    path with no directory component, +3 for a lowercase file name that
    contains "config" or "setup", +2 for a lowercase file name that is one
    of the documentation and license names. *)
Definition spec_score (file_path : string) : Z :=
  let file_name := Py.lower (Py.basename file_path) in
  match first_index (pattern_matches file_path) Constants.PRIORITY_PATTERNS with
  | Some i => (Py.llen Constants.PRIORITY_PATTERNS - Z.of_nat i) * 10
  | None => 0
  end
  + (if bool_decide ("/"%char ∈ list_ascii_of_string file_path) then 0 else 5)
  + (if Py.contains "config" file_name || Py.contains "setup" file_name
     then 3 else 0)
  + (if bool_decide (file_name ∈ DOC_FILE_NAMES) then 2 else 0).


(** A path to which no scoring rule applies. *)
Definition scores_nothing (file_path : string) : Prop :=
  let file_name := Py.lower (Py.basename file_path) in
  (forall pattern, pattern ∈ Constants.PRIORITY_PATTERNS ->
                   pattern_matches file_path pattern = false)
  /\ "/"%char ∈ list_ascii_of_string file_path
  /\ Py.contains "config" file_name = false
  /\ Py.contains "setup" file_name = false
  /\ file_name ∉ DOC_FILE_NAMES.

(** All the substrings of a text that start at its head. *)
Fixpoint prefixes (s : string) : list string :=
  match s with
  | EmptyString => [EmptyString]
  | String c t => EmptyString :: List.map (String c) (prefixes t)
  end.

(** The JSON values that a text embeds between an [opener] and a
    [closer]: what [json.loads] returns on each of its substrings with
    these ends, position by position. *)
Fixpoint embedded_values (opener closer : ascii) (s : string) : list json :=
  match s with
  | EmptyString => []
  | String c t =>
      (if Ascii.eqb c opener then
         omap (fun p => if Py.endswith (String closer "") p
                        then Json.loads p else None)
              (prefixes s)
       else [])
      ++ embedded_values opener closer t
  end.

(* ===================================================================== *)
(** * Concrete repositories, responses and model answers *)
(* ===================================================================== *)

Definition quoted (s : string) : string :=
  String Json.dquote s +:+ String Json.dquote "".

Fixpoint repeat_str (n : nat) (s : string) : string :=
  match n with
  | O => EmptyString
  | S m => s +:+ repeat_str m s
  end.

(** The body of a contents response whose file is [b64] in base64. *)
Definition contents_body (b64 : string) : string :=
  "{" +:+ quoted "encoding" +:+ ": " +:+ quoted "base64" +:+ ", "
  +:+ quoted "content" +:+ ": " +:+ quoted b64 +:+ "}".

Definition ok_response (body : string) : response :=
  {| status_code := 200; text := body; rate_limit_reset := None;
     http_error := "" |}.

Definition rate_limit_response (reset : option reset_header) : response :=
  {| status_code := 403; text := "API rate limit exceeded for 203.0.113.7.";
     rate_limit_reset := reset;
     http_error := "403 Client Error: rate limit exceeded" |}.

(** A hosting API that answers every request with [r], and a model
    endpoint that answers every call with [o]. *)
Definition constant_env (r : response) (o : ai_outcome) : Env :=
  {| http_get := fun _ _ => HttpResponse r; chat_create := fun _ _ => o |}.

Definition ai_down : ai_outcome :=
  AIRaises (PyException "APIConnectionError" "Connection error.").

Definition ai_unauthorized : ai_outcome :=
  AIRaises (PyException "AuthenticationError" "Error code: 401 - Unauthorized").

Definition default_analyzer : Analyzer :=
  {| model := "claude-sonnet"; config := DEFAULT_CONFIG |}.

(** A repository whose every file is 60 letters A, and one whose every
    file is 10002 letters A (more than the default [max_file_size]). *)
Definition env_files_60 : Env :=
  constant_env (ok_response (contents_body (repeat_str 20 "QUFB"))) ai_down.

Definition env_files_10002 : Env :=
  constant_env (ok_response (contents_body (repeat_str 3334 "QUFB"))) ai_down.

Definition ten_paths : list string :=
  ["a.py"; "b.py"; "c.py"; "d.py"; "e.py"; "f.py"; "g.py"; "h.py"; "i.py";
   "j.py"; "k.py"; "l.py"].

(** The analyzer with [max_files_to_analyze] set to [n]. *)
Definition analyzer_with_limit (n : Z) : Analyzer :=
  {| model := "claude-sonnet";
     config := {| max_files_to_analyze := n;
                  max_file_size := Constants.DEFAULT_MAX_FILE_SIZE;
                  excluded_directories := [];
                  excluded_file_extensions := [] |} |}.

(** A model answer that wraps a list of paths in prose. *)
Definition selection_answer : string :=
  "Sure! [" +:+ quoted "package.json" +:+ ", " +:+ quoted "missing.txt" +:+ "]".

(** A model answer whose prose has a bracket of its own. *)
Definition bracketed_prose_answer : string :=
  "Files [sorted]:[" +:+ quoted "a" +:+ "]".

(** A model answer that lists three paths. *)
Definition three_paths_answer : string :=
  "[" +:+ quoted "a.py" +:+ ", " +:+ quoted "b.py" +:+ ", " +:+ quoted "c.py"
  +:+ "]".

(** The analyzer with [max_file_size] set to [n]. *)
Definition analyzer_with_file_size (n : Z) : Analyzer :=
  {| model := "claude-sonnet";
     config := {| max_files_to_analyze := Constants.DEFAULT_MAX_FILES_TO_ANALYZE;
                  max_file_size := n;
                  excluded_directories := [];
                  excluded_file_extensions := [] |} |}.

(** A reset header that [int] rejects. *)
Definition unreadable_reset : reset_header :=
  ResetUnreadable "ValueError"
    "invalid literal for int() with base 10: 'soon'".

(* ===================================================================== *)
(** * Accounting of effects *)
(* ===================================================================== *)

(** The world [w'] is the world [w] after the events [t] and nothing
    else: so many more requests and model calls as [t] holds. *)
Definition is_get (e : event) : bool :=
  match e with EvGet _ => true | _ => false end.

Definition is_chat (e : event) : bool :=
  match e with EvChat _ => true | _ => false end.

Definition follows (w w' : world) (t : list event) : Prop :=
  http_calls w' = (http_calls w + length (List.filter is_get t))%nat
  /\ ai_calls w' = (ai_calls w + length (List.filter is_chat t))%nat
  /\ trace w' = trace w ++ t.

(** The seconds slept in a run of events. *)
Fixpoint slept (t : list event) : Z :=
  match t with
  | [] => 0
  | EvSleep s :: rest => s + slept rest
  | _ :: rest => slept rest
  end.

(** The world [w'] is the world [w] after at most [gets] requests, at
    most [chats] model calls and at most [seconds] seconds of sleep. *)
Definition within (w w' : world) (gets chats : nat) (seconds : Z) : Prop :=
  exists t, follows w w' t
            /\ (length (List.filter is_get t) <= gets)%nat
            /\ (length (List.filter is_chat t) <= chats)%nat
            /\ 0 <= slept t <= seconds.

(** The events of a run of up to three attempts with sleeps of [d1] and
    [d2] seconds in between, [e] being the event of one attempt. *)
Definition retry_runs (e : event) (d1 d2 : Z) : list (list event) :=
  [ [e]; [e; EvSleep d1; e]; [e; EvSleep d1; e; EvSleep d2; e] ].

(** The shape that the two retry loops of the hosting client share:
    [attempt_body] is the body of the [try], [what] the prefix of the
    final error and [default] the value returned after the loop. *)
Fixpoint retry_loop {A} (attempt_body : M A) (what : string) (default : A)
  (attempts : list Z) : M A :=
  match attempts with
  | [] => ret default
  | attempt :: rest =>
      try_except attempt_body
        (retry_handler what attempt (retry_loop attempt_body what default rest))
  end.

(** An outcome of an attempt that the retry loops answer with another
    attempt: a time-out or another [RequestException]. *)
Definition retried {A} (r : result A) : bool :=
  match r with
  | Raise (RequestsTimeout _) | Raise (RequestException _) => true
  | _ => false
  end.

(** What the retry loops make of the outcome of the third attempt. *)
Definition last_outcome {A} (what : string) (default : A) (r : result A)
  : result A :=
  match r with
  | Raise (RequestsTimeout _) => Ok default
  | Raise (RequestException msg) => Raise (GitHubAPIError (what +:+ msg))
  | _ => r
  end.

(** An outcome of a call to the model that [_call_ai_model] answers with
    another call: an exception without an authentication marker. *)
Definition ai_retried {A} (r : result A) : bool :=
  match r with
  | Raise e => negb (is_auth_error e)
  | Ok _ => false
  end.

(** What [_call_ai_model] makes of the outcome of an attempt that it does
    not retry, [last] telling whether it was the third. *)
Definition ai_outcome_of (self : Analyzer) (model_name : string) (last : bool)
  (r : result (option string)) : result (option string) :=
  match r with
  | Ok content => Ok content
  | Raise e =>
      if is_auth_error e then Raise (AIModelError (auth_failed_msg self e))
      else if last then Raise (AIModelError (exhausted_msg model_name e))
      else Raise e
  end.

(* ===================================================================== *)
(** * Model name and repository URL *)
(* ===================================================================== *)

(** String methods of the URL parser and of the model name check, exact
    on ASCII text. *)
Module PyText.

(** [c.isspace()] on ASCII. *)
Definition is_space (c : ascii) : bool :=
  let n := nat_of_ascii c in
  ((9 <=? n)%nat && (n <=? 13)%nat) || ((28 <=? n)%nat && (n <=? 32)%nat).

(** [s.lstrip()] *)
Fixpoint lstrip (s : string) : string :=
  match s with
  | EmptyString => EmptyString
  | String c t => if is_space c then lstrip t else s
  end.

(** [s.rstrip()] *)
Fixpoint rstrip (s : string) : string :=
  match s with
  | EmptyString => EmptyString
  | String c t =>
      match rstrip t with
      | EmptyString => if is_space c then EmptyString else String c EmptyString
      | t' => String c t'
      end
  end.

(** [s.strip()] *)
Definition strip (s : string) : string := rstrip (lstrip s).

(** [s.rstrip(ch)] for a one-character [ch]. *)
Fixpoint rstrip_char (ch : ascii) (s : string) : string :=
  match s with
  | EmptyString => EmptyString
  | String c t =>
      match rstrip_char ch t with
      | EmptyString => if Ascii.eqb c ch then EmptyString else String c EmptyString
      | t' => String c t'
      end
  end.

(** [s.replace(old, '')] for a non-empty [old]: the occurrences of [old]
    are removed from left to right, without overlap; [skip] characters of
    an occurrence are still to be passed over. *)
Fixpoint remove_go (old : string) (skip : nat) (s : string) : string :=
  match s with
  | EmptyString => EmptyString
  | String c t =>
      match skip with
      | S k => remove_go old k t
      | O =>
          if Py.startswith old s
          then remove_go old (String.length old - 1) t
          else String c (remove_go old O t)
      end
  end.

Definition remove (old s : string) : string := remove_go old O s.

End PyText.

(** [repr(l)] for a list of strings that hold no quote, no backslash and
    no character that is not printable, as the keys of the model map. *)
Definition repr_names (l : list string) : string :=
  "[" +:+ Py.join ", " (List.map (fun k => "'" +:+ k +:+ "'") l) +:+ "]".

(** [model.lower().strip()], accepted when it is a key of
    [Constants.MODEL_NAME_MAP]; otherwise a [ConfigurationError]. *)
Definition _normalize_model_name (model_arg : string) : result string :=
  let normalized := PyText.strip (Py.lower model_arg) in
  if negb (dict_mem normalized Constants.MODEL_NAME_MAP) then
    let available_models := dict_keys Constants.MODEL_NAME_MAP in
    Raise (PyException "ConfigurationError"
             ("Unsupported model '" +:+ model_arg +:+ "'. Available: "
              +:+ repr_names available_models))
  else Ok normalized.

(** A character of the class [[a-zA-Z0-9._-]]. *)
Definition is_name_char (c : ascii) : bool :=
  let n := nat_of_ascii c in
  ((97 <=? n)%nat && (n <=? 122)%nat) || ((65 <=? n)%nat && (n <=? 90)%nat)
  || ((48 <=? n)%nat && (n <=? 57)%nat)
  || Ascii.eqb c "." || Ascii.eqb c "_" || Ascii.eqb c "-".

(** [re.match(r'^[a-zA-Z0-9._-]+$', s)]: one or more characters of the
    class up to the end of the string, where [$] also matches before a
    newline that ends the string. *)
Fixpoint name_re_match (s : string) : bool :=
  match s with
  | EmptyString => false
  | String c t =>
      is_name_char c
      && match t with
         | EmptyString => true
         | String d EmptyString => Ascii.eqb d "010" || is_name_char d
         | _ => name_re_match t
         end
  end.

(** A text made of characters of the class only, and a name: such a
    text that is not empty. *)
Fixpoint all_name_chars (s : string) : bool :=
  match s with
  | EmptyString => true
  | String c t => is_name_char c && all_name_chars t
  end.

Definition valid_name (s : string) : Prop :=
  s <> "" /\ all_name_chars s = true.

(** The forms of a repository URL that the parser strips: what may stand
    before and after [owner/repo]. *)
Definition URL_PREFIXES : list string :=
  [""; "https://github.com/"; "http://github.com/"; "git@github.com:"].

Definition URL_SUFFIXES : list string := [""; ".git"; "/"].

Definition invalid_url_msg (repo_url : string) : string :=
  "Invalid GitHub URL format: " +:+ repo_url
  +:+ ". Expected: https://github.com/owner/repo".

(** The [try] block of [_parse_github_url]; [None] when it raises. *)
Definition parse_github_url_body (repo_url : string) : option (string * string) :=
  let url := PyText.strip repo_url in
  let url := PyText.remove "https://github.com/" url in
  let url := PyText.remove "http://github.com/" url in
  let url := PyText.remove "git@github.com:" url in
  let url := PyText.remove ".git" url in
  let url := PyText.rstrip_char "/" url in
  match Py.split "/" url with
  | [owner; repo] =>
      if String.eqb owner "" || String.eqb repo "" then None
      else if negb (name_re_match owner) then None
      else if negb (name_re_match repo) then None
      else Some (owner, repo)
  | _ => None
  end.

(** Whatever the [try] block raises becomes one [ValueError]. *)
Definition _parse_github_url (repo_url : string) : result (string * string) :=
  match parse_github_url_body repo_url with
  | Some r => Ok r
  | None => Raise (PyException "ValueError" (invalid_url_msg repo_url))
  end.

(* ===================================================================== *)
(** * The pipeline: repository context *)
(* ===================================================================== *)

(** [type(v).__name__] *)
Definition type_name (v : json) : string :=
  match v with
  | JNull => "NoneType"
  | JBool _ => "bool"
  | JInt _ => "int"
  | JFloat _ => "float"
  | JString _ => "str"
  | JArray _ => "list"
  | JObject _ => "dict"
  end.

(** [Constants.APP_VERSION] *)
Definition APP_VERSION : string := "1.0.0".

(** [type(e).__name__]. A time-out or a request error is raised as an
    instance of a subclass, whose name the embedding does not keep; the
    handler that reads the name never meets one (the two fetches turn
    them into [GitHubAPIError], the content fetcher absorbs them). *)
Definition exn_class (e : exn) : string :=
  match e with
  | GitHubAPIError _ => "GitHubAPIError"
  | AIModelError _ => "AIModelError"
  | RequestsTimeout _ => "Timeout"
  | RequestException _ => "RequestException"
  | PyException cls _ => cls
  end.

Definition no_attribute (v : json) (attr : string) : exn :=
  PyException "AttributeError"
    ("'" +:+ type_name v +:+ "' object has no attribute '" +:+ attr +:+ "'").

(** The paths of a tree as strings, when they all are. *)
Fixpoint path_strings (all_files : list json) : option (list string) :=
  match all_files with
  | [] => Some []
  | JString p :: rest =>
      match path_strings rest with
      | Some l => Some (p :: l)
      | None => None
      end
  | _ :: _ => None
  end.

Fixpoint first_non_string (all_files : list json) : option json :=
  match all_files with
  | [] => None
  | JString _ :: rest => first_non_string rest
  | v :: _ => Some v
  end.

(** [_filter_files] on the paths that the tree fetch returned. A path
    that is not a string makes the first operation applied to it raise:
    [split] when a directory is excluded, [endswith] when an extension is,
    else the [Path] constructor (whose message is the interpreter's; the
    one given is that of CPython up to 3.11). *)
Definition filter_tree (self : Analyzer) (all_files : list json)
  : result (list string) :=
  match first_non_string all_files, path_strings all_files with
  | None, Some paths => Ok (_filter_files self paths)
  | Some v, _ =>
      match excluded_directories (config self),
            excluded_file_extensions (config self) with
      | _ :: _, _ => Raise (no_attribute v "split")
      | [], _ :: _ => Raise (no_attribute v "endswith")
      | [], [] =>
          Raise (PyException "TypeError"
                   ("expected str, bytes or os.PathLike object, not "
                    +:+ type_name v))
      end
  | None, None => Ok []
  end.

(** [repo_info.get(...)], the first use of the metadata in the selector,
    needs a dictionary. *)
Definition metadata_dict (repo_info : json) : result (list (string * json)) :=
  match repo_info with
  | JObject d => Ok d
  | v => Raise (no_attribute v "get")
  end.

(** The context dictionary that a successful run returns. *)
Record RepoContext : Type := {
  ctx_owner : string;
  ctx_repo : string;
  ctx_metadata : json;
  ctx_all_files : list string;
  ctx_structure : json;
  ctx_file_contents : list (string * string);
  ctx_total_files : Z;
  ctx_analyzed_files : Z;
  ctx_analysis_timestamp : string;
  ctx_analyzer_version : string
}.

(** The dictionary that a failed run returns. *)
Record ContextError : Type := {
  err_error : string;
  err_error_type : string;
  err_repo_url : string;
  err_timestamp : string
}.

Inductive context_result : Type :=
| Context (c : RepoContext)
| ContextFailed (e : ContextError).

(** The [try] block of [get_full_repository_context]; [now] is what
    [datetime.now().isoformat()] returns in this run. *)
Definition repository_context_steps (env : Env) (self : Analyzer)
  (repo_url now : string) : M RepoContext :=
  parsed <- lift (_parse_github_url repo_url) ;;
  let owner := parsed.1 in
  let repo := parsed.2 in
  repo_info <- _fetch_repo_info env owner repo ;;
  if negb (truthy repo_info)
  then raise (GitHubAPIError "Failed to fetch repository metadata")
  else
    all_files <- _fetch_complete_file_tree env owner repo ;;
    match all_files with
    | [] => raise (GitHubAPIError "Failed to fetch repository file tree")
    | _ :: _ =>
        filtered_files <- lift (filter_tree self all_files) ;;
        metadata <- lift (metadata_dict repo_info) ;;
        important_files <-
          _ai_select_files_to_analyze env self filtered_files metadata ;;
        file_contents <-
          _fetch_file_contents env self owner repo important_files ;;
        structure_analysis <-
          _ai_analyze_repo_structure env self filtered_files metadata ;;
        ret {| ctx_owner := owner;
               ctx_repo := repo;
               ctx_metadata := repo_info;
               ctx_all_files := filtered_files;
               ctx_structure := structure_analysis;
               ctx_file_contents := file_contents;
               ctx_total_files := Py.llen filtered_files;
               ctx_analyzed_files := Py.llen file_contents;
               ctx_analysis_timestamp := now;
               ctx_analyzer_version := APP_VERSION |}
    end.

Definition get_full_repository_context (env : Env) (self : Analyzer)
  (repo_url now : string) : M context_result :=
  try_except
    (c <- repository_context_steps env self repo_url now ;; ret (Context c))
    (fun e =>
       ret (ContextFailed
              {| err_error := "Error fetching repository context: " +:+ exn_str e;
                 err_error_type := exn_class e;
                 err_repo_url := repo_url;
                 err_timestamp := now |})).

(** [f"{Constants.GITHUB_API_BASE}/{owner}/{repo}{Constants.GITHUB_CONTENTS_ENDPOINT}/{file_path}"] *)
Definition contents_url (owner repo file_path : string) : string :=
  Constants.GITHUB_API_BASE +:+ "/" +:+ owner +:+ "/" +:+ repo
  +:+ Constants.GITHUB_CONTENTS_ENDPOINT +:+ "/" +:+ file_path.

(** The text [stored] is what the content fetcher makes of the answer to
    the [n]-th request, sent to [url]: the answer is a response that is
    no rate-limit answer and has no error status, its body is a
    dictionary whose encoding is base64 and whose content decodes to
    well-formed UTF-8, and [stored] is that text after the size limit. *)
Definition stored_text (env : Env) (self : Analyzer) (n : nat)
  (url stored : string) : Prop :=
  exists r d content decoded_bytes,
    http_get env n url = HttpResponse r
    /\ is_rate_limited r = false
    /\ (status_code r < 400 \/ 600 <= status_code r)
    /\ Json.loads (text r) = Some (JObject d)
    /\ dict_get "encoding" d = Some (JString "base64")
    /\ dict_get "content" d = Some (JString content)
    /\ Base64.b64decode content = Some decoded_bytes
    /\ Base64.utf8_valid decoded_bytes = true
    /\ stored = truncate (max_file_size (config self)) decoded_bytes.

(** [sum(file_extensions.values())] *)
Fixpoint counts_total (file_extensions : list (string * Z)) : Z :=
  match file_extensions with
  | [] => 0
  | (_, n) :: rest => n + counts_total rest
  end.

(** The key under which the structure fallback counts a path: the
    lowercased extension of a path that holds a dot. *)
Definition counted_under (ext file_path : string) : Prop :=
  Py.contains "." file_path = true
  /\ Py.lower (Py.splitext_ext file_path) = ext.

(** An entry of a tree listing, and a listing as the hosting API sends
    it: [entries] pairs the type of each entry with its path, and
    [truncated] tells that the listing is not complete. *)
Definition tree_entry (kind path : string) : json :=
  JObject [("path", JString path); ("mode", JString "100644");
           ("type", JString kind)].

Definition tree_listing (sha : string) (entries : list (string * string))
  (truncated : bool) : json :=
  JObject [("sha", JString sha);
           ("tree", JArray (List.map (fun e => tree_entry e.1 e.2) entries));
           ("truncated", JBool truncated)].

(** The body of a tree response with one file and one directory. *)
Definition tree_body : string :=
  "{" +:+ quoted "tree" +:+ ": [{" +:+ quoted "path" +:+ ": "
  +:+ quoted "README.md" +:+ ", " +:+ quoted "type" +:+ ": " +:+ quoted "blob"
  +:+ "}, {" +:+ quoted "path" +:+ ": " +:+ quoted "src" +:+ ", "
  +:+ quoted "type" +:+ ": " +:+ quoted "tree" +:+ "}]}".

(** The body of a metadata response. *)
Definition metadata_body : string :=
  "{" +:+ quoted "name" +:+ ": " +:+ quoted "hello" +:+ ", "
  +:+ quoted "language" +:+ ": " +:+ quoted "Python" +:+ "}".

(** A hosting API that cannot be reached. *)
Definition env_unreachable : Env :=
  {| http_get := fun _ _ => HttpFailed "Connection refused";
     chat_create := fun _ _ => ai_down |}.

(** A hosting API that serves one small repository (metadata, a tree
    with one file, the content of that file: three letters A), with a
    model endpoint that answers every call with [o]. *)
Definition env_small_repo (o : ai_outcome) : Env :=
  {| http_get := fun _ url =>
       HttpResponse
         (ok_response
            (if Py.endswith Constants.GITHUB_TREE_ENDPOINT url then tree_body
             else if Py.contains "/contents/" url then contents_body "QUFB"
             else metadata_body));
     chat_create := fun _ _ => o |}.

(* ===================================================================== *)
(** * Properties: strings, slices and dictionaries *)
(* ===================================================================== *)

Example py_find_1 : Py.find "[" "Sure! [1]" = 6. Proof. reflexivity. Qed.
Example py_rfind_1 : Py.rfind "]" "a]b]c" = 3. Proof. reflexivity. Qed.
Example py_slice_1 : Py.slice "hello world" 6 11 = "world". Proof. reflexivity. Qed.
Example py_slice_2 : Py.slice_to "hello" (-1) = "hell". Proof. reflexivity. Qed.
Example py_split_1 : Py.split "/" "a/b//c/" = ["a"; "b"; ""; "c"; ""]. Proof. reflexivity. Qed.
Example py_split_2 : Py.split "/" "" = [""]. Proof. reflexivity. Qed.
Example py_suffix_1 : Py.path_suffix "src/a.tar.GZ" = ".GZ". Proof. reflexivity. Qed.
Example py_suffix_2 : Py.path_suffix "src/.gitignore" = "". Proof. reflexivity. Qed.
Example py_splitext_1 : Py.splitext_ext "a/.bashrc" = "". Proof. reflexivity. Qed.
Example py_splitext_2 : Py.splitext_ext "a/x.PY" = ".PY". Proof. reflexivity. Qed.
Example py_basename_1 : Py.basename "a/b/README.md" = "README.md". Proof. reflexivity. Qed.
Example py_lower_1 : Py.lower "Dockerfile.PROD" = "dockerfile.prod". Proof. reflexivity. Qed.
Example py_endswith_1 : Py.endswith ".min.js" "x/app.min.js" = true. Proof. reflexivity. Qed.
Example py_contains_1 : Py.contains "rate limit" "api rate limit exceeded" = true. Proof. reflexivity. Qed.

Lemma len_nonneg s : 0 <= Py.len s.
Proof. unfold Py.len. lia. Qed.

Lemma length_app_str (a b : string) :
  String.length (a +:+ b) = (String.length a + String.length b)%nat.
Proof. induction a as [|c a IH]; simpl; [done | by rewrite IH]. Qed.

Lemma len_app (a b : string) : Py.len (a +:+ b) = Py.len a + Py.len b.
Proof. unfold Py.len. rewrite length_app_str. lia. Qed.

Lemma length_firstn_str n s :
  String.length (Py.firstn_str n s) = Nat.min n (String.length s).
Proof.
  revert s. induction n as [|n IH]; intros [|c s]; simpl; try done.
  by rewrite IH.
Qed.

Lemma length_skipn_str n s :
  String.length (Py.skipn_str n s) = (String.length s - n)%nat.
Proof.
  revert s. induction n as [|n IH]; intros [|c s]; simpl; try done; lia.
Qed.

Lemma firstn_str_app (a b : string) :
  Py.firstn_str (String.length a) (a +:+ b) = a.
Proof. induction a as [|c a IH]; simpl; [by destruct b | by rewrite IH]. Qed.

Lemma skipn_str_app (a b : string) :
  Py.skipn_str (String.length a) (a +:+ b) = b.
Proof. induction a as [|c a IH]; simpl; done. Qed.

Lemma app_str_cons x (a b : string) : String x a +:+ b = String x (a +:+ b).
Proof. reflexivity. Qed.

Lemma app_str_nil_l (b : string) : "" +:+ b = b.
Proof. reflexivity. Qed.

Lemma app_str_assoc (a b c : string) : (a +:+ b) +:+ c = a +:+ (b +:+ c).
Proof.
  induction a as [|x a IH]; [done|].
  by rewrite !app_str_cons, IH.
Qed.

Lemma app_str_nil_r (a : string) : a +:+ "" = a.
Proof. induction a as [|x a IH]; [done|]. by rewrite app_str_cons, IH. Qed.

(** A slice with a bound inside the string has the length asked for. *)
Lemma len_slice_to s n :
  0 <= n <= Py.len s -> Py.len (Py.slice_to s n) = n.
Proof.
  intros Hn. unfold Py.slice_to, Py.slice.
  assert (Py.adjust_index (Py.len s) 0 = 0) as ->
    by (unfold Py.adjust_index; simpl; lia).
  assert (Py.adjust_index (Py.len s) n = n) as ->
    by (unfold Py.adjust_index; destruct (n <? 0) eqn:E; lia).
  rewrite Z.sub_0_r. change (Z.to_nat 0) with O.
  change (Py.skipn_str 0 s) with s.
  unfold Py.len in *. rewrite length_firstn_str. lia.
Qed.

Lemma adjust_index_range n i : 0 <= n -> 0 <= Py.adjust_index n i <= n.
Proof. unfold Py.adjust_index. destruct (i <? 0) eqn:E; lia. Qed.

Lemma llen_nonneg {A} (l : list A) : 0 <= Py.llen l.
Proof. unfold Py.llen. lia. Qed.

(** [l[:n]] is a prefix of [l]; for a limit that is not negative it is
    the first [n] elements. *)
Lemma lslice_to_take {A} (l : list A) n :
  0 <= n -> Py.lslice_to l n = take (Z.to_nat n) l.
Proof.
  intros Hn. unfold Py.lslice_to, Py.adjust_index, Py.llen.
  destruct (n <? 0) eqn:E; [lia|].
  destruct (Z.le_gt_cases n (Z.of_nat (length l))) as [Hle|Hgt].
  - by rewrite Z.min_l.
  - rewrite Z.min_r by lia. rewrite Nat2Z.id.
    rewrite !take_ge; [done | lia | lia].
Qed.

Lemma llen_lslice_to {A} (l : list A) n :
  0 <= n -> Py.llen (Py.lslice_to l n) <= n.
Proof.
  intros Hn. rewrite lslice_to_take by done. unfold Py.llen.
  rewrite length_take. lia.
Qed.

Lemma elem_of_lslice_to {A} (l : list A) n x :
  x ∈ Py.lslice_to l n -> x ∈ l.
Proof. unfold Py.lslice_to. apply subseteq_take. Qed.

Lemma lslice_to_nil {A} n : Py.lslice_to (@nil A) n = [].
Proof. unfold Py.lslice_to. by rewrite take_nil. Qed.

Lemma mem_true x l : Py.mem x l = true <-> x ∈ l.
Proof. unfold Py.mem. apply bool_decide_eq_true. Qed.

Lemma dict_get_set_eq {V} k (v : V) d : dict_get k (dict_set k v d) = Some v.
Proof.
  induction d as [|[k' v'] d IH]; simpl.
  - by rewrite String.eqb_refl.
  - destruct (String.eqb k k') eqn:E; simpl; rewrite ?String.eqb_refl, ?E; done.
Qed.

Lemma total_length_nonneg d : 0 <= total_length d.
Proof.
  induction d as [|[k v] d IH]; simpl; [lia|].
  pose proof (len_nonneg v). lia.
Qed.

(** Storing an entry adds at most its length to the total. *)
Lemma total_length_set k v d :
  total_length (dict_set k v d) <= total_length d + Py.len v.
Proof.
  induction d as [|[k' v'] d IH]; simpl; [lia|].
  destruct (String.eqb k k'); simpl.
  - pose proof (len_nonneg v'). lia.
  - lia.
Qed.

(* ===================================================================== *)
(** * Properties: JSON reader *)
(* ===================================================================== *)

Lemma skip_ws_length s : (String.length (Json.skip_ws s) <= String.length s)%nat.
Proof.
  induction s as [|c t IH]; simpl; [done|].
  destruct (Json.is_ws c); simpl; lia.
Qed.

(** A string literal takes at least its closing quote. *)
Lemma scan_string_length s acc x r :
  Json.scan_string s acc = Some (x, r) ->
  (String.length r < String.length s)%nat.
Proof.
  remember (String.length s) as n eqn:Hn.
  assert (Hle : (String.length s <= n)%nat) by lia. clear Hn.
  revert s acc Hle. induction n as [|n IH]; intros s acc Hle.
  - destruct s; [done | simpl in Hle; lia].
  - destruct s as [|c t]; [done|].
    cbn [Json.scan_string]. intros H.
    repeat case_match; simplify_eq; cbn [String.length] in *; try lia;
      match goal with
      | Hrec : Json.scan_string ?t' _ = Some _ |- _ =>
          apply IH in Hrec; cbn [String.length] in *; lia
      end.
Qed.

Lemma span_digits_length s d r :
  Json.span_digits s = (d, r) ->
  (String.length r + String.length d = String.length s)%nat.
Proof.
  revert d r. induction s as [|c t IH]; intros d r; simpl.
  - by intros [= <- <-].
  - destruct (Json.is_digit c); [|by intros [= <- <-]].
    destruct (Json.span_digits t) as [d' r'] eqn:E.
    intros [= <- <-]. simpl. specialize (IH _ _ eq_refl). lia.
Qed.

Lemma scan_frac_length s d r :
  Json.scan_frac s = (d, r) -> (String.length r <= String.length s)%nat.
Proof.
  unfold Json.scan_frac. intros H.
  repeat case_match; simplify_eq; cbn [String.length]; try lia;
    match goal with
    | Hd : Json.span_digits _ = _ |- _ =>
        apply span_digits_length in Hd; cbn [String.length] in *; lia
    end.
Qed.

Lemma scan_exp_length s d r :
  Json.scan_exp s = (d, r) -> (String.length r <= String.length s)%nat.
Proof.
  unfold Json.scan_exp. intros H.
  repeat case_match; simplify_eq; cbn [String.length]; try lia;
    match goal with
    | Hd : Json.span_digits _ = _ |- _ =>
        apply span_digits_length in Hd; cbn [String.length] in *; lia
    end.
Qed.

Lemma scan_number_length s v r :
  Json.scan_number s = Some (v, r) -> (String.length r < String.length s)%nat.
Proof.
  unfold Json.scan_number, Json.scan_int. intros H.
  repeat case_match; simplify_eq;
    repeat match goal with
    | Hd : Json.span_digits _ = _ |- _ => apply span_digits_length in Hd
    | Hd : Json.scan_frac _ = _ |- _ => apply scan_frac_length in Hd
    | Hd : Json.scan_exp _ = _ |- _ => apply scan_exp_length in Hd
    end; cbn [String.length] in *; lia.
Qed.

Lemma prefix_length p s :
  String.prefix p s = true -> (String.length p <= String.length s)%nat.
Proof.
  revert p. induction s as [|d s IH]; intros [|c p]; simpl; try done; try lia.
  destruct (ascii_dec c d); [|done]. intros H%IH. lia.
Qed.

Lemma keyword_length k v s v' r :
  k <> "" ->
  Json.keyword k v s = Some (v', r) -> (String.length r < String.length s)%nat.
Proof.
  unfold Json.keyword, Py.startswith. intros Hk.
  destruct (String.prefix k s) eqn:E; [|done].
  intros [= <- <-]. apply prefix_length in E.
  rewrite length_skipn_str. destruct k; [done|]. simpl in *. lia.
Qed.

Lemma scan_scalar_length s v r :
  Json.scan_scalar s = Some (v, r) -> (String.length r < String.length s)%nat.
Proof.
  unfold Json.scan_scalar. intros H.
  repeat case_match; simplify_eq;
    first [ by eapply scan_number_length
          | eapply keyword_length; [|eassumption]; done ].
Qed.

(** Fuel. When some amount of fuel lets a parser read a value, the value
    takes at least one character, and twice the number of characters
    taken is enough fuel to read it. *)
Lemma parse_fuel_enough f :
  (forall s v r, Json.parse_value f s = Some (v, r) ->
     (String.length r < String.length s)%nat
     /\ forall g, (2 * (String.length s - String.length r) <= g)%nat ->
                  Json.parse_value g s = Some (v, r))
  /\ (forall s acc v r, Json.parse_elements f s acc = Some (v, r) ->
     (String.length r < String.length s)%nat
     /\ forall g, (2 * (String.length s - String.length r) <= g)%nat ->
                  Json.parse_elements g s acc = Some (v, r))
  /\ (forall s acc v r, Json.parse_members f s acc = Some (v, r) ->
     (String.length r < String.length s)%nat
     /\ forall g, (2 * (String.length s - String.length r) <= g)%nat ->
                  Json.parse_members g s acc = Some (v, r)).
Proof.
  induction f as [|f (IHv & IHe & IHm)]; [by repeat split|].
  split; [|split].
  - intros s v r H. cbn [Json.parse_value] in H.
    destruct s as [|c t]; [done|].
    destruct (Ascii.eqb c Json.dquote) eqn:E1.
    { destruct (Json.scan_string t "") as [[x r']|] eqn:E2; [|done].
      injection H as <- <-. pose proof (scan_string_length _ _ _ _ E2).
      split; [simpl; lia|]. intros [|g] Hg; [simpl in *; lia|].
      cbn [Json.parse_value]. by rewrite E1, E2. }
    destruct (Ascii.eqb c "{") eqn:E2.
    { pose proof (skip_ws_length t).
      destruct (Json.skip_ws t) as [|d r0] eqn:E3; [done|].
      destruct (Ascii.eqb d "}") eqn:E4.
      - injection H as <- <-. split; [simpl in *; lia|].
        intros [|g] Hg; [simpl in *; lia|].
        cbn [Json.parse_value]. by rewrite E1, E2, E3, E4.
      - apply IHm in H as [Hlen Hfuel]. split; [simpl in *; lia|].
        intros [|g] Hg; [simpl in *; lia|].
        cbn [Json.parse_value]. rewrite E1, E2, E3, E4.
        apply Hfuel. simpl in *. lia. }
    destruct (Ascii.eqb c "[") eqn:E3.
    { pose proof (skip_ws_length t).
      destruct (Json.skip_ws t) as [|d r0] eqn:E4; [done|].
      destruct (Ascii.eqb d "]") eqn:E5.
      - injection H as <- <-. split; [simpl in *; lia|].
        intros [|g] Hg; [simpl in *; lia|].
        cbn [Json.parse_value]. by rewrite E1, E2, E3, E4, E5.
      - apply IHe in H as [Hlen Hfuel]. split; [simpl in *; lia|].
        intros [|g] Hg; [simpl in *; lia|].
        cbn [Json.parse_value]. rewrite E1, E2, E3, E4, E5.
        apply Hfuel. simpl in *. lia. }
    pose proof (scan_scalar_length _ _ _ H).
    split; [done|]. intros [|g] Hg; [lia|].
    cbn [Json.parse_value]. by rewrite E1, E2, E3.
  - intros s acc v r H. cbn [Json.parse_elements] in H.
    destruct (Json.parse_value f s) as [[v1 r1]|] eqn:E1; [|done].
    apply IHv in E1 as [Hlen1 Hfuel1].
    pose proof (skip_ws_length r1).
    destruct (Json.skip_ws r1) as [|d r2] eqn:E2; [done|].
    destruct (Ascii.eqb d "]") eqn:E3.
    + injection H as <- <-. split; [simpl in *; lia|].
      intros [|g] Hg; [simpl in *; lia|].
      cbn [Json.parse_elements]. rewrite Hfuel1 by (simpl in *; lia).
      by rewrite E2, E3.
    + destruct (Ascii.eqb d ",") eqn:E4; [|done].
      pose proof (skip_ws_length r2).
      apply IHe in H as [Hlen Hfuel]. split; [simpl in *; lia|].
      intros [|g] Hg; [simpl in *; lia|].
      cbn [Json.parse_elements]. rewrite Hfuel1 by (simpl in *; lia).
      rewrite E2, E3, E4. apply Hfuel. simpl in *. lia.
  - intros s acc v r H. cbn [Json.parse_members] in H.
    destruct s as [|q t]; [done|].
    destruct (Ascii.eqb q Json.dquote) eqn:E1; [|done].
    destruct (Json.scan_string t "") as [[k r0]|] eqn:E2; [|done].
    pose proof (scan_string_length _ _ _ _ E2).
    pose proof (skip_ws_length r0).
    destruct (Json.skip_ws r0) as [|d r1] eqn:E3; [done|].
    destruct (Ascii.eqb d ":") eqn:E4; [|done].
    pose proof (skip_ws_length r1).
    destruct (Json.parse_value f (Json.skip_ws r1)) as [[v2 r2]|] eqn:E5; [|done].
    apply IHv in E5 as [Hlen2 Hfuel2].
    pose proof (skip_ws_length r2).
    destruct (Json.skip_ws r2) as [|e r3] eqn:E6; [done|].
    destruct (Ascii.eqb e "}") eqn:E7.
    + injection H as <- <-. split; [simpl in *; lia|].
      intros [|g] Hg; [simpl in *; lia|].
      cbn [Json.parse_members]. rewrite E1, E2, E3, E4.
      rewrite Hfuel2 by (simpl in *; lia). by rewrite E6, E7.
    + destruct (Ascii.eqb e ",") eqn:E8; [|done].
      pose proof (skip_ws_length r3).
      apply IHm in H as [Hlen Hfuel]. split; [simpl in *; lia|].
      intros [|g] Hg; [simpl in *; lia|].
      cbn [Json.parse_members]. rewrite E1, E2, E3, E4.
      rewrite Hfuel2 by (simpl in *; lia). rewrite E6, E7, E8.
      apply Hfuel. simpl in *. lia.
Qed.

(** [json.loads] does not depend on the fuel it is given: it returns [v]
    exactly when the parser, with whatever fuel, reads [v] and nothing but
    white space follows. *)
Lemma loads_fuel_independent s v :
  Json.loads s = Some v
  <-> exists fuel r,
        Json.parse_value fuel (Json.skip_ws s) = Some (v, r)
        /\ Json.skip_ws r = "".
Proof.
  unfold Json.loads. split.
  - destruct (Json.parse_value _ (Json.skip_ws s)) as [[v' r]|] eqn:E; [|done].
    destruct (Json.skip_ws r) eqn:Er; [|done].
    intros [= <-]. by eexists _, r.
  - intros (fuel & r & Hparse & Hrest).
    destruct (parse_fuel_enough fuel) as (Hv & _ & _).
    destruct (Hv _ _ _ Hparse) as [Hlen Hfuel].
    pose proof (skip_ws_length s).
    rewrite Hfuel by lia. by rewrite Hrest.
Qed.

Example loads_selection :
  Json.loads ("[" +:+ quoted "package.json" +:+ ", " +:+ quoted "missing.txt" +:+ "]")
  = Some (JArray [JString "package.json"; JString "missing.txt"]).
Proof. reflexivity. Qed.

Example loads_object_last_key_wins :
  Json.loads ("{" +:+ quoted "a" +:+ ": [1, -2.5e3, true, null], "
              +:+ quoted "b" +:+ ": {}, " +:+ quoted "a" +:+ ": 10}")
  = Some (JObject [("a", JInt 10); ("b", JObject [])]).
Proof. reflexivity. Qed.

Example loads_trailing_comma : Json.loads "[1,]" = None.
Proof. reflexivity. Qed.

Example loads_extra_data : Json.loads "[1] x" = None.
Proof. reflexivity. Qed.

Example loads_leading_zero : Json.loads "01" = None.
Proof. reflexivity. Qed.

Example loads_escapes :
  Json.loads (quoted "a\u0041\n\u00e9")
  = Some (JString (String "a" (String "A" (String "010"
            (String "195" (String "169" "")))))).
Proof. reflexivity. Qed.

Example b64decode_hello : Base64.b64decode "aGVsbG8=" = Some "hello".
Proof. reflexivity. Qed.

Example b64decode_padding : Base64.b64decode "aGVsbG8" = None.
Proof. reflexivity. Qed.

Example utf8_valid_binary :
  Base64.utf8_valid (String "137" "PNG") = false.
Proof. reflexivity. Qed.

(* ===================================================================== *)
(** * Properties: file filter *)
(* ===================================================================== *)

Lemma filter_files_kept supported cfg all_files :
  filter_files supported cfg all_files
  = List.filter (kept supported cfg) all_files.
Proof.
  induction all_files as [|p rest IH]; [done|].
  simpl. unfold kept.
  destruct (Py.any _ (excluded_directories cfg)); [done|].
  destruct (Py.any _ (excluded_file_extensions cfg)); [done|].
  simpl. destruct (negb _ && negb _); simpl; [done | by rewrite IH].
Qed.

Lemma filter_files_sublist supported cfg all_files :
  filter_files supported cfg all_files `sublist_of` all_files.
Proof.
  rewrite filter_files_kept.
  induction all_files as [|p rest IH]; simpl; [done|].
  destruct (kept supported cfg p); by constructor.
Qed.

(** C8. The file filter is idempotent: for every list of paths, every
    excluded directories and extensions and every set of supported
    extensions, filtering a filtered list returns it unchanged. The
    analyzer's own [_filter_files] is the instance with
    [Constants.SUPPORTED_EXTENSIONS]. *)
Theorem filter_files_idempotent supported cfg all_files :
  filter_files supported cfg (filter_files supported cfg all_files)
  = filter_files supported cfg all_files
  /\ forall self, _filter_files self (_filter_files self all_files)
                  = _filter_files self all_files.
Proof.
  assert (Hidem : forall sup c l,
             filter_files sup c (filter_files sup c l) = filter_files sup c l).
  { intros sup c l. rewrite !filter_files_kept.
    induction l as [|p rest IH]; [done|].
    simpl. destruct (kept sup c p) eqn:Hp; [|exact IH].
    simpl. rewrite Hp. by f_equal. }
  split; [apply Hidem|]. intros self. unfold _filter_files. apply Hidem.
Qed.

Example filter_files_scenario :
  _filter_files default_analyzer
    ["package.json"; "src/index.js"; "README.md"; "node_modules/x.js"]
  = ["package.json"; "src/index.js"; "README.md"].
Proof. reflexivity. Qed.

(* ===================================================================== *)
(** * Properties: heuristic file ranker *)
(* ===================================================================== *)

Lemma priority_score_first_index total k patterns file_path :
  priority_score total
    (List.combine (List.map Z.of_nat (seq k (length patterns))) patterns)
    file_path
  = match first_index (pattern_matches file_path) patterns with
    | Some i => (total - Z.of_nat (k + i)) * 10
    | None => 0
    end.
Proof.
  revert k. induction patterns as [|pat rest IH]; intros k; [done|].
  simpl. unfold pattern_matches at 1.
  destruct (Py.contains (Py.lower pat) (Py.lower file_path)).
  - by rewrite Nat.add_0_r.
  - rewrite IH. destruct (first_index _ rest) as [i|]; [|done].
    by replace (S k + i)%nat with (k + S i)%nat by lia.
Qed.

Lemma count_nonneg c s : 0 <= Py.count c s.
Proof.
  induction s as [|d t IH]; simpl; [lia|].
  destruct (Ascii.eqb d c); lia.
Qed.

Lemma count_zero c s :
  (Py.count c s =? 0) = negb (bool_decide (c ∈ list_ascii_of_string s)).
Proof.
  induction s as [|d t IH]; cbn [Py.count list_ascii_of_string].
  - rewrite bool_decide_eq_false_2; [done | apply not_elem_of_nil].
  - pose proof (count_nonneg c t).
    destruct (Ascii.eqb d c) eqn:E.
    + apply Ascii.eqb_eq in E as ->.
      rewrite bool_decide_eq_true_2 by apply list_elem_of_here.
      cbn [negb]. apply Z.eqb_neq. lia.
    + apply Ascii.eqb_neq in E. rewrite Z.add_0_l, IH. f_equal.
      apply bool_decide_ext. rewrite elem_of_cons.
      split; [by right | intros [->|?]; [congruence | done]].
Qed.

(** The loop with its [break] computes the score that the specification
    words. *)
Lemma file_score_spec file_path : file_score file_path = spec_score file_path.
Proof.
  unfold file_score, spec_score, Py.enumerate, Py.range, Py.llen.
  rewrite Nat2Z.id, priority_score_first_index, count_zero.
  unfold Py.mem.
  destruct (first_index _ _) as [i|];
    destruct (bool_decide ("/"%char ∈ _));
    destruct (Py.contains "config" _ || Py.contains "setup" _);
    destruct (bool_decide (_ ∈ DOC_FILE_NAMES)); simpl negb; cbv iota;
    rewrite ?Nat.add_0_l; lia.
Qed.


Lemma insert_by_score_perm x l : insert_by_score x l ≡ₚ x :: l.
Proof.
  induction l as [|y rest IH]; simpl; [done|].
  destruct (y.2 >? x.2); [|done].
  rewrite IH. apply Permutation_swap.
Qed.

Lemma sort_by_score_desc_perm l : sort_by_score_desc l ≡ₚ l.
Proof.
  induction l as [|x rest IH]; simpl; [done|].
  by rewrite insert_by_score_perm, IH.
Qed.

Lemma insert_by_score_sorted x l :
  StronglySorted (fun a b : string * Z => b.2 <= a.2) l ->
  StronglySorted (fun a b : string * Z => b.2 <= a.2) (insert_by_score x l).
Proof.
  induction 1 as [|y rest Hs IH Hy]; simpl.
  - repeat constructor.
  - destruct (y.2 >? x.2) eqn:E.
    + apply Z.gtb_lt in E. constructor; [done|].
      rewrite insert_by_score_perm. constructor; [lia | done].
    + rewrite Z.gtb_ltb in E. apply Z.ltb_ge in E.
      constructor; [by constructor|].
      constructor; [done|].
      eapply Forall_impl; [exact Hy|]. simpl. intros z Hz. lia.
Qed.

Lemma sort_by_score_desc_sorted l :
  StronglySorted (fun a b : string * Z => b.2 <= a.2) (sort_by_score_desc l).
Proof.
  induction l as [|x rest IH]; simpl; [constructor|].
  by apply insert_by_score_sorted.
Qed.




Example heuristic_ranking_example :
  heuristic_rank 3
    ["src/index.js"; "README.md"; "b/package.json"; "LICENSE"; "package.json";
     "a/package.json"]
  = ["package.json"; "b/package.json"; "a/package.json"].
Proof. reflexivity. Qed.

(** A negative limit is a slice bound like any other: it counts from
    the end. *)
Example negative_limit_counts_from_the_end :
  _heuristic_file_selection (analyzer_with_limit (-1))
    ["package.json"; "README.md"] = ["package.json"].
Proof. reflexivity. Qed.

Lemma scores_nothing_zero file_path :
  scores_nothing file_path -> spec_score file_path = 0.
Proof.
  intros (Hpat & Hdir & Hcfg & Hsetup & Hdoc). unfold spec_score.
  assert (Hnone : forall l, (forall pat, pat ∈ l ->
                     pattern_matches file_path pat = false) ->
                   first_index (pattern_matches file_path) l = None).
  { induction l as [|pat rest IH]; intros Hl; [done|].
    simpl. rewrite Hl by apply list_elem_of_here.
    rewrite IH; [done|]. intros q Hq. apply Hl. by apply list_elem_of_further. }
  rewrite (Hnone _ Hpat), Hcfg, Hsetup.
  rewrite bool_decide_eq_true_2 by done.
  rewrite bool_decide_eq_false_2 by done. done.
Qed.

Lemma first_index_lt {A} (f : A -> bool) l i :
  first_index f l = Some i -> (i < length l)%nat.
Proof.
  revert i. induction l as [|x rest IH]; intros i; simpl; [done|].
  destruct (f x); [intros [= <-]; lia|].
  destruct (first_index f rest) as [j|]; [|done].
  intros [= <-]. specialize (IH _ eq_refl). lia.
Qed.

Lemma first_index_none {A} (f : A -> bool) l x :
  first_index f l = None -> x ∈ l -> f x = false.
Proof.
  induction l as [|y rest IH]; simpl; [by intros _ ?%elem_of_nil|].
  destruct (f y) eqn:Ey; [done|].
  destruct (first_index f rest); [done|].
  intros _ [->|Hin]%elem_of_cons; [done | by apply IH].
Qed.

(** A path scores 0 exactly when no scoring rule applies to it. *)
Lemma file_score_zero_iff file_path :
  file_score file_path = 0 <-> scores_nothing file_path.
Proof.
  rewrite file_score_spec. split; [|apply scores_nothing_zero].
  unfold spec_score, scores_nothing. intros H.
  destruct (first_index (pattern_matches file_path) Constants.PRIORITY_PATTERNS)
    as [i|] eqn:Ei.
  { apply first_index_lt in Ei. unfold Py.llen in H.
    repeat case_match; lia. }
  destruct (bool_decide ("/"%char ∈ list_ascii_of_string file_path)) eqn:Ed;
    [|repeat case_match; lia].
  destruct (Py.contains "config" _ || Py.contains "setup" _) eqn:Ec;
    [repeat case_match; lia|].
  destruct (bool_decide (_ ∈ DOC_FILE_NAMES)) eqn:En; [lia|].
  apply orb_false_iff in Ec as [Hc Hs].
  apply bool_decide_eq_true in Ed. apply bool_decide_eq_false in En.
  repeat split; try done.
  intros pattern Hin. by eapply first_index_none.
Qed.

Lemma heuristic_rank_nothing limit all_files :
  Forall scores_nothing all_files -> heuristic_rank limit all_files = [].
Proof.
  intros Hall. unfold heuristic_rank.
  assert (score_files all_files = []) as ->.
  { induction Hall as [|p rest Hp _ IH]; [done|].
    simpl. rewrite file_score_spec, (scores_nothing_zero _ Hp). exact IH. }
  simpl. by rewrite lslice_to_nil.
Qed.

Lemma heuristic_rank_bounded limit all_files :
  0 <= limit -> Py.llen (heuristic_rank limit all_files) <= limit.
Proof.
  intros Hl. unfold heuristic_rank, Py.llen.
  rewrite length_map. by apply llen_lslice_to.
Qed.

Lemma score_files_elem p s all_files :
  (p, s) ∈ score_files all_files -> p ∈ all_files.
Proof.
  induction all_files as [|x rest IH]; simpl; [by intros ?%elem_of_nil|].
  destruct (file_score x >? 0).
  - intros [Heq|Hin]%elem_of_cons.
    + injection Heq as -> _. apply list_elem_of_here.
    + apply list_elem_of_further. by apply IH.
  - intros Hin. apply list_elem_of_further. by apply IH.
Qed.

Lemma heuristic_rank_subset limit all_files p :
  p ∈ heuristic_rank limit all_files -> p ∈ all_files.
Proof.
  unfold heuristic_rank. intros ([q s] & -> & Hin)%list_elem_of_fmap.
  apply elem_of_lslice_to in Hin.
  rewrite sort_by_score_desc_perm in Hin.
  by apply score_files_elem in Hin.
Qed.

(* ===================================================================== *)
(** * Properties: AI client *)
(* ===================================================================== *)


(** An error of another kind is retried after a sleep, unless the attempt
    was the last one. *)
Lemma call_ai_loop_retry env self model_name attempt rest w e :
  chat_create env (ai_calls w) model_name = AIRaises e ->
  is_auth_error e = false ->
  attempt <> Constants.AI_MAX_RETRIES - 1 ->
  call_ai_loop env self model_name (attempt :: rest) w
  = call_ai_loop env self model_name rest
      (after_sleep (Constants.AI_RETRY_DELAY * 2 ^ attempt)
         (after_chat model_name w)).
Proof.
  intros Hcall Hauth Hlast. cbn [call_ai_loop].
  unfold try_except, call_ai_attempt, bind at 1, chat_completions_create.
  rewrite Hcall. unfold call_ai_handler. rewrite Hauth.
  apply Z.eqb_neq in Hlast. rewrite Hlast. reflexivity.
Qed.

Lemma auth_failed_msg_distinct self e model_name e' :
  auth_failed_msg self e <> exhausted_msg model_name e'
  /\ auth_failed_msg self e <> "Unexpected error in AI model call"
  /\ auth_failed_msg self e <> "AI model returned empty response".
Proof.
  unfold auth_failed_msg, exhausted_msg.
  repeat split; intros H; rewrite !app_str_cons in H; discriminate H.
Qed.



(** Without the marker the same client tries three times and sleeps 2
    and 4 seconds in between. *)
Example other_error_three_attempts :
  _call_ai_model (constant_env (rate_limit_response None) ai_down)
    default_analyzer world0
  = (Raise (AIModelError
       "AI model anthropic.claude-3-7-sonnet-20250219-v1:0 failed after 3 attempts: Connection error."),
     {| http_calls := 0; ai_calls := 3;
        trace := [EvChat "anthropic.claude-3-7-sonnet-20250219-v1:0"; EvSleep 2;
                  EvChat "anthropic.claude-3-7-sonnet-20250219-v1:0"; EvSleep 4;
                  EvChat "anthropic.claude-3-7-sonnet-20250219-v1:0"] |}).
Proof. reflexivity. Qed.

(* ===================================================================== *)
(** * Properties: hosting API client *)
(* ===================================================================== *)


Lemma fetch_repo_info_loop_rate_limited env url attempt rest w r :
  http_get env (http_calls w) url = HttpResponse r ->
  is_rate_limited r = true ->
  fetch_repo_info_loop env url (attempt :: rest) w
  = (Raise (match rate_limit_reset r with
            | Some (ResetUnreadable cls msg) => PyException cls msg
            | _ => GitHubAPIError "GitHub API rate limit exceeded"
            end), after_get url w).
Proof.
  intros Hget Hrl. cbn [fetch_repo_info_loop].
  unfold try_except, fetch_repo_info_attempt, bind, requests_get.
  rewrite Hget, Hrl. by destruct (rate_limit_reset r) as [[]|].
Qed.




(** A reset header that cannot be read ends the metadata fetch at once
    too, with the exception of the conversion. *)
Example unreadable_reset_header :
  _fetch_repo_info
    (constant_env
       (rate_limit_response
          (Some (ResetUnreadable "ValueError" "invalid literal for int()")))
       ai_down)
    "octocat" "hello" world0
  = (Raise (PyException "ValueError" "invalid literal for int()"),
     {| http_calls := 1; ai_calls := 0;
        trace := [EvGet "https://api.github.com/repos/octocat/hello"] |}).
Proof. reflexivity. Qed.

(** A time-out, in contrast, is retried twice, after 1 and 2 seconds. *)
Example timeout_is_retried :
  _fetch_complete_file_tree
    {| http_get := fun _ _ => HttpTimeout "Read timed out.";
       chat_create := fun _ _ => ai_down |}
    "octocat" "hello" world0
  = (Ok [],
     {| http_calls := 3; ai_calls := 0;
        trace := [EvGet "https://api.github.com/repos/octocat/hello/git/trees/HEAD?recursive=1";
                  EvSleep 1;
                  EvGet "https://api.github.com/repos/octocat/hello/git/trees/HEAD?recursive=1";
                  EvSleep 2;
                  EvGet "https://api.github.com/repos/octocat/hello/git/trees/HEAD?recursive=1"] |}).
Proof. reflexivity. Qed.

(* ===================================================================== *)
(** * Properties: result extractor *)
(* ===================================================================== *)

Lemma find_range c s : Py.find c s = -1 \/ 0 <= Py.find c s < Py.len s.
Proof.
  induction s as [|d t IH]; [by left|].
  cbn [Py.find]. unfold Py.len in *. cbn [String.length].
  destruct (Ascii.eqb d c); [right; lia|].
  destruct (Py.find c t =? -1) eqn:E; [by left|].
  apply Z.eqb_neq in E. right. lia.
Qed.

Lemma rfind_range c s : Py.rfind c s = -1 \/ 0 <= Py.rfind c s < Py.len s.
Proof.
  induction s as [|d t IH]; [by left|].
  cbn [Py.rfind]. unfold Py.len in *. cbn [String.length].
  destruct (Py.rfind c t =? -1) eqn:E.
  - destruct (Ascii.eqb d c); [right; lia | by left].
  - apply Z.eqb_neq in E. right. lia.
Qed.

(** Where [find] points, the character stands. *)
Lemma find_skipn c s :
  Py.find c s <> -1 ->
  exists t, Py.skipn_str (Z.to_nat (Py.find c s)) s = String c t.
Proof.
  induction s as [|d t IH]; [done|].
  cbn [Py.find]. destruct (Ascii.eqb d c) eqn:Ed.
  - apply Ascii.eqb_eq in Ed as ->. intros _. by exists t.
  - destruct (Py.find c t =? -1) eqn:E; [done|].
    apply Z.eqb_neq in E. intros _.
    destruct (find_range c t) as [?|Hr]; [done|].
    replace (Z.to_nat (Py.find c t + 1)) with (S (Z.to_nat (Py.find c t))) by lia.
    cbn [Py.skipn_str]. by apply IH.
Qed.

(** A slice that starts where [find] points is empty or starts with the
    character that was looked for. *)
Lemma slice_from_find c s e :
  Py.find c s <> -1 ->
  Py.slice s (Py.find c s) e = "" \/ exists t, Py.slice s (Py.find c s) e = String c t.
Proof.
  intros Hf. destruct (find_skipn c s Hf) as [t Ht].
  destruct (find_range c s) as [?|Hr]; [done|].
  unfold Py.slice.
  assert (Py.adjust_index (Py.len s) (Py.find c s) = Py.find c s) as ->.
  { unfold Py.adjust_index. destruct (Py.find c s <? 0) eqn:E; lia. }
  rewrite Ht.
  destruct (Z.to_nat (Py.adjust_index (Py.len s) e - Py.find c s)) as [|n];
    [left | right; eexists]; reflexivity.
Qed.

Lemma find_app_none c a b :
  Py.find c a = -1 ->
  Py.find c (a +:+ String c b) = Py.len a.
Proof.
  induction a as [|d a IH].
  - intros _. rewrite app_str_nil_l. cbn [Py.find]. by rewrite Ascii.eqb_refl.
  - rewrite app_str_cons. cbn [Py.find].
    destruct (Ascii.eqb d c); [done|].
    destruct (Py.find c a =? -1) eqn:E;
      [| intros Hx; apply Z.eqb_neq in E; destruct (find_range c a); lia].
    apply Z.eqb_eq in E. intros _. rewrite (IH E).
    pose proof (len_nonneg a).
    destruct (Py.len a =? -1) eqn:E2; [lia|].
    unfold Py.len. cbn [String.length]. lia.
Qed.

Lemma rfind_app_none c a b :
  Py.rfind c b = -1 ->
  Py.rfind c (a +:+ String c b) = Py.len a.
Proof.
  intros Hb. induction a as [|d a IH].
  - rewrite app_str_nil_l. cbn [Py.rfind]. by rewrite Hb, Ascii.eqb_refl.
  - rewrite app_str_cons. cbn [Py.rfind]. rewrite IH.
    pose proof (len_nonneg a).
    destruct (Py.len a =? -1) eqn:E2; [lia|].
    unfold Py.len. cbn [String.length]. lia.
Qed.

Lemma slice_app_mid (a j b : string) :
  Py.slice (a +:+ j +:+ b) (Py.len a) (Py.len a + Py.len j) = j.
Proof.
  unfold Py.slice.
  pose proof (len_nonneg a). pose proof (len_nonneg j). pose proof (len_nonneg b).
  rewrite !len_app.
  assert (Py.adjust_index (Py.len a + (Py.len j + Py.len b)) (Py.len a)
          = Py.len a) as ->.
  { unfold Py.adjust_index. destruct (Py.len a <? 0) eqn:E; lia. }
  assert (Py.adjust_index (Py.len a + (Py.len j + Py.len b))
            (Py.len a + Py.len j) = Py.len a + Py.len j) as ->.
  { unfold Py.adjust_index. destruct (Py.len a + Py.len j <? 0) eqn:E; lia. }
  replace (Py.len a + Py.len j - Py.len a) with (Py.len j) by lia.
  unfold Py.len. rewrite !Nat2Z.id.
  by rewrite skipn_str_app, firstn_str_app.
Qed.

(** C4, as amended. A response text [pre ++ j ++ post], where [j] starts
    with the opening delimiter, ends with the closing one and is
    well-formed JSON with value [v], where the prose before it holds no
    opening delimiter and the prose after it no closing delimiter: the
    extraction (slice from the first opening to the last closing delimiter,
    both included, then [json.loads]) returns [v]. It holds for the
    brackets of the file selector and for the braces of the two
    analyses. *)
Theorem extract_json_roundtrip opener closer pre mid post v :
  Py.find opener pre = -1 ->
  Py.rfind closer post = -1 ->
  Json.loads (String opener (mid +:+ String closer "")) = Some v ->
  extract_json opener closer
    (pre +:+ String opener (mid +:+ String closer "") +:+ post)
  = Ok (Some v).
Proof.
  intros Hpre Hpost Hv. unfold extract_json.
  set (j := String opener (mid +:+ String closer "")).
  assert (Hstart : Py.find opener (pre +:+ j +:+ post) = Py.len pre).
  { unfold j. rewrite app_str_cons. by apply find_app_none. }
  assert (Hend : Py.rfind closer (pre +:+ j +:+ post)
                 = Py.len pre + Py.len j - 1).
  { replace (pre +:+ j +:+ post)
      with ((pre +:+ String opener mid) +:+ String closer post).
    - rewrite (rfind_app_none _ _ _ Hpost). unfold j.
      rewrite len_app, <- (app_str_cons opener mid), !len_app.
      unfold Py.len. cbn [String.length]. lia.
    - unfold j. rewrite !app_str_assoc, !app_str_cons, !app_str_assoc.
      by rewrite app_str_cons, app_str_nil_l. }
  rewrite Hstart, Hend.
  pose proof (len_nonneg pre). pose proof (len_nonneg j).
  assert (0 < Py.len j) by (unfold j, Py.len; cbn [String.length]; lia).
  destruct (Py.len pre =? -1) eqn:E1; [lia|].
  destruct (Py.len pre + Py.len j - 1 + 1 >? 0) eqn:E2; [|lia].
  cbn [negb andb].
  replace (Py.len pre + Py.len j - 1 + 1) with (Py.len pre + Py.len j) by lia.
  rewrite slice_app_mid. unfold j. by rewrite Hv.
Qed.

Lemma extract_json_roundtrip_witness :
  extract_json "[" "]" selection_answer
  = Ok (Some (JArray [JString "package.json"; JString "missing.txt"])).
Proof.
  apply (extract_json_roundtrip "[" "]" "Sure! "
           (quoted "package.json" +:+ ", " +:+ quoted "missing.txt") "");
    reflexivity.
Defined.

(** The claim C4 as stated fails: this answer embeds exactly one
    well-formed JSON array, and the prose around it has a bracket, so the
    slice from the first bracket is not JSON and nothing is recovered. *)
Lemma extract_json_counterexample :
  embedded_values "[" "]" bracketed_prose_answer = [JArray [JString "a"]]
  /\ extract_json "[" "]" bracketed_prose_answer
     = Raise (PyException "JSONDecodeError" "Expecting value").
Proof. split; vm_compute; reflexivity. Qed.

(** A string that starts with a brace parses to a dictionary or not at
    all. *)
Lemma parse_members_object fuel s acc v r :
  Json.parse_members fuel s acc = Some (v, r) -> exists fields, v = JObject fields.
Proof.
  revert s acc. induction fuel as [|fuel IH]; intros s acc; [done|].
  cbn [Json.parse_members]. intros H.
  repeat case_match; simplify_eq; eauto.
Qed.

Lemma loads_object s v :
  Json.loads (String "{" s) = Some v -> exists fields, v = JObject fields.
Proof.
  unfold Json.loads.
  change (Json.skip_ws (String "{" s)) with (String "{"%char s).
  destruct (2 * String.length (String "{" s) + 2)%nat as [|fuel]; [done|].
  cbn [Json.parse_value].
  change (Ascii.eqb "{" Json.dquote) with false.
  change (Ascii.eqb "{" "{") with true. cbv iota.
  intros H. repeat case_match; simplify_eq; eauto using parse_members_object.
Qed.

Lemma extract_json_object text v :
  extract_json "{" "}" text = Ok (Some v) -> exists fields, v = JObject fields.
Proof.
  unfold extract_json. destruct (negb _ && _) eqn:E; [|done].
  apply andb_true_iff in E as [E _]. apply negb_true_iff, Z.eqb_neq in E.
  destruct (slice_from_find "{" text (Py.rfind "}" text + 1) E) as [->|[t ->]].
  - done.
  - destruct (Json.loads (String "{" t)) as [v'|] eqn:Hv; [|done].
    intros [= <-]. by eapply loads_object.
Qed.

(* ===================================================================== *)
(** * Properties: AI file selector *)
(* ===================================================================== *)

Lemma valid_selection_subset items all_files p :
  p ∈ valid_selection items all_files -> p ∈ all_files.
Proof.
  induction items as [|item rest IH]; simpl; [by intros ?%elem_of_nil|].
  destruct item; try exact IH.
  destruct (Py.mem s all_files) eqn:E; [|exact IH].
  intros [->|Hin]%elem_of_cons; [by apply mem_true | by apply IH].
Qed.

(** What the [try] block returns, when it returns a selection, is a
    slice of the valid entries of the list that the model gave. *)
Lemma ai_selection_attempt_some env self all_files w sel w' :
  ai_selection_attempt env self all_files w = (Ok (Some sel), w') ->
  exists items,
    sel = Py.lslice_to (valid_selection items all_files)
            (max_files_to_analyze (config self)).
Proof.
  unfold ai_selection_attempt, bind, lift, ret, raise.
  intros H. repeat case_match; simplify_eq.
  match goal with Hv : valid_selection ?items _ = _ |- _ =>
    exists items; by rewrite Hv end.
Qed.

(** The selector raises only while it builds the prompt; after that
    every failure of the model path is absorbed. *)
Lemma ai_select_cases env self all_files repo_info w :
  match _ai_select_files_to_analyze env self all_files repo_info w with
  | (Ok sel, w') =>
      (exists items,
         sel = Py.lslice_to (valid_selection items all_files)
                 (max_files_to_analyze (config self)))
      \/ (sel = _heuristic_file_selection self all_files
          /\ try_except (ai_selection_attempt env self all_files)
               (fun _ => ret None) w = (Ok None, w'))
  | (Raise e, _) => topics_str repo_info "None specified" = Raise e
  end.
Proof.
  unfold _ai_select_files_to_analyze, bind at 1, lift.
  destruct (topics_str repo_info "None specified") as [s|e]; [|done].
  unfold ret at 1, bind, try_except.
  destruct (ai_selection_attempt env self all_files w) as [[[sel|]|e] w1] eqn:E;
    unfold ret; eauto using ai_selection_attempt_some.
Qed.

(** C3, as amended. For every filtered file list, repository metadata
    and configuration, every path of the selection that
    [_ai_select_files_to_analyze] returns is a member of the filtered
    list, whether it comes from the model or from the heuristic ranker;
    and for every configuration whose [max_files_to_analyze] is not
    negative, the selection has at most [max_files_to_analyze] paths. The
    same holds for [_heuristic_file_selection] on its own. The selector
    returns unless the topics of the metadata cannot be joined into the
    prompt. *)
Theorem selection_within_limit_and_files env self all_files repo_info w :
  match _ai_select_files_to_analyze env self all_files repo_info w with
  | (Ok sel, _) =>
      (forall p, p ∈ sel -> p ∈ all_files)
      /\ (0 <= max_files_to_analyze (config self) ->
          Py.llen sel <= max_files_to_analyze (config self))
  | (Raise e, _) => topics_str repo_info "None specified" = Raise e
  end
  /\ (forall p, p ∈ _heuristic_file_selection self all_files -> p ∈ all_files)
  /\ (0 <= max_files_to_analyze (config self) ->
      Py.llen (_heuristic_file_selection self all_files)
      <= max_files_to_analyze (config self)).
Proof.
  assert (Hheur : (forall p, p ∈ _heuristic_file_selection self all_files ->
                             p ∈ all_files)
                  /\ (0 <= max_files_to_analyze (config self) ->
                      Py.llen (_heuristic_file_selection self all_files)
                      <= max_files_to_analyze (config self))).
  { split; [intros p; apply heuristic_rank_subset|].
    intros Hlimit. by apply heuristic_rank_bounded. }
  split; [|exact Hheur].
  pose proof (ai_select_cases env self all_files repo_info w) as Hcases.
  destruct (_ai_select_files_to_analyze env self all_files repo_info w)
    as [[sel|e] w']; [|exact Hcases].
  destruct Hcases as [[items ->]|[-> _]]; [|exact Hheur].
  split.
  - intros p Hp%elem_of_lslice_to. by eapply valid_selection_subset.
  - intros Hlimit. by apply llen_lslice_to.
Qed.

Lemma selection_within_limit_and_files_witness :
  _ai_select_files_to_analyze
    (constant_env (rate_limit_response None) (AIResponds [Some selection_answer]))
    default_analyzer ["package.json"; "src/index.js"] [] world0
  = (Ok ["package.json"],
     {| http_calls := 0; ai_calls := 1;
        trace := [EvChat "anthropic.claude-3-7-sonnet-20250219-v1:0"] |})
  /\ Py.llen ["package.json"] <= 50.
Proof.
  pose proof (selection_within_limit_and_files
                (constant_env (rate_limit_response None)
                   (AIResponds [Some selection_answer]))
                default_analyzer ["package.json"; "src/index.js"] [] world0)
    as H.
  assert (Hrun : _ai_select_files_to_analyze
            (constant_env (rate_limit_response None)
               (AIResponds [Some selection_answer]))
            default_analyzer ["package.json"; "src/index.js"] [] world0
          = (Ok ["package.json"],
             {| http_calls := 0; ai_calls := 1;
                trace := [EvChat "anthropic.claude-3-7-sonnet-20250219-v1:0"] |}))
    by (vm_compute; reflexivity).
  rewrite Hrun in H. split; [reflexivity|].
  destruct H as [[_ Hlen] _]. apply Hlen. vm_compute. discriminate.
Defined.

(** The claim C3 as stated fails for a configuration whose limit is
    negative, which [_validate_config] lets through: the slice
    [[:limit]] then counts from the end. With the limit -1 the model
    path returns two of the three paths that the model listed, and the
    heuristic path one of two, each more than the limit. *)
Lemma selection_limit_counterexample :
  max_files_to_analyze (config (analyzer_with_limit (-1))) = -1
  /\ (_ai_select_files_to_analyze
        (constant_env (rate_limit_response None)
           (AIResponds [Some three_paths_answer]))
        (analyzer_with_limit (-1)) ["a.py"; "b.py"; "c.py"] [] world0).1
     = Ok ["a.py"; "b.py"]
  /\ ~ Py.llen ["a.py"; "b.py"] <= -1
  /\ _heuristic_file_selection (analyzer_with_limit (-1))
       ["package.json"; "README.md"] = ["package.json"]
  /\ ~ Py.llen ["package.json"] <= -1.
Proof.
  split; [reflexivity|].
  split; [vm_compute; reflexivity|].
  split; [unfold Py.llen; cbn [length]; lia|].
  split; [reflexivity|].
  unfold Py.llen. cbn [length]. lia.
Qed.

(** C10. When every path of the list scores 0, that is, when no scoring
    rule applies to any of them (no priority pattern occurs in it, it has
    a directory component, its file name contains neither "config" nor
    "setup" and is none of the documentation names), the heuristic
    selection is empty, whatever the limit; so whenever the model path of
    the selector yields no selection, the selector returns the empty
    list, also for a list of files that is not empty. *)
Theorem heuristic_selection_can_be_empty self all_files :
  Forall (fun p => file_score p = 0) all_files ->
  Forall scores_nothing all_files
  /\ _heuristic_file_selection self all_files = []
  /\ forall env repo_info w w' prompt_topics,
       topics_str repo_info "None specified" = Ok prompt_topics ->
       try_except (ai_selection_attempt env self all_files)
         (fun _ => ret None) w = (Ok None, w') ->
       _ai_select_files_to_analyze env self all_files repo_info w = (Ok [], w').
Proof.
  intros Hzero.
  assert (Hall : Forall scores_nothing all_files).
  { eapply Forall_impl; [exact Hzero|]. intros p. apply file_score_zero_iff. }
  assert (Hempty : _heuristic_file_selection self all_files = [])
    by (by apply heuristic_rank_nothing).
  split; [exact Hall|]. split; [exact Hempty|].
  intros env repo_info w w' prompt_topics Htopics Htry.
  unfold _ai_select_files_to_analyze, bind at 1, lift. rewrite Htopics.
  unfold ret at 1, bind. rewrite Htry. unfold ret. by rewrite Hempty.
Qed.

Lemma heuristic_selection_can_be_empty_witness :
  _heuristic_file_selection default_analyzer ["src/main.py"; "lib/util.rb"] = []
  /\ (_ai_select_files_to_analyze
        (constant_env (rate_limit_response None) ai_down)
        default_analyzer ["src/main.py"; "lib/util.rb"] [] world0).1 = Ok [].
Proof.
  destruct (heuristic_selection_can_be_empty default_analyzer
              ["src/main.py"; "lib/util.rb"]) as (_ & H1 & H2).
  { repeat constructor; vm_compute; reflexivity. }
  split; [exact H1|].
  erewrite H2; [reflexivity | reflexivity | vm_compute; reflexivity].
Defined.

(* ===================================================================== *)
(** * Properties: content fetcher *)
(* ===================================================================== *)

Lemma len_marker : Py.len TRUNCATION_MARKER = 16.
Proof. reflexivity. Qed.

(** A stored text is at most [max_size] characters and the marker. *)
Lemma len_truncate max_size decoded_text :
  0 <= max_size ->
  Py.len (truncate max_size decoded_text)
  <= max_size + Py.len TRUNCATION_MARKER.
Proof.
  intros Hm. unfold truncate. rewrite len_marker.
  destruct (Py.len decoded_text >? max_size) eqn:E.
  - apply Z.gtb_lt in E. rewrite len_app, len_marker.
    rewrite len_slice_to by lia. lia.
  - rewrite Z.gtb_ltb in E. apply Z.ltb_ge in E. lia.
Qed.

(** With a negative [max_size] the slice counts from the end, and the
    stored text is longer than [max_size] and the marker. *)
Example truncate_negative_max_size :
  truncate (-5) "0123456789" = "01234" +:+ TRUNCATION_MARKER.
Proof. reflexivity. Qed.

(** One turn of the loop leaves the state as it was or stores one
    truncated text and adds its length to the total. *)
Lemma store_content_cases self file_path content_data fc total fc' total' :
  store_content self file_path content_data fc total = Ok (fc', total') ->
  (fc' = fc /\ total' = total)
  \/ exists decoded_text,
       let v := truncate (max_file_size (config self)) decoded_text in
       fc' = dict_set file_path v fc /\ total' = total + Py.len v.
Proof.
  unfold store_content. intros H.
  repeat case_match; simplify_eq; eauto.
Qed.

Lemma fetch_one_file_cases env self url file_path fc total w ctl fc' total' w' :
  fetch_one_file env self url file_path fc total w = (Ok (ctl, (fc', total')), w') ->
  (fc' = fc /\ total' = total)
  \/ exists decoded_text,
       let v := truncate (max_file_size (config self)) decoded_text in
       fc' = dict_set file_path v fc /\ total' = total + Py.len v.
Proof.
  unfold fetch_one_file, bind, lift, ret, raise, raise_for_status, response_json.
  intros H.
  repeat case_match; simplify_eq; eauto using store_content_cases.
Qed.

(** The loop never raises, and it keeps every property of the state that
    storing a text below the budget keeps. *)
Lemma fetch_contents_loop_invariant
  (P : list (string * string) -> Z -> Prop) env self owner repo max_total_size :
  (forall fc total file_path decoded_text,
     P fc total -> total < max_total_size ->
     let v := truncate (max_file_size (config self)) decoded_text in
     P (dict_set file_path v fc) (total + Py.len v)) ->
  forall file_paths fc total w,
    P fc total ->
    exists fc' total' w',
      fetch_contents_loop env self owner repo max_total_size file_paths fc total w
      = (Ok (fc', total'), w')
      /\ P fc' total'.
Proof.
  intros Hstep file_paths.
  induction file_paths as [|file_path rest IH]; intros fc total w HP.
  - by exists fc, total, w.
  - cbn [fetch_contents_loop].
    destruct (total >=? max_total_size) eqn:Ebudget; [by exists fc, total, w|].
    assert (Hbelow : total < max_total_size).
    { rewrite Z.geb_leb in Ebudget. apply Z.leb_gt in Ebudget. lia. }
    unfold bind at 1, try_except.
    destruct (fetch_one_file env self _ file_path fc total w)
      as [[[ctl [fc1 total1]]|e] w1] eqn:Eone.
    + assert (HP1 : P fc1 total1).
      { apply fetch_one_file_cases in Eone as [[-> ->]|(text & -> & ->)];
          [done | apply Hstep; done]. }
      unfold ret at 1. destruct ctl; [by apply IH | by exists fc1, total1, w1].
    + unfold ret at 1. by apply IH.
Qed.

(** Once the running total has reached the budget, nothing more is
    fetched: no request is made and the state is returned as it is. *)
Lemma fetch_contents_loop_stops env self owner repo max_total_size
  file_paths fc total w :
  max_total_size <= total ->
  fetch_contents_loop env self owner repo max_total_size file_paths fc total w
  = (Ok (fc, total), w).
Proof.
  intros Hfull. destruct file_paths as [|file_path rest]; [done|].
  cbn [fetch_contents_loop].
  assert ((total >=? max_total_size) = true) as -> by (apply Z.geb_le; lia).
  done.
Qed.

Lemma elem_of_dict_set {V} k (v : V) d k' v' :
  (k', v') ∈ dict_set k v d -> (k', v') = (k, v) \/ (k', v') ∈ d.
Proof.
  induction d as [|[k0 v0] d IH]; simpl.
  - intros ->%list_elem_of_singleton. by left.
  - destruct (String.eqb k k0).
    + intros [->|Hin]%elem_of_cons; [by left|].
      right. by apply list_elem_of_further.
    + intros [->|Hin]%elem_of_cons; [right; apply list_elem_of_here|].
      destruct (IH Hin) as [?|?]; [by left|].
      right. by apply list_elem_of_further.
Qed.

(** C9, as amended. For every repository, list of paths and world, and
    every configuration whose [max_file_size] is not negative, the content
    fetcher returns a dictionary whose combined length is strictly less
    than [MAX_TOTAL_CONTENT_SIZE + max_file_size + len(marker)], and
    whose every entry is at most [max_file_size + len(marker)] long: a
    file is fetched only while the running total is below the budget, so
    the total passes the budget by one entry at most. *)
Theorem content_total_below_budget_plus_entry env self owner repo file_paths w :
  0 <= max_file_size (config self) ->
  exists file_contents w',
    _fetch_file_contents env self owner repo file_paths w = (Ok file_contents, w')
    /\ total_length file_contents
       < Constants.MAX_TOTAL_CONTENT_SIZE + max_file_size (config self)
         + Py.len TRUNCATION_MARKER
    /\ forall k v, (k, v) ∈ file_contents ->
                   Py.len v <= max_file_size (config self) + Py.len TRUNCATION_MARKER.
Proof.
  intros Hm.
  set (bound := max_file_size (config self) + Py.len TRUNCATION_MARKER).
  destruct (fetch_contents_loop_invariant
              (fun fc total =>
                 total_length fc <= total
                 /\ total < Constants.MAX_TOTAL_CONTENT_SIZE + bound
                 /\ forall k v, (k, v) ∈ fc -> Py.len v <= bound)
              env self owner repo Constants.MAX_TOTAL_CONTENT_SIZE)
    with (file_paths := file_paths) (fc := @nil (string * string))
         (total := 0) (w := w)
    as (fc' & total' & w' & Hrun & Htotal & Hbound & Hentries).
  - intros fc total file_path decoded_text (Htot & _ & Hent) Hbelow v.
    pose proof (len_truncate _ decoded_text Hm) as Hv. fold v bound in Hv.
    pose proof (total_length_set file_path v fc).
    split; [lia | split; [lia|]].
    intros k x Hin. apply elem_of_dict_set in Hin as [Heq|Hin].
    + injection Heq as -> ->. exact Hv.
    + by eapply Hent.
  - unfold bound. rewrite len_marker. unfold Constants.MAX_TOTAL_CONTENT_SIZE.
    split; [done | split; [lia|]]. by intros k v ?%elem_of_nil.
  - exists fc', w'. unfold _fetch_file_contents, fetch_file_contents_with, bind.
    rewrite Hrun. unfold ret. cbn [fst]. split; [done | split; [lia | exact Hentries]].
Qed.

Lemma content_total_below_budget_plus_entry_witness :
  exists file_contents w',
    _fetch_file_contents env_files_60 default_analyzer "octocat" "hello"
      ["a.py"; "b.py"] world0 = (Ok file_contents, w')
    /\ total_length file_contents < 100000 + 10000 + 16.
Proof.
  destruct (content_total_below_budget_plus_entry env_files_60 default_analyzer
              "octocat" "hello" ["a.py"; "b.py"] world0)
    as (fc & w' & Hrun & Htotal & _); [vm_compute; discriminate|].
  exists fc, w'. split; [exact Hrun | exact Htotal].
Defined.

(** The claim C9 as stated fails for a configuration whose
    [max_file_size] is negative, which [_validate_config] lets through:
    the slice [[:max_size]] then counts from the end. With the size -1 a
    text of ten characters is stored as 25 characters, more than the size
    plus the marker (15); and ten files of 10002 characters are stored as
    10017 characters each, 100170 in all, which is not below the budget
    plus the size plus the marker (100015). *)
Lemma content_bound_counterexample :
  max_file_size (config (analyzer_with_file_size (-1))) = -1
  /\ Py.len (truncate (-1) "0123456789") = 25
  /\ ~ Py.len (truncate (-1) "0123456789") <= -1 + Py.len TRUNCATION_MARKER
  /\ exists file_contents w',
       _fetch_file_contents env_files_10002 (analyzer_with_file_size (-1))
         "octocat" "hello" ten_paths world0 = (Ok file_contents, w')
       /\ total_length file_contents = 100170
       /\ ~ total_length file_contents
            < Constants.MAX_TOTAL_CONTENT_SIZE + -1 + Py.len TRUNCATION_MARKER.
Proof.
  split; [reflexivity|]. split; [reflexivity|].
  split; [vm_compute; intros H; by apply H|].
  eexists _, _. split; [vm_compute; reflexivity|].
  match goal with |- ?t = _ /\ _ =>
    assert (Ht : t = 100170) by (vm_compute; reflexivity) end.
  split; [exact Ht|]. rewrite Ht, len_marker.
  unfold Constants.MAX_TOTAL_CONTENT_SIZE. lia.
Qed.

(** The claim C1 as stated fails. With the default configuration and
    files of 10002 characters, each stored as 10016, the total is 90144
    after nine files, still below the budget of 100000, so a tenth file is
    fetched and the total is 100160. With a budget of 100 and files of 60
    characters the second file is fetched too. *)
Lemma content_budget_counterexample :
  (exists file_contents w',
     _fetch_file_contents env_files_10002 default_analyzer "octocat" "hello"
       ten_paths world0 = (Ok file_contents, w')
     /\ http_calls w' = 10%nat
     /\ total_length file_contents = 100160
     /\ ~ total_length file_contents <= Constants.MAX_TOTAL_CONTENT_SIZE)
  /\ (exists file_contents w',
        fetch_file_contents_with 100 env_files_60 default_analyzer
          "octocat" "hello" ["a.py"; "b.py"; "c.py"] world0
        = (Ok file_contents, w')
        /\ dict_keys file_contents = ["a.py"; "b.py"]
        /\ total_length file_contents = 120).
Proof.
  split.
  - eexists _, _. split; [vm_compute; reflexivity|].
    split; [reflexivity|].
    match goal with |- ?t = _ /\ _ =>
      assert (Ht : t = 100160) by (vm_compute; reflexivity) end.
    split; [exact Ht|]. rewrite Ht. unfold Constants.MAX_TOTAL_CONTENT_SIZE. lia.
  - eexists _, _. split; [vm_compute; reflexivity|].
    split; vm_compute; reflexivity.
Qed.

(** C1, as amended. Fetching stops entirely once the running total has
    reached the budget: from then on no file is requested. A file is
    fetched while the total is still below the budget, so the dictionary
    that the fetcher returns is within MAX_TOTAL_CONTENT_SIZE, or passes
    it by less than the length of one of its entries. With a budget of
    100 and three files of 60 characters, two files are fetched (120
    characters) and the third is not requested. *)
Theorem content_budget_stops_fetching env self owner repo :
  (forall file_paths fc total w,
     Constants.MAX_TOTAL_CONTENT_SIZE <= total ->
     fetch_contents_loop env self owner repo Constants.MAX_TOTAL_CONTENT_SIZE
       file_paths fc total w = (Ok (fc, total), w))
  /\ (forall file_paths w,
        exists file_contents w',
          _fetch_file_contents env self owner repo file_paths w
          = (Ok file_contents, w')
          /\ (total_length file_contents <= Constants.MAX_TOTAL_CONTENT_SIZE
              \/ exists k v,
                   (k, v) ∈ file_contents
                   /\ total_length file_contents
                      < Constants.MAX_TOTAL_CONTENT_SIZE + Py.len v))
  /\ fetch_file_contents_with 100 env_files_60 default_analyzer
       "octocat" "hello" ["a.py"; "b.py"; "c.py"] world0
     = (Ok [("a.py", repeat_str 60 "A"); ("b.py", repeat_str 60 "A")],
        {| http_calls := 2; ai_calls := 0;
           trace := [EvGet "https://api.github.com/repos/octocat/hello/contents/a.py";
                     EvGet "https://api.github.com/repos/octocat/hello/contents/b.py"] |}).
Proof.
  split; [|split].
  - intros file_paths fc total w. apply fetch_contents_loop_stops.
  - intros file_paths w.
    destruct (fetch_contents_loop_invariant
                (fun fc total =>
                   total_length fc <= total
                   /\ (total <= Constants.MAX_TOTAL_CONTENT_SIZE
                       \/ exists k v,
                            (k, v) ∈ fc
                            /\ total < Constants.MAX_TOTAL_CONTENT_SIZE + Py.len v))
                env self owner repo Constants.MAX_TOTAL_CONTENT_SIZE)
      with (file_paths := file_paths) (fc := @nil (string * string))
           (total := 0) (w := w)
      as (fc' & total' & w' & Hrun & Htotal & Hlast).
    + intros fc total file_path decoded_text (Htot & _) Hbelow v.
      pose proof (total_length_set file_path v fc).
      split; [lia|]. right. exists file_path, v. split; [|lia].
      clear. induction fc as [|[k0 v0] fc IH]; simpl.
      * apply list_elem_of_here.
      * destruct (String.eqb file_path k0);
          [apply list_elem_of_here | by apply list_elem_of_further].
    + split; [done|]. left. unfold Constants.MAX_TOTAL_CONTENT_SIZE. lia.
    + exists fc', w'. unfold _fetch_file_contents, fetch_file_contents_with, bind.
      rewrite Hrun. unfold ret. cbn [fst]. split; [done|].
      destruct Hlast as [Hle|(k & v & Hin & Hlt)]; [left; lia|].
      right. exists k, v. split; [done | lia].
  - vm_compute. reflexivity.
Qed.

(* ===================================================================== *)
(** * Properties: structure analyzer *)
(* ===================================================================== *)

(** The fallback has the full shape, every field filled, and carries the
    marker. *)
Lemma heuristic_structure_full_shape all_files repo_info :
  has_full_shape (_heuristic_structure_analysis all_files repo_info) = true
  /\ is_fallback (_heuristic_structure_analysis all_files repo_info) = true.
Proof.
  unfold _heuristic_structure_analysis.
  destruct (scan_tree all_files ∅ []) as [directories file_extensions].
  split; reflexivity.
Qed.

(** The fields that the fallback never works out hold their defaults. *)
Lemma heuristic_structure_defaults all_files repo_info :
  exists top insights project_type,
    _heuristic_structure_analysis all_files repo_info = JObject top
    /\ dict_keys top = dict_keys STRUCTURE_SHAPE
    /\ dict_get "build_system" top
       = Some (JObject [("build_tools", JArray []); ("package_managers", JArray []);
                        ("bundlers", JArray []); ("task_runners", JArray [])])
    /\ dict_get "insights" top = Some (JObject insights)
    /\ dict_get "estimated_team_size" insights = Some (JString "unknown")
    /\ dict_get "project_type" top = Some (JObject project_type)
    /\ dict_get "domain" project_type = Some (JString "unknown").
Proof.
  unfold _heuristic_structure_analysis.
  destruct (scan_tree all_files ∅ []) as [directories file_extensions].
  eexists _, _, _. split; [reflexivity|]. repeat split.
Qed.

(** The claim C2 as stated fails: when the model answers with an empty
    object, that object is returned as the analysis, with none of the
    nine sections. *)
Lemma structure_analysis_counterexample :
  _ai_analyze_repo_structure
    (constant_env (rate_limit_response None) (AIResponds [Some "{}"]))
    default_analyzer ["src/main.py"] [] world0
  = (Ok (JObject []),
     {| http_calls := 0; ai_calls := 1;
        trace := [EvChat "anthropic.claude-3-7-sonnet-20250219-v1:0"] |})
  /\ has_full_shape (JObject []) = false.
Proof. split; vm_compute; reflexivity. Qed.

(** C2, as amended. The structure analysis returns either the object that
    the model produced, exactly as [json.loads] read it between the first
    and the last brace of the response (a dictionary, with no check that
    any field is present), or the heuristic fallback; the fallback always
    has the full fixed shape, each section with all its fields, and
    carries the [fallback_analysis] marker. The call returns unless the
    topics of the metadata cannot be joined into the prompt. *)
Theorem structure_analysis_verbatim_or_fallback env self all_files repo_info w :
  has_full_shape (_heuristic_structure_analysis all_files repo_info) = true
  /\ is_fallback (_heuristic_structure_analysis all_files repo_info) = true
  /\ match _ai_analyze_repo_structure env self all_files repo_info w with
     | (Ok v, w') =>
         (exists response_text fields,
            _call_ai_model env self w = (Ok (Some response_text), w')
            /\ extract_json "{" "}" response_text = Ok (Some v)
            /\ v = JObject fields)
         \/ v = _heuristic_structure_analysis all_files repo_info
     | (Raise e, _) => topics_str repo_info "None" = Raise e
     end.
Proof.
  destruct (heuristic_structure_full_shape all_files repo_info) as [Hshape Hfb].
  split; [exact Hshape | split; [exact Hfb|]].
  unfold _ai_analyze_repo_structure, bind at 1, lift.
  destruct (topics_str repo_info "None") as [s|e]; [|done].
  unfold ret at 1, bind, try_except, ai_structure_attempt, bind.
  destruct (_call_ai_model env self w) as [[[text|]|e] w1] eqn:Ecall;
    unfold ret, lift; try by right.
  destruct (extract_json "{" "}" text) as [[v|]|e] eqn:Ex;
    unfold ret, raise; try by right.
  left. destruct (extract_json_object _ _ Ex) as [fields ->].
  by exists text, fields.
Qed.

(* ===================================================================== *)
(** * Properties: accounting of effects *)
(* ===================================================================== *)

Lemma follows_refl w : follows w w [].
Proof.
  unfold follows. cbn [List.filter length].
  rewrite !Nat.add_0_r, app_nil_r. done.
Qed.

Lemma follows_trans w1 w2 w3 t1 t2 :
  follows w1 w2 t1 -> follows w2 w3 t2 -> follows w1 w3 (t1 ++ t2).
Proof.
  intros (Hg1 & Hc1 & Ht1) (Hg2 & Hc2 & Ht2). unfold follows.
  rewrite !List.filter_app, !length_app, Hg2, Hg1, Hc2, Hc1, Ht2, Ht1.
  rewrite app_assoc. split; [lia | split; [lia | done]].
Qed.

Lemma follows_get url w : follows w (after_get url w) [EvGet url].
Proof. unfold follows. cbn. split; [lia | split; [lia | done]]. Qed.

Lemma follows_chat model_name w :
  follows w (after_chat model_name w) [EvChat model_name].
Proof. unfold follows. cbn. split; [lia | split; [lia | done]]. Qed.

Lemma follows_sleep seconds w :
  follows w (after_sleep seconds w) [EvSleep seconds].
Proof. unfold follows. cbn. split; [lia | split; [lia | done]]. Qed.

Lemma follows_eq w w1 w2 t : follows w w1 t -> follows w w2 t -> w1 = w2.
Proof.
  intros (Hg1 & Hc1 & Ht1) (Hg2 & Hc2 & Ht2).
  destruct w1, w2. cbn in *. congruence.
Qed.

(** A run of a retry loop makes at most three attempts and sleeps only
    between two of them. *)
Lemma retry_runs_bounds e d1 d2 t :
  t ∈ retry_runs e d1 d2 ->
  (length t <= 5)%nat /\ head t = Some e /\ last t = Some e.
Proof.
  unfold retry_runs. intros Hin.
  repeat (apply elem_of_cons in Hin as [-> | Hin]); cbn; try (split; [lia | done]).
  by apply elem_of_nil in Hin.
Qed.

Lemma slept_app t1 t2 : slept (t1 ++ t2) = slept t1 + slept t2.
Proof.
  induction t1 as [|e t1 IH]; [done|].
  cbn [app slept]. destruct e; lia.
Qed.

Lemma within_refl w : within w w 0 0 0.
Proof.
  exists []. split; [apply follows_refl|]. cbn. split; [lia | split; lia].
Qed.

Lemma within_trans w1 w2 w3 g1 c1 s1 g2 c2 s2 :
  within w1 w2 g1 c1 s1 -> within w2 w3 g2 c2 s2 ->
  within w1 w3 (g1 + g2) (c1 + c2) (s1 + s2).
Proof.
  intros (t1 & Hf1 & Hg1 & Hc1 & Hs1) (t2 & Hf2 & Hg2 & Hc2 & Hs2).
  exists (t1 ++ t2). split; [by eapply follows_trans|].
  rewrite !List.filter_app, !length_app, slept_app.
  split; [lia | split; lia].
Qed.

Lemma within_weaken w w' g c s g' c' s' :
  within w w' g c s -> (g <= g')%nat -> (c <= c')%nat -> s <= s' ->
  within w w' g' c' s'.
Proof.
  intros (t & Hf & Hg & Hc & Hs) ? ? ?. exists t.
  split; [done|]. split; [lia | split; lia].
Qed.

(** A run of a retry loop of the hosting client: at most three requests
    and three seconds; one of the AI client: at most three calls and six
    seconds. *)
Lemma retry_runs_get_within url t w w' :
  t ∈ retry_runs (EvGet url) 1 2 -> follows w w' t -> within w w' 3 0 3.
Proof.
  intros Hin Hf. exists t. split; [done|]. unfold retry_runs in Hin.
  repeat (apply elem_of_cons in Hin as [-> | Hin]);
    [cbn; split; [lia | split; lia] ..|].
  by apply elem_of_nil in Hin.
Qed.

Lemma retry_runs_chat_within model_name t w w' :
  t ∈ retry_runs (EvChat model_name) 2 4 -> follows w w' t ->
  within w w' 0 3 6.
Proof.
  intros Hin Hf. exists t. split; [done|]. unfold retry_runs in Hin.
  repeat (apply elem_of_cons in Hin as [-> | Hin]);
    [cbn; split; [lia | split; lia] ..|].
  by apply elem_of_nil in Hin.
Qed.

(* ===================================================================== *)
(** * Properties: the retry loops of the hosting API client *)
(* ===================================================================== *)

Lemma fetch_repo_info_loop_shape env url attempts :
  fetch_repo_info_loop env url attempts
  = retry_loop (fetch_repo_info_attempt env url)
      "Failed to fetch repository info: " (JObject []) attempts.
Proof.
  induction attempts as [|attempt rest IH]; [done|].
  cbn [fetch_repo_info_loop retry_loop]. by rewrite IH.
Qed.

Lemma fetch_tree_loop_shape env url attempts :
  fetch_tree_loop env url attempts
  = retry_loop (fetch_tree_attempt env url)
      "Failed to fetch file tree: " [] attempts.
Proof.
  induction attempts as [|attempt rest IH]; [done|].
  cbn [fetch_tree_loop retry_loop]. by rewrite IH.
Qed.

(** Each attempt makes one request and nothing else. *)
Lemma fetch_repo_info_attempt_world env url w :
  (fetch_repo_info_attempt env url w).2 = after_get url w.
Proof.
  unfold fetch_repo_info_attempt, bind, requests_get.
  destruct (http_get env (http_calls w) url) as [msg|msg|r]; [done | done |].
  destruct (is_rate_limited r).
  - by destruct (rate_limit_reset r) as [[]|].
  - unfold raise_for_status, response_json.
    destruct ((400 <=? status_code r) && (status_code r <? 600)); [done|].
    cbn. by destruct (Json.loads (text r)).
Qed.

Lemma fetch_tree_attempt_world env url w :
  (fetch_tree_attempt env url w).2 = after_get url w.
Proof.
  unfold fetch_tree_attempt, bind, requests_get.
  destruct (http_get env (http_calls w) url) as [msg|msg|r]; [done | done |].
  destruct (is_rate_limited r); [done|].
  unfold raise_for_status, response_json.
  destruct ((400 <=? status_code r) && (status_code r <? 600)); [done|].
  cbn. destruct (Json.loads (text r)) as [v|]; [|done].
  cbn. by destruct (tree_file_paths v).
Qed.

(** One turn of a retry loop whose attempts make one request each. *)
Lemma retry_turn {A} (body : M A) what url attempt continue w :
  (forall w0, (body w0).2 = after_get url w0) ->
  try_except body (retry_handler what attempt continue) w
  = match (body w).1 with
    | Ok a => (Ok a, after_get url w)
    | Raise e => retry_handler what attempt continue e (after_get url w)
    end.
Proof.
  intros Hworld. unfold try_except. rewrite <- Hworld.
  by destruct (body w) as [[a|e] w'].
Qed.

(** A retried outcome before the last attempt: a sleep, then the rest. *)
Lemma retry_handler_retried {A} what attempt (continue : M A) e w :
  retried (Raise (A:=A) e) = true -> (attempt <? 2) = true ->
  retry_handler what attempt continue e w
  = continue (after_sleep (2 ^ attempt) w).
Proof.
  intros Hr Hlt. destruct e; try discriminate Hr; cbn [retry_handler];
    by rewrite Hlt.
Qed.

(** The outcome of the last attempt. *)
Lemma retry_handler_last {A} what (default : A) e w :
  retry_handler what 2 (ret default) e w
  = (last_outcome what default (Raise e), w).
Proof. by destruct e. Qed.

(** An outcome that is not retried propagates. *)
Lemma retry_handler_raise {A} what attempt (continue : M A) e w :
  retried (Raise (A:=A) e) = false ->
  retry_handler what attempt continue e w = (Raise e, w).
Proof. intros Hr. by destruct e. Qed.

Lemma last_outcome_not_retried {A} what (default : A) r :
  retried r = false -> last_outcome what default r = r.
Proof. by destruct r as [a|[]]. Qed.

(** The loop over [range(3)] unrolled: it ends at the first attempt that
    is not retried, in the world right after that attempt's request; the
    second attempt starts after a sleep of 1 second, the third after a
    sleep of 2 seconds, and nothing follows the third. *)
Lemma retry_loop_cases {A} (body : M A) what default url w :
  (forall w0, (body w0).2 = after_get url w0) ->
  let w1 := after_sleep 1 (after_get url w) in
  let w2 := after_sleep 2 (after_get url w1) in
  let out := retry_loop body what default (Py.range 3) w in
  (retried (body w).1 = false /\ out = ((body w).1, after_get url w))
  \/ (retried (body w).1 = true /\ retried (body w1).1 = false
      /\ out = ((body w1).1, after_get url w1))
  \/ (retried (body w).1 = true /\ retried (body w1).1 = true
      /\ out = (last_outcome what default (body w2).1, after_get url w2)).
Proof.
  intros Hworld w1 w2 out. subst out.
  change (Py.range 3) with [0; 1; 2]. cbn [retry_loop].
  rewrite (retry_turn _ _ url) by done.
  destruct (retried (body w).1) eqn:R0.
  2:{ left. split; [done|].
      destruct (body w).1 as [a|e]; [done|]. by apply retry_handler_raise. }
  right.
  destruct (body w).1 as [a|e0]; [done|].
  rewrite retry_handler_retried by done. change (2 ^ 0) with 1. fold w1.
  rewrite (retry_turn _ _ url) by done.
  destruct (retried (body w1).1) eqn:R1.
  2:{ left. split; [done | split; [done|]].
      destruct (body w1).1 as [a|e]; [done|]. by apply retry_handler_raise. }
  right. split; [done | split; [done|]].
  destruct (body w1).1 as [a|e1]; [done|].
  rewrite retry_handler_retried by done. change (2 ^ 1) with 2. fold w2.
  rewrite (retry_turn _ _ url) by done.
  destruct (body w2).1 as [a|e2]; [done|].
  apply retry_handler_last.
Qed.

(** The events of a run of a retry loop, whatever the attempts do. *)
Lemma retry_loop_follows {A} (body : M A) what default url w :
  (forall w0, (body w0).2 = after_get url w0) ->
  exists t, t ∈ retry_runs (EvGet url) 1 2
            /\ follows w (retry_loop body what default (Py.range 3) w).2 t.
Proof.
  intros Hworld.
  destruct (retry_loop_cases body what default url w Hworld)
    as [(_ & ->) | [(_ & _ & ->) | (_ & _ & ->)]]; cbn [snd].
  - exists [EvGet url]. split; [by apply elem_of_cons; left | apply follows_get].
  - exists ([EvGet url] ++ [EvSleep 1] ++ [EvGet url]). split.
    + unfold retry_runs. cbn [app]. rewrite !elem_of_cons. by right; left.
    + eapply follows_trans; [apply follows_get|].
      eapply follows_trans; [apply follows_sleep | apply follows_get].
  - exists ([EvGet url] ++ [EvSleep 1] ++ [EvGet url] ++ [EvSleep 2] ++ [EvGet url]).
    split.
    + unfold retry_runs. cbn [app]. rewrite !elem_of_cons. by right; right; left.
    + eapply follows_trans; [apply follows_get|].
      eapply follows_trans; [apply follows_sleep|].
      eapply follows_trans; [apply follows_get|].
      eapply follows_trans; [apply follows_sleep | apply follows_get].
Qed.

(** X1. Whatever the hosting API answers, the metadata fetch and the
    file-tree fetch each make one, two or three requests to their one
    URL, sleep 1 second between the first two and 2 seconds between the
    last two, never sleep after the last request, and make no model
    call: the events of a run are one of the three runs of
    [retry_runs], at most three requests and three seconds of sleep. *)
Theorem fetch_requests_and_sleeps env owner repo w :
  (exists t, t ∈ retry_runs (EvGet (repo_url owner repo)) 1 2
             /\ follows w (_fetch_repo_info env owner repo w).2 t
             /\ within w (_fetch_repo_info env owner repo w).2 3 0 3)
  /\ (exists t, t ∈ retry_runs (EvGet (tree_url owner repo)) 1 2
                /\ follows w (_fetch_complete_file_tree env owner repo w).2 t
                /\ within w (_fetch_complete_file_tree env owner repo w).2
                     3 0 3).
Proof.
  split.
  - unfold _fetch_repo_info. cbv zeta. rewrite fetch_repo_info_loop_shape.
    destruct (retry_loop_follows (fetch_repo_info_attempt env (repo_url owner repo))
                "Failed to fetch repository info: " (JObject [])
                (repo_url owner repo) w) as (t & Ht & Hf).
    { apply fetch_repo_info_attempt_world. }
    exists t. split; [done|]. split; [done|].
    by eapply retry_runs_get_within.
  - unfold _fetch_complete_file_tree. cbv zeta. rewrite fetch_tree_loop_shape.
    destruct (retry_loop_follows (fetch_tree_attempt env (tree_url owner repo))
                "Failed to fetch file tree: " [] (tree_url owner repo) w)
      as (t & Ht & Hf).
    { apply fetch_tree_attempt_world. }
    exists t. split; [done|]. split; [done|].
    by eapply retry_runs_get_within.
Qed.
(** A value comes from an attempt that returned it, or it is the default
    after a third time-out. *)
Lemma retry_loop_ok {A} (body : M A) what default url w v :
  (forall w0, (body w0).2 = after_get url w0) ->
  (retry_loop body what default (Py.range 3) w).1 = Ok v ->
  let w1 := after_sleep 1 (after_get url w) in
  let w2 := after_sleep 2 (after_get url w1) in
  (exists wk, wk ∈ [w; w1; w2] /\ (body wk).1 = Ok v
              /\ (retry_loop body what default (Py.range 3) w).2
                 = after_get url wk)
  \/ (v = default /\ (exists msg, (body w2).1 = Raise (RequestsTimeout msg))
      /\ (retry_loop body what default (Py.range 3) w).2 = after_get url w2).
Proof.
  intros Hworld Hok w1 w2.
  destruct (retry_loop_cases body what default url w Hworld)
    as [(_ & Hout) | [(_ & _ & Hout) | (_ & _ & Hout)]];
    rewrite Hout in Hok |- *; cbn [fst snd] in Hok |- *.
  - left. exists w. split; [|done]. apply elem_of_cons. by left.
  - left. exists w1. split; [|done]. rewrite !elem_of_cons. by right; left.
  - fold w1 w2 in Hok |- *.
    destruct (body w2).1 as [a|e] eqn:E2.
    + left. exists w2. cbn in Hok. rewrite E2.
      split; [|done]. rewrite !elem_of_cons. by right; right; left.
    + right. destruct e; try discriminate Hok.
      cbn in Hok. injection Hok as <-. split; [done|]. split; [by eexists | done].
Qed.

(** An exception comes from an attempt that raised it and is no request
    error, or it is the final error made of the third attempt's request
    error. *)
Lemma retry_loop_raise {A} (body : M A) what default url w e :
  (forall w0, (body w0).2 = after_get url w0) ->
  (retry_loop body what default (Py.range 3) w).1 = Raise e ->
  let w1 := after_sleep 1 (after_get url w) in
  let w2 := after_sleep 2 (after_get url w1) in
  (exists wk, wk ∈ [w; w1; w2] /\ (body wk).1 = Raise e
              /\ retried (Raise (A:=A) e) = false
              /\ (retry_loop body what default (Py.range 3) w).2
                 = after_get url wk)
  \/ (exists msg, e = GitHubAPIError (what +:+ msg)
                  /\ (body w2).1 = Raise (RequestException msg)
                  /\ (retry_loop body what default (Py.range 3) w).2
                     = after_get url w2).
Proof.
  intros Hworld Hraise w1 w2.
  destruct (retry_loop_cases body what default url w Hworld)
    as [(Hr & Hout) | [(_ & Hr & Hout) | (_ & _ & Hout)]];
    rewrite Hout in Hraise |- *; cbn [fst snd] in Hraise |- *.
  - left. exists w. rewrite Hraise in Hr.
    split; [|done]. apply elem_of_cons. by left.
  - left. exists w1. fold w1 in Hraise, Hr. rewrite Hraise in Hr.
    split; [|done]. rewrite !elem_of_cons. by right; left.
  - fold w1 w2 in Hraise |- *.
    destruct (body w2).1 as [a|e2] eqn:E2; [discriminate Hraise|].
    destruct e2 as [m|m|m|m|cls m]; cbn in Hraise;
      try discriminate Hraise; injection Hraise as <-;
      try (left; exists w2; split; [by rewrite !elem_of_cons; right; right; left | done]).
    right. by exists m.
Qed.

(** What an attempt of the metadata fetch returns, read off the answer to
    its request. *)
Lemma fetch_repo_info_attempt_outcome env url w :
  (fetch_repo_info_attempt env url w).1
  = match http_get env (http_calls w) url with
    | HttpTimeout msg => Raise (RequestsTimeout msg)
    | HttpFailed msg => Raise (RequestException msg)
    | HttpResponse r =>
        if is_rate_limited r then
          Raise (match rate_limit_reset r with
                 | Some (ResetUnreadable cls msg) => PyException cls msg
                 | _ => GitHubAPIError "GitHub API rate limit exceeded"
                 end)
        else if (400 <=? status_code r) && (status_code r <? 600)
        then Raise (RequestException (http_error r))
        else match Json.loads (text r) with
             | Some v => Ok v
             | None => Raise (RequestException "Expecting value")
             end
    end.
Proof.
  unfold fetch_repo_info_attempt, bind, requests_get.
  destruct (http_get env (http_calls w) url) as [msg|msg|r]; [done | done |].
  destruct (is_rate_limited r).
  - by destruct (rate_limit_reset r) as [[]|].
  - unfold raise_for_status, response_json.
    destruct ((400 <=? status_code r) && (status_code r <? 600)); [done|].
    cbn. by destruct (Json.loads (text r)).
Qed.

Lemma fetch_tree_attempt_outcome env url w :
  (fetch_tree_attempt env url w).1
  = match http_get env (http_calls w) url with
    | HttpTimeout msg => Raise (RequestsTimeout msg)
    | HttpFailed msg => Raise (RequestException msg)
    | HttpResponse r =>
        if is_rate_limited r then
          Raise (GitHubAPIError "GitHub API rate limit exceeded")
        else if (400 <=? status_code r) && (status_code r <? 600)
        then Raise (RequestException (http_error r))
        else match Json.loads (text r) with
             | Some tree_data => tree_file_paths tree_data
             | None => Raise (RequestException "Expecting value")
             end
    end.
Proof.
  unfold fetch_tree_attempt, bind, requests_get.
  destruct (http_get env (http_calls w) url) as [msg|msg|r]; [done | done |].
  destruct (is_rate_limited r); [done|].
  unfold raise_for_status, response_json.
  destruct ((400 <=? status_code r) && (status_code r <? 600)); [done|].
  cbn. destruct (Json.loads (text r)) as [v|]; [|done].
  cbn. by destruct (tree_file_paths v).
Qed.

(** The comprehension over the tree raises nothing but the interpreter's
    own exceptions. *)
Lemma blob_paths_raises items e :
  blob_paths items = Raise e -> exists cls msg, e = PyException cls msg.
Proof.
  induction items as [|item rest IH]; [done|].
  cbn [blob_paths]. intros H.
  repeat (match type of H with
          | context [match ?x with _ => _ end] => destruct x eqn:?
          end; try done; try (by apply IH);
          try (injection H as <-; by eexists _, _)).
Qed.

Lemma tree_file_paths_raises tree_data e :
  tree_file_paths tree_data = Raise e -> exists cls msg, e = PyException cls msg.
Proof.
  unfold tree_file_paths. intros H.
  repeat (match type of H with
          | context [match ?x with _ => _ end] => destruct x eqn:?
          | context [if ?x then _ else _] => destruct x eqn:?
          end; try done; try (by eapply blob_paths_raises);
          try (injection H as <-; by eexists _, _)).
Qed.

(** The worlds in which the three attempts start: the [k]-th attempt is
    the [k]-th request of the run. *)
Lemma attempt_worlds url w wk :
  wk ∈ [w; after_sleep 1 (after_get url w);
        after_sleep 2 (after_get url (after_sleep 1 (after_get url w)))] ->
  exists k, (k < 3)%nat /\ http_calls wk = (http_calls w + k)%nat.
Proof.
  rewrite !elem_of_cons. intros [-> | [-> | [-> | Hin]]].
  - exists 0%nat. split; [lia|]. cbn. lia.
  - exists 1%nat. split; [lia|]. cbn. lia.
  - exists 2%nat. split; [lia|]. cbn. lia.
  - by apply elem_of_nil in Hin.
Qed.

(** X2. The metadata that [_fetch_repo_info] returns is the parsed body
    of the response to the last request of the run, a response that is
    not a rate-limit answer and whose status is no error status; or it is
    the empty dictionary, after three requests of which the third timed
    out. *)
Theorem fetch_repo_info_value env owner repo w v :
  (_fetch_repo_info env owner repo w).1 = Ok v ->
  let url := repo_url owner repo in
  let w' := (_fetch_repo_info env owner repo w).2 in
  (exists k r, (k < 3)%nat
               /\ http_calls w' = (http_calls w + S k)%nat
               /\ http_get env (http_calls w + k) url = HttpResponse r
               /\ is_rate_limited r = false
               /\ (status_code r < 400 \/ 600 <= status_code r)
               /\ Json.loads (text r) = Some v)
  \/ (v = JObject []
      /\ http_calls w' = (http_calls w + 3)%nat
      /\ exists msg, http_get env (http_calls w + 2) url = HttpTimeout msg).
Proof.
  unfold _fetch_repo_info. cbv zeta. rewrite fetch_repo_info_loop_shape.
  intros Hok. cbv zeta.
  apply (retry_loop_ok _ _ _ (repo_url owner repo)) in Hok
    as [(wk & Hin & Hbody & ->) | (-> & (msg & Hbody) & ->)];
    try apply fetch_repo_info_attempt_world.
  - left. apply attempt_worlds in Hin as (k & Hk & Hcalls).
    rewrite fetch_repo_info_attempt_outcome, Hcalls in Hbody.
    destruct (http_get env (http_calls w + k) (repo_url owner repo))
      as [m|m|r] eqn:Hget; [done | done |].
    exists k, r. split; [done|]. split; [cbn; lia|]. split; [done|].
    destruct (is_rate_limited r); [done|]. split; [done|].
    destruct ((400 <=? status_code r) && (status_code r <? 600)) eqn:Hst;
      [done|].
    split; [apply andb_false_iff in Hst as [H|H]; lia|].
    destruct (Json.loads (text r)); [|done]. by injection Hbody as ->.
  - right. split; [done|]. split; [cbn; lia|].
    rewrite fetch_repo_info_attempt_outcome in Hbody.
    cbn [http_calls after_sleep after_get] in Hbody.
    replace (S (S (http_calls w))) with (http_calls w + 2)%nat in Hbody by lia.
    destruct (http_get env (http_calls w + 2) (repo_url owner repo))
      as [m|m|r]; [by exists m | done |].
    destruct (is_rate_limited r); [by destruct (rate_limit_reset r) as [[]|]|].
    destruct ((400 <=? status_code r) && (status_code r <? 600)); [done|].
    by destruct (Json.loads (text r)).
Qed.

Lemma fetch_repo_info_value_witness :
  let env := constant_env (ok_response "{}") ai_down in
  (exists k r, (k < 3)%nat
               /\ http_calls (_fetch_repo_info env "octocat" "hello" world0).2
                  = (http_calls world0 + S k)%nat
               /\ http_get env (http_calls world0 + k)
                    (repo_url "octocat" "hello") = HttpResponse r
               /\ is_rate_limited r = false
               /\ (status_code r < 400 \/ 600 <= status_code r)
               /\ Json.loads (text r) = Some (JObject []))
  \/ (JObject [] = JObject []
      /\ http_calls (_fetch_repo_info env "octocat" "hello" world0).2
         = (http_calls world0 + 3)%nat
      /\ exists msg, http_get env (http_calls world0 + 2)
                       (repo_url "octocat" "hello") = HttpTimeout msg).
Proof.
  exact (fetch_repo_info_value (constant_env (ok_response "{}") ai_down)
           "octocat" "hello" world0 (JObject []) eq_refl).
Defined.

(** X3. The paths that [_fetch_complete_file_tree] returns are what the
    comprehension over the tree makes of the parsed body of the response
    to the last request of the run, a response that is not a rate-limit
    answer and whose status is no error status; or they are the empty
    list, after three requests of which the third timed out. *)
Theorem fetch_tree_value env owner repo w paths :
  (_fetch_complete_file_tree env owner repo w).1 = Ok paths ->
  let url := tree_url owner repo in
  let w' := (_fetch_complete_file_tree env owner repo w).2 in
  (exists k r tree_data,
      (k < 3)%nat
      /\ http_calls w' = (http_calls w + S k)%nat
      /\ http_get env (http_calls w + k) url = HttpResponse r
      /\ is_rate_limited r = false
      /\ (status_code r < 400 \/ 600 <= status_code r)
      /\ Json.loads (text r) = Some tree_data
      /\ tree_file_paths tree_data = Ok paths)
  \/ (paths = []
      /\ http_calls w' = (http_calls w + 3)%nat
      /\ exists msg, http_get env (http_calls w + 2) url = HttpTimeout msg).
Proof.
  unfold _fetch_complete_file_tree. cbv zeta. rewrite fetch_tree_loop_shape.
  intros Hok. cbv zeta.
  apply (retry_loop_ok _ _ _ (tree_url owner repo)) in Hok
    as [(wk & Hin & Hbody & ->) | (-> & (msg & Hbody) & ->)];
    try apply fetch_tree_attempt_world.
  - left. apply attempt_worlds in Hin as (k & Hk & Hcalls).
    rewrite fetch_tree_attempt_outcome, Hcalls in Hbody.
    destruct (http_get env (http_calls w + k) (tree_url owner repo))
      as [m|m|r] eqn:Hget; [done | done |].
    destruct (is_rate_limited r) eqn:Hrl; [done|].
    destruct ((400 <=? status_code r) && (status_code r <? 600)) eqn:Hst;
      [done|].
    destruct (Json.loads (text r)) as [tree_data|] eqn:Hjson; [|done].
    exists k, r, tree_data. split; [done|]. split; [cbn; lia|].
    split; [done|]. split; [done|].
    split; [apply andb_false_iff in Hst as [H|H]; lia|]. done.
  - right. split; [done|]. split; [cbn; lia|].
    rewrite fetch_tree_attempt_outcome in Hbody.
    cbn [http_calls after_sleep after_get] in Hbody.
    replace (S (S (http_calls w))) with (http_calls w + 2)%nat in Hbody by lia.
    destruct (http_get env (http_calls w + 2) (tree_url owner repo))
      as [m|m|r]; [by exists m | done |].
    destruct (is_rate_limited r); [done|].
    destruct ((400 <=? status_code r) && (status_code r <? 600)); [done|].
    destruct (Json.loads (text r)) as [tree_data|]; [|done].
    by apply tree_file_paths_raises in Hbody as (cls & m & ?).
Qed.

(** X4. The two fetches never let a time-out or another request error
    out: what they raise is the rate-limit error after a rate-limit
    answer, an exception raised while a response was handled (the
    conversion of the reset header, the comprehension over the tree), or,
    after exactly three requests of which the third failed, the final
    error made of that failure's text. *)
Theorem fetch_errors env owner repo w e :
  ((_fetch_repo_info env owner repo w).1 = Raise e ->
   e = GitHubAPIError "GitHub API rate limit exceeded"
   \/ (exists cls msg, e = PyException cls msg)
   \/ (exists msg,
         e = GitHubAPIError ("Failed to fetch repository info: " +:+ msg)
         /\ http_calls (_fetch_repo_info env owner repo w).2
            = (http_calls w + 3)%nat))
  /\ ((_fetch_complete_file_tree env owner repo w).1 = Raise e ->
      e = GitHubAPIError "GitHub API rate limit exceeded"
      \/ (exists cls msg, e = PyException cls msg)
      \/ (exists msg,
            e = GitHubAPIError ("Failed to fetch file tree: " +:+ msg)
            /\ http_calls (_fetch_complete_file_tree env owner repo w).2
               = (http_calls w + 3)%nat)).
Proof.
  split.
  - unfold _fetch_repo_info. cbv zeta. rewrite fetch_repo_info_loop_shape.
    intros Hraise.
    apply (retry_loop_raise _ _ _ (repo_url owner repo)) in Hraise
      as [(wk & _ & Hbody & Hr & _) | (msg & -> & _ & ->)];
      try apply fetch_repo_info_attempt_world.
    + rewrite fetch_repo_info_attempt_outcome in Hbody.
      destruct (http_get env (http_calls wk) (repo_url owner repo))
        as [m|m|r].
      * injection Hbody as <-. discriminate Hr.
      * injection Hbody as <-. discriminate Hr.
      * destruct (is_rate_limited r).
        { injection Hbody as <-.
          destruct (rate_limit_reset r) as [[epoch|cls msg]|];
            [by left | right; left; by exists cls, msg | by left]. }
        destruct ((400 <=? status_code r) && (status_code r <? 600)).
        { injection Hbody as <-. discriminate Hr. }
        destruct (Json.loads (text r)); [done|].
        injection Hbody as <-. discriminate Hr.
    + right; right. exists msg. split; [done|]. cbn. lia.
  - unfold _fetch_complete_file_tree. cbv zeta. rewrite fetch_tree_loop_shape.
    intros Hraise.
    apply (retry_loop_raise _ _ _ (tree_url owner repo)) in Hraise
      as [(wk & _ & Hbody & Hr & _) | (msg & -> & _ & ->)];
      try apply fetch_tree_attempt_world.
    + rewrite fetch_tree_attempt_outcome in Hbody.
      destruct (http_get env (http_calls wk) (tree_url owner repo))
        as [m|m|r].
      * injection Hbody as <-. discriminate Hr.
      * injection Hbody as <-. discriminate Hr.
      * destruct (is_rate_limited r); [injection Hbody as <-; by left|].
        destruct ((400 <=? status_code r) && (status_code r <? 600)).
        { injection Hbody as <-. discriminate Hr. }
        destruct (Json.loads (text r)) as [tree_data|].
        2:{ injection Hbody as <-. discriminate Hr. }
        right; left. clear Hr.
        by eapply tree_file_paths_raises.
    + right; right. exists msg. split; [done|]. cbn. lia.
Qed.
Lemma fetch_tree_value_witness :
  let env := env_small_repo ai_down in
  let w' := (_fetch_complete_file_tree env "octocat" "hello" world0).2 in
  (exists k r tree_data,
      (k < 3)%nat
      /\ http_calls w' = (http_calls world0 + S k)%nat
      /\ http_get env (http_calls world0 + k) (tree_url "octocat" "hello")
         = HttpResponse r
      /\ is_rate_limited r = false
      /\ (status_code r < 400 \/ 600 <= status_code r)
      /\ Json.loads (text r) = Some tree_data
      /\ tree_file_paths tree_data = Ok [JString "README.md"])
  \/ ([JString "README.md"] = []
      /\ http_calls w' = (http_calls world0 + 3)%nat
      /\ exists msg, http_get env (http_calls world0 + 2)
                       (tree_url "octocat" "hello") = HttpTimeout msg).
Proof.
  exact (fetch_tree_value (env_small_repo ai_down) "octocat" "hello" world0
           [JString "README.md"] eq_refl).
Defined.

Lemma fetch_errors_witness :
  let e := GitHubAPIError
             "Failed to fetch repository info: Connection refused" in
  e = GitHubAPIError "GitHub API rate limit exceeded"
  \/ (exists cls msg, e = PyException cls msg)
  \/ (exists msg,
        e = GitHubAPIError ("Failed to fetch repository info: " +:+ msg)
        /\ http_calls (_fetch_repo_info env_unreachable "octocat" "hello"
                         world0).2
           = (http_calls world0 + 3)%nat).
Proof.
  exact (proj1 (fetch_errors env_unreachable "octocat" "hello" world0
                  (GitHubAPIError
                     "Failed to fetch repository info: Connection refused"))
           eq_refl).
Defined.
(* ===================================================================== *)
(** * Properties: the retry loop of the AI client *)
(* ===================================================================== *)

(** Each attempt makes one call to the model and nothing else. *)
Lemma call_ai_attempt_world env model_name w :
  (call_ai_attempt env model_name w).2 = after_chat model_name w.
Proof.
  unfold call_ai_attempt, bind, chat_completions_create.
  destruct (chat_create env (ai_calls w) model_name) as [e|[|content rest]];
    done.
Qed.

(** What an attempt returns, read off the answer to its call. *)
Lemma call_ai_attempt_outcome env model_name w :
  (call_ai_attempt env model_name w).1
  = match chat_create env (ai_calls w) model_name with
    | AIRaises e => Raise e
    | AIResponds (content :: _) => Ok content
    | AIResponds [] => Raise (AIModelError "AI model returned empty response")
    end.
Proof.
  unfold call_ai_attempt, bind, chat_completions_create.
  destruct (chat_create env (ai_calls w) model_name) as [e|[|content rest]];
    done.
Qed.

Lemma call_ai_turn env self model_name attempt continue w :
  try_except (call_ai_attempt env model_name)
    (call_ai_handler self model_name attempt continue) w
  = match (call_ai_attempt env model_name w).1 with
    | Ok content => (Ok content, after_chat model_name w)
    | Raise e =>
        call_ai_handler self model_name attempt continue e
          (after_chat model_name w)
    end.
Proof.
  unfold try_except. rewrite <- (call_ai_attempt_world env).
  by destruct (call_ai_attempt env model_name w) as [[content|e] w'].
Qed.

(** The handler on an error that is retried, on one that is not, and on
    the error of the third attempt. *)
Lemma call_ai_handler_retried self model_name attempt continue e w :
  is_auth_error e = false -> (attempt =? Constants.AI_MAX_RETRIES - 1) = false ->
  call_ai_handler self model_name attempt continue e w
  = continue (after_sleep (Constants.AI_RETRY_DELAY * 2 ^ attempt) w).
Proof. intros Ha Hl. unfold call_ai_handler. by rewrite Ha, Hl. Qed.

Lemma call_ai_handler_auth self model_name attempt continue e w :
  is_auth_error e = true ->
  call_ai_handler self model_name attempt continue e w
  = (Raise (AIModelError (auth_failed_msg self e)), w).
Proof. intros Ha. unfold call_ai_handler. by rewrite Ha. Qed.

Lemma call_ai_handler_last self model_name continue e w :
  call_ai_handler self model_name 2 continue e w
  = (ai_outcome_of self model_name true (Raise e), w).
Proof.
  unfold call_ai_handler, ai_outcome_of.
  destruct (is_auth_error e); reflexivity.
Qed.

(** The loop over [range(AI_MAX_RETRIES)] unrolled: it ends at the first
    attempt that is not retried, and at the third in any case; the second
    attempt starts after a sleep of 2 seconds, the third after a sleep of
    4 seconds. *)
Lemma call_ai_model_cases env self w :
  let model_name := provider_model_name self in
  let body := call_ai_attempt env model_name in
  let w1 := after_sleep 2 (after_chat model_name w) in
  let w2 := after_sleep 4 (after_chat model_name w1) in
  let out := _call_ai_model env self w in
  (ai_retried (body w).1 = false
   /\ out = (ai_outcome_of self model_name false (body w).1,
             after_chat model_name w))
  \/ (ai_retried (body w).1 = true /\ ai_retried (body w1).1 = false
      /\ out = (ai_outcome_of self model_name false (body w1).1,
                after_chat model_name w1))
  \/ (ai_retried (body w).1 = true /\ ai_retried (body w1).1 = true
      /\ out = (ai_outcome_of self model_name true (body w2).1,
                after_chat model_name w2)).
Proof.
  intros model_name body w1 w2 out. subst out body.
  unfold _call_ai_model. fold model_name.
  change (Py.range Constants.AI_MAX_RETRIES) with [0; 1; 2].
  cbn [call_ai_loop]. rewrite call_ai_turn.
  destruct (ai_retried (call_ai_attempt env model_name w).1) eqn:R0.
  2:{ left. split; [done|].
      destruct (call_ai_attempt env model_name w).1 as [content|e]; [done|].
      cbn [ai_retried] in R0. apply negb_false_iff in R0.
      rewrite call_ai_handler_auth by done. cbn [ai_outcome_of]. by rewrite R0. }
  right.
  destruct (call_ai_attempt env model_name w).1 as [content|e0]; [done|].
  cbn [ai_retried] in R0. apply negb_true_iff in R0.
  rewrite call_ai_handler_retried by done.
  change (Constants.AI_RETRY_DELAY * 2 ^ 0) with 2. fold w1.
  rewrite call_ai_turn.
  destruct (ai_retried (call_ai_attempt env model_name w1).1) eqn:R1.
  2:{ left. split; [done | split; [done|]].
      destruct (call_ai_attempt env model_name w1).1 as [content|e]; [done|].
      cbn [ai_retried] in R1. apply negb_false_iff in R1.
      rewrite call_ai_handler_auth by done. cbn [ai_outcome_of]. by rewrite R1. }
  right. split; [done | split; [done|]].
  destruct (call_ai_attempt env model_name w1).1 as [content|e1]; [done|].
  cbn [ai_retried] in R1. apply negb_true_iff in R1.
  rewrite call_ai_handler_retried by done.
  change (Constants.AI_RETRY_DELAY * 2 ^ 1) with 4. fold w2.
  rewrite call_ai_turn.
  destruct (call_ai_attempt env model_name w2).1 as [content|e2]; [done|].
  apply call_ai_handler_last.
Qed.

(** The events of a run of [_call_ai_model], whatever the model
    endpoint answers. *)
Lemma call_ai_model_follows env self w :
  exists t, t ∈ retry_runs (EvChat (provider_model_name self)) 2 4
            /\ follows w (_call_ai_model env self w).2 t.
Proof.
  destruct (call_ai_model_cases env self w)
    as [(_ & ->) | [(_ & _ & ->) | (_ & _ & ->)]]; cbn [snd];
    set (model_name := provider_model_name self).
  - exists [EvChat model_name].
    split; [by apply elem_of_cons; left | apply follows_chat].
  - exists ([EvChat model_name] ++ [EvSleep 2] ++ [EvChat model_name]). split.
    + unfold retry_runs. cbn [app]. rewrite !elem_of_cons. by right; left.
    + eapply follows_trans; [apply follows_chat|].
      eapply follows_trans; [apply follows_sleep | apply follows_chat].
  - exists ([EvChat model_name] ++ [EvSleep 2] ++ [EvChat model_name]
            ++ [EvSleep 4] ++ [EvChat model_name]).
    split.
    + unfold retry_runs. cbn [app]. rewrite !elem_of_cons.
      by right; right; left.
    + eapply follows_trans; [apply follows_chat|].
      eapply follows_trans; [apply follows_sleep|].
      eapply follows_trans; [apply follows_chat|].
      eapply follows_trans; [apply follows_sleep | apply follows_chat].
Qed.

(** X5. Whatever the model endpoint answers, [_call_ai_model] makes one,
    two or three calls to the provider's model, sleeps 2 seconds between
    the first two and 4 seconds between the last two, never sleeps after
    the last call and makes no request to the hosting API: at most three
    calls and six seconds of sleep. *)
Theorem call_ai_calls_and_sleeps env self w :
  exists t, t ∈ retry_runs (EvChat (provider_model_name self)) 2 4
            /\ follows w (_call_ai_model env self w).2 t
            /\ within w (_call_ai_model env self w).2 0 3 6.
Proof.
  destruct (call_ai_model_follows env self w) as (t & Ht & Hf).
  exists t. split; [done|]. split; [done|].
  by eapply retry_runs_chat_within.
Qed.

Lemma exhausted_msg_distinct model_name e :
  exhausted_msg model_name e <> "Unexpected error in AI model call".
Proof.
  unfold exhausted_msg. intros H. rewrite !app_str_cons in H. discriminate H.
Qed.

(** X6. Every exception that leaves [_call_ai_model] is an [AIModelError]
    of one of two kinds: the authentication failure, made of an error that
    carries an authentication marker, or the failure after three calls,
    made of the error of the third call, which carries none. The error
    raised after the loop, [Unexpected error in AI model call], never
    leaves it. *)
Theorem call_ai_errors env self w e :
  (_call_ai_model env self w).1 = Raise e ->
  (exists e0,
      (is_auth_error e0 = true
       /\ e = AIModelError (auth_failed_msg self e0))
      \/ (is_auth_error e0 = false
          /\ e = AIModelError (exhausted_msg (provider_model_name self) e0)
          /\ ai_calls (_call_ai_model env self w).2 = (ai_calls w + 3)%nat))
  /\ e <> AIModelError "Unexpected error in AI model call".
Proof.
  intros Hraise.
  assert (Hkinds : exists e0,
      (is_auth_error e0 = true
       /\ e = AIModelError (auth_failed_msg self e0))
      \/ (is_auth_error e0 = false
          /\ e = AIModelError (exhausted_msg (provider_model_name self) e0)
          /\ ai_calls (_call_ai_model env self w).2 = (ai_calls w + 3)%nat)).
  { destruct (call_ai_model_cases env self w)
      as [(Hr & Hout) | [(_ & Hr & Hout) | (_ & _ & Hout)]];
      rewrite Hout in Hraise |- *; cbn [fst snd] in Hraise |- *.
    - destruct (call_ai_attempt _ _ w).1 as [content|e0]; [done|].
      cbn [ai_retried ai_outcome_of] in Hr, Hraise. apply negb_false_iff in Hr. rewrite Hr in Hraise.
      injection Hraise as <-. exists e0. by left.
    - destruct (call_ai_attempt _ _ _).1 as [content|e0]; [done|].
      cbn [ai_retried ai_outcome_of] in Hr, Hraise. apply negb_false_iff in Hr. rewrite Hr in Hraise.
      injection Hraise as <-. exists e0. by left.
    - destruct (call_ai_attempt _ _ _).1 as [content|e0]; [done|].
      cbn [ai_outcome_of] in Hraise. exists e0.
      destruct (is_auth_error e0) eqn:Ha; injection Hraise as <-; [by left|].
      right. split; [done | split; [done|]]. cbn. lia. }
  split; [done|].
  destruct Hkinds as (e0 & [(_ & ->) | (_ & -> & _)]); intros H.
  - assert (auth_failed_msg self e0 = "Unexpected error in AI model call")
      as H' by congruence.
    by apply auth_failed_msg_distinct in H'.
  - assert (exhausted_msg (provider_model_name self) e0
            = "Unexpected error in AI model call") as H' by congruence.
    by apply exhausted_msg_distinct in H'.
Qed.

Lemma call_ai_errors_witness :
  let env := constant_env (rate_limit_response None) ai_down in
  let e := AIModelError
             "AI model anthropic.claude-3-7-sonnet-20250219-v1:0 failed after 3 attempts: Connection error." in
  (exists e0,
      (is_auth_error e0 = true
       /\ e = AIModelError (auth_failed_msg default_analyzer e0))
      \/ (is_auth_error e0 = false
          /\ e = AIModelError
                   (exhausted_msg (provider_model_name default_analyzer) e0)
          /\ ai_calls (_call_ai_model env default_analyzer world0).2
             = (ai_calls world0 + 3)%nat))
  /\ e <> AIModelError "Unexpected error in AI model call".
Proof.
  exact (call_ai_errors (constant_env (rate_limit_response None) ai_down)
           default_analyzer world0 _ eq_refl).
Defined.

(** X7. The text that [_call_ai_model] returns is the content of the
    first choice of the answer to the last call of the run, and the calls
    before it were answered by an exception or by no choice at all. *)
Theorem call_ai_value env self w content :
  (_call_ai_model env self w).1 = Ok content ->
  let model_name := provider_model_name self in
  exists k choices,
    (k < 3)%nat
    /\ ai_calls (_call_ai_model env self w).2 = (ai_calls w + S k)%nat
    /\ chat_create env (ai_calls w + k) model_name
       = AIResponds (content :: choices)
    /\ forall j, (j < k)%nat ->
                 chat_create env (ai_calls w + j) model_name = AIResponds []
                 \/ exists e, chat_create env (ai_calls w + j) model_name
                              = AIRaises e.
Proof.
  intros Hok model_name.
  assert (Hfail : forall w0 : world,
             ai_retried (call_ai_attempt env model_name w0).1 = true ->
             chat_create env (ai_calls w0) model_name = AIResponds []
             \/ exists e, chat_create env (ai_calls w0) model_name = AIRaises e).
  { intros w0. rewrite call_ai_attempt_outcome.
    destruct (chat_create env (ai_calls w0) model_name) as [e|[|c rest]];
      [by right; exists e | by left | done]. }
  assert (Hgood : forall w0 : world,
             ai_outcome_of self model_name false
               (call_ai_attempt env model_name w0).1 = Ok content
             \/ ai_outcome_of self model_name true
                  (call_ai_attempt env model_name w0).1 = Ok content ->
             exists choices, chat_create env (ai_calls w0) model_name
                             = AIResponds (content :: choices)).
  { intros w0. rewrite call_ai_attempt_outcome.
    destruct (chat_create env (ai_calls w0) model_name) as [e|[|c rest]];
      cbn [ai_outcome_of]; intros [H|H]; try (by destruct (is_auth_error _)).
    - injection H as ->. by exists rest.
    - injection H as ->. by exists rest. }
  destruct (call_ai_model_cases env self w)
    as [(_ & Hout) | [(Hr0 & _ & Hout) | (Hr0 & Hr1 & Hout)]];
    rewrite Hout in Hok |- *; cbn [fst snd] in Hok |- *; fold model_name in Hok.
  - destruct (Hgood w (or_introl Hok)) as (choices & Hc).
    exists 0%nat, choices. rewrite Nat.add_0_r.
    split; [lia | split; [cbn; lia | split; [done|]]]. intros j Hj. lia.
  - destruct (Hgood _ (or_introl Hok)) as (choices & Hc).
    exists 1%nat, choices. cbn [ai_calls after_sleep after_chat] in Hc |- *.
    replace (ai_calls w + 1)%nat with (S (ai_calls w)) by lia.
    split; [lia | split; [lia | split; [done|]]].
    intros j Hj. assert (j = 0%nat) as -> by lia. rewrite Nat.add_0_r.
    by apply Hfail.
  - destruct (Hgood _ (or_intror Hok)) as (choices & Hc).
    exists 2%nat, choices. cbn [ai_calls after_sleep after_chat] in Hc |- *.
    replace (ai_calls w + 2)%nat with (S (S (ai_calls w))) by lia.
    split; [lia | split; [lia | split; [done|]]].
    intros j Hj. assert (j = 0 \/ j = 1)%nat as [-> | ->] by lia.
    + rewrite Nat.add_0_r. by apply Hfail.
    + replace (ai_calls w + 1)%nat with (S (ai_calls w)) by lia.
      by apply (Hfail (after_sleep 2 (after_chat model_name w))).
Qed.
Lemma call_ai_value_witness :
  let env := env_small_repo (AIResponds [Some selection_answer]) in
  let model_name := provider_model_name default_analyzer in
  exists k choices,
    (k < 3)%nat
    /\ ai_calls (_call_ai_model env default_analyzer world0).2
       = (ai_calls world0 + S k)%nat
    /\ chat_create env (ai_calls world0 + k) model_name
       = AIResponds (Some selection_answer :: choices)
    /\ forall j, (j < k)%nat ->
                 chat_create env (ai_calls world0 + j) model_name
                 = AIResponds []
                 \/ exists e, chat_create env (ai_calls world0 + j) model_name
                              = AIRaises e.
Proof.
  exact (call_ai_value (env_small_repo (AIResponds [Some selection_answer]))
           default_analyzer world0 (Some selection_answer) eq_refl).
Defined.
(* ===================================================================== *)
(** * Properties: the listing of the tree *)
(* ===================================================================== *)

(** The test [item['type'] == 'blob'] as a comparison of strings. *)
Lemma blob_paths_entry kind path rest :
  blob_paths (tree_entry kind path :: rest)
  = if String.eqb kind "blob"
    then match blob_paths rest with
         | Ok ps => Ok (JString path :: ps)
         | Raise e => Raise e
         end
    else blob_paths rest.
Proof.
  destruct (String.eqb kind "blob") eqn:E.
  - apply String.eqb_eq in E as ->. reflexivity.
  - apply String.eqb_neq in E. unfold tree_entry. cbn [blob_paths].
    change (dict_get "type" _) with (Some (JString kind)). cbv iota beta.
    repeat case_match; try done; by subst.
Qed.

(** X8. On a listing as the hosting API sends it, the comprehension of
    [_fetch_complete_file_tree] returns the paths of the entries of type
    [blob], in the order of the listing, and nothing else (no directory,
    no submodule); it does not read the [truncated] flag, so a listing
    that the API cut short is taken as it is. *)
Theorem tree_listing_blobs sha entries truncated :
  tree_file_paths (tree_listing sha entries truncated)
  = Ok (List.map (fun e => JString e.2)
          (List.filter (fun e => String.eqb e.1 "blob") entries)).
Proof.
  unfold tree_listing, tree_file_paths.
  change (dict_get "tree" _)
    with (Some (JArray (List.map (fun e : string * string => tree_entry e.1 e.2)
                          entries))).
  cbv iota beta.
  induction entries as [|[kind path] rest IH]; [done|].
  cbn [List.map List.filter fst snd]. rewrite blob_paths_entry.
  destruct (String.eqb kind "blob"); [|exact IH].
  rewrite IH. reflexivity.
Qed.

(* ===================================================================== *)
(** * Properties: the file filter and its configuration *)
(* ===================================================================== *)

Lemma existsb_subseteq {A} (f : A -> bool) (l l' : list A) :
  l ⊆ l' -> existsb f l = true -> existsb f l' = true.
Proof.
  intros Hsub (x & Hin & Hx)%existsb_exists. apply existsb_exists.
  exists x. split; [|done]. apply list_elem_of_In, Hsub, list_elem_of_In, Hin.
Qed.

(** X9. Excluding more never keeps more: when every excluded directory
    and every excluded extension of a configuration is also excluded by
    a second one, what the filter keeps under the second configuration
    is a sub-list of what it keeps under the first. *)
Theorem filter_files_antitone supported cfg cfg' all_files :
  excluded_directories cfg ⊆ excluded_directories cfg' ->
  excluded_file_extensions cfg ⊆ excluded_file_extensions cfg' ->
  filter_files supported cfg' all_files
  `sublist_of` filter_files supported cfg all_files.
Proof.
  intros Hdirs Hexts.
  induction all_files as [|file_path rest IH]; [done|].
  cbn [filter_files]. unfold Py.any.
  destruct (existsb _ (excluded_directories cfg)) eqn:Hd.
  { by rewrite (existsb_subseteq _ _ _ Hdirs Hd). }
  destruct (existsb _ (excluded_file_extensions cfg)) eqn:He.
  { rewrite (existsb_subseteq _ _ _ Hexts He).
    by destruct (existsb _ (excluded_directories cfg')). }
  destruct (existsb _ (excluded_directories cfg'));
    [by repeat case_match; try apply sublist_cons|].
  destruct (existsb _ (excluded_file_extensions cfg'));
    [by repeat case_match; try apply sublist_cons|].
  destruct (negb _ && negb _); [done | by apply sublist_skip].
Qed.

Lemma filter_files_antitone_witness :
  filter_files Constants.SUPPORTED_EXTENSIONS DEFAULT_CONFIG
    ["package.json"; "dist/app.js"; "yarn.lock"]
  `sublist_of`
  filter_files Constants.SUPPORTED_EXTENSIONS
    (config (analyzer_with_limit 50))
    ["package.json"; "dist/app.js"; "yarn.lock"].
Proof.
  apply (filter_files_antitone Constants.SUPPORTED_EXTENSIONS
           (config (analyzer_with_limit 50)) DEFAULT_CONFIG);
    cbn; apply list_subseteq_nil.
Defined.

(* ===================================================================== *)
(** * Properties: the scores and the order of the ranking *)
(* ===================================================================== *)

(** X10. The score of a path lies between 0 and 330: a priority pattern
    awards between 10 and 320, the three bonuses at most 10 together. A
    path in which a priority pattern occurs scores at least 10, any other
    path at most 10. *)
Theorem file_score_bounds file_path :
  0 <= file_score file_path <= 330
  /\ (if Py.any (pattern_matches file_path) Constants.PRIORITY_PATTERNS
      then 10 <= file_score file_path
      else file_score file_path <= 10).
Proof.
  rewrite file_score_spec. unfold spec_score.
  assert (Hany : forall l,
             Py.any (pattern_matches file_path) l
             = match first_index (pattern_matches file_path) l with
               | Some _ => true
               | None => false
               end).
  { induction l as [|pat rest IH]; cbn; [done|].
    destruct (pattern_matches file_path pat); cbn; [done|].
    unfold Py.any in IH. rewrite IH.
    by destruct (first_index (pattern_matches file_path) rest). }
  rewrite Hany.
  destruct (first_index (pattern_matches file_path) Constants.PRIORITY_PATTERNS)
    as [i|] eqn:Ei.
  - apply first_index_lt in Ei. unfold Py.llen.
    change (length Constants.PRIORITY_PATTERNS) with 32%nat in *.
    split; repeat case_match; lia.
  - split; repeat case_match; lia.
Qed.

Lemma score_files_scores all_files :
  Forall (fun x : string * Z => x.2 = file_score x.1 /\ 0 < x.2)
         (score_files all_files).
Proof.
  induction all_files as [|p rest IH]; cbn [score_files]; [constructor|].
  destruct (file_score p >? 0) eqn:E; [|exact IH].
  constructor; [|exact IH]. cbn. split; [done | lia].
Qed.

Lemma score_files_complete p all_files :
  p ∈ all_files -> 0 < file_score p -> (p, file_score p) ∈ score_files all_files.
Proof.
  intros Hin Hpos.
  induction all_files as [|x rest IH]; [by apply elem_of_nil in Hin|].
  cbn [score_files]. apply elem_of_cons in Hin as [<- | Hin].
  - assert ((file_score p >? 0) = true) as -> by lia. apply list_elem_of_here.
  - destruct (file_score x >? 0); [apply list_elem_of_further|]; by apply IH.
Qed.

Lemma sorted_scores all_files :
  Forall (fun x : string * Z => x.2 = file_score x.1 /\ 0 < x.2)
         (sort_by_score_desc (score_files all_files)).
Proof.
  rewrite sort_by_score_desc_perm. apply score_files_scores.
Qed.

(** X11. Every path of the heuristic selection has a positive score,
    and for a positive limit the first path of the selection has the
    highest score of all the paths of the list. *)
Theorem heuristic_rank_best_first limit all_files :
  Forall (fun p => 0 < file_score p) (heuristic_rank limit all_files)
  /\ (0 < limit ->
      match heuristic_rank limit all_files with
      | best :: _ => Forall (fun p => file_score p <= file_score best) all_files
      | [] => Forall (fun p => file_score p <= 0) all_files
      end).
Proof.
  unfold heuristic_rank. split.
  - apply Forall_forall. intros p ([q s] & -> & Hin)%list_elem_of_fmap.
    apply elem_of_lslice_to in Hin.
    pose proof (sorted_scores all_files) as Hs.
    rewrite Forall_forall in Hs. destruct (Hs _ Hin) as [H1 H2].
    cbn in *. lia.
  - intros Hlimit. rewrite lslice_to_take by lia.
    pose proof (sorted_scores all_files) as Hscores.
    pose proof (sort_by_score_desc_sorted (score_files all_files)) as Hsorted.
    pose proof (sort_by_score_desc_perm (score_files all_files)) as Hperm.
    destruct (sort_by_score_desc (score_files all_files)) as [|[best s] ranked].
    + rewrite take_nil. cbn. apply Forall_forall. intros p Hp.
      destruct (Z.le_gt_cases (file_score p) 0) as [|Hpos]; [done|].
      apply (score_files_complete p all_files Hp) in Hpos.
      rewrite <- Hperm in Hpos. by apply elem_of_nil in Hpos.
    + destruct (Z.to_nat limit) as [|n] eqn:En; [lia|].
      cbn [take List.map fst]. apply Forall_forall. intros p Hp.
      apply Forall_cons in Hscores as [[Hs Hpos] _]. cbn in Hs, Hpos.
      subst s.
      destruct (Z.le_gt_cases (file_score p) 0) as [|Hp0]; [lia|].
      apply (score_files_complete p all_files Hp) in Hp0.
      rewrite <- Hperm in Hp0.
      apply elem_of_cons in Hp0 as [Heq | Hin].
      * injection Heq as -> _. lia.
      * apply StronglySorted_inv in Hsorted as [_ Hall].
        rewrite Forall_forall in Hall.
        by apply Hall in Hin.
Qed.

Lemma heuristic_rank_best_first_witness :
  Forall (fun p => file_score p <= file_score "package.json")
         ["src/index.js"; "README.md"; "package.json"].
Proof.
  exact (proj2 (heuristic_rank_best_first 3
                  ["src/index.js"; "README.md"; "package.json"]) eq_refl).
Defined.

(** X12. When the limit leaves room for all the paths that score, the
    heuristic selection leaves none of them out: it is a permutation of
    the paths of the list whose score is positive. *)
Theorem heuristic_rank_complete limit all_files :
  Py.llen (score_files all_files) <= limit ->
  heuristic_rank limit all_files
  ≡ₚ List.filter (fun p => 0 <? file_score p) all_files.
Proof.
  intros Hroom. unfold heuristic_rank.
  pose proof (llen_nonneg (score_files all_files)).
  rewrite lslice_to_take by lia.
  rewrite take_ge.
  2:{ rewrite sort_by_score_desc_perm. unfold Py.llen in Hroom. lia. }
  rewrite sort_by_score_desc_perm.
  clear. induction all_files as [|p rest IH]; [done|].
  cbn [score_files List.filter].
  assert ((file_score p >? 0) = (0 <? file_score p)) as -> by lia.
  destruct (0 <? file_score p); [|exact IH].
  cbn [List.map fst]. by rewrite IH.
Qed.

Lemma heuristic_rank_complete_witness :
  heuristic_rank 50 ["src/index.js"; "README.md"; "package.json"]
  ≡ₚ List.filter (fun p => 0 <? file_score p)
       ["src/index.js"; "README.md"; "package.json"].
Proof.
  apply (heuristic_rank_complete 50
           ["src/index.js"; "README.md"; "package.json"]).
  vm_compute. discriminate.
Defined.
(* ===================================================================== *)
(** * Properties: what the extraction returns *)
(* ===================================================================== *)

Lemma find_none_iff c s :
  Py.find c s = -1 <-> c ∉ list_ascii_of_string s.
Proof.
  induction s as [|d t IH]; cbn [Py.find list_ascii_of_string].
  - split; [intros _; apply not_elem_of_nil | done].
  - rewrite not_elem_of_cons.
    destruct (Ascii.eqb d c) eqn:E.
    + apply Ascii.eqb_eq in E as ->. split; [done | by intros [? _]].
    + apply Ascii.eqb_neq in E.
      destruct (find_range c t) as [Hf|Hf].
      * rewrite Hf. cbn. split; [intros _ | done].
        split; [done | by apply IH].
      * destruct (Py.find c t =? -1) eqn:E2; [lia|].
        split; [lia|]. intros [_ Hnot]. apply IH in Hnot. lia.
Qed.

Lemma rfind_none_iff c s :
  Py.rfind c s = -1 <-> c ∉ list_ascii_of_string s.
Proof.
  induction s as [|d t IH]; cbn [Py.rfind list_ascii_of_string].
  - split; [intros _; apply not_elem_of_nil | done].
  - rewrite not_elem_of_cons.
    destruct (rfind_range c t) as [Hf|Hf].
    + rewrite Hf. cbn. destruct (Ascii.eqb d c) eqn:E.
      * apply Ascii.eqb_eq in E as ->. split; [done | by intros [? _]].
      * apply Ascii.eqb_neq in E. split; [intros _ | done].
        split; [done | by apply IH].
    + destruct (Py.rfind c t =? -1) eqn:E2; [lia|].
      split; [lia|]. intros [_ Hnot]. apply IH in Hnot. lia.
Qed.

(** X13. The extraction yields nothing, without an error, exactly when
    the response lacks the opening or the closing delimiter: with both
    delimiters in the response the slice is handed to the parser, and
    the outcome is the parser's. *)
Theorem extract_json_nothing_iff opener closer ai_response :
  extract_json opener closer ai_response = Ok None
  <-> opener ∉ list_ascii_of_string ai_response
      \/ closer ∉ list_ascii_of_string ai_response.
Proof.
  rewrite <- find_none_iff, <- rfind_none_iff. unfold extract_json.
  destruct (rfind_range closer ai_response) as [Hr|Hr].
  - rewrite Hr. cbn. rewrite andb_false_r. split; [by right | done].
  - destruct (Py.find opener ai_response =? -1) eqn:E; cbn.
    + split; [intros _; left; lia | done].
    + assert ((Py.rfind closer ai_response + 1 >? 0) = true) as -> by lia.
      split; [|lia]. by destruct (Json.loads _).
Qed.

(** X14. When the last closing delimiter of the response stands before
    its first opening delimiter, the slice between them is empty and the
    extraction raises the decoding error. *)
Theorem extract_json_reversed opener closer ai_response :
  0 <= Py.rfind closer ai_response < Py.find opener ai_response ->
  extract_json opener closer ai_response
  = Raise (PyException "JSONDecodeError" "Expecting value").
Proof.
  intros Horder. unfold extract_json.
  destruct (Py.find opener ai_response =? -1) eqn:E; [lia|].
  assert ((Py.rfind closer ai_response + 1 >? 0) = true) as -> by lia.
  cbn [negb andb].
  assert (Py.slice ai_response (Py.find opener ai_response)
            (Py.rfind closer ai_response + 1) = "") as ->; [|done].
  unfold Py.slice.
  destruct (find_range opener ai_response) as [?|Hf]; [lia|].
  assert (Py.adjust_index (Py.len ai_response) (Py.find opener ai_response)
          = Py.find opener ai_response) as ->.
  { unfold Py.adjust_index. destruct (_ <? 0) eqn:E0; lia. }
  assert (Py.adjust_index (Py.len ai_response)
            (Py.rfind closer ai_response + 1)
          = Py.rfind closer ai_response + 1) as ->.
  { unfold Py.adjust_index. destruct (_ <? 0) eqn:E0; lia. }
  replace (Z.to_nat (Py.rfind closer ai_response + 1
                     - Py.find opener ai_response)) with O by lia.
  reflexivity.
Qed.

Lemma extract_json_reversed_witness :
  extract_json "[" "]" "] then ["
  = Raise (PyException "JSONDecodeError" "Expecting value").
Proof.
  apply (extract_json_reversed "[" "]" "] then ["). vm_compute.
  split; [discriminate | reflexivity].
Defined.

(** A string that starts with a bracket parses to a list or not at
    all. *)
Lemma parse_elements_array fuel s acc v r :
  Json.parse_elements fuel s acc = Some (v, r) -> exists items, v = JArray items.
Proof.
  revert s acc. induction fuel as [|fuel IH]; intros s acc; [done|].
  cbn [Json.parse_elements]. intros H.
  repeat case_match; simplify_eq; eauto.
Qed.

Lemma loads_array s v :
  Json.loads (String "[" s) = Some v -> exists items, v = JArray items.
Proof.
  unfold Json.loads.
  change (Json.skip_ws (String "[" s)) with (String "["%char s).
  destruct (2 * String.length (String "[" s) + 2)%nat as [|fuel]; [done|].
  cbn [Json.parse_value].
  change (Ascii.eqb "[" Json.dquote) with false.
  change (Ascii.eqb "[" "{") with false.
  change (Ascii.eqb "[" "[") with true. cbv iota.
  intros H. repeat case_match; simplify_eq; eauto using parse_elements_array.
Qed.

(** X15. Whatever the model answers, the value that the selector
    extracts between brackets is a list, and the value that the
    structure analyzer extracts between braces is a dictionary: the
    slice starts with the opening delimiter, and a text that starts with
    it parses to a value of that kind or not at all. *)
Theorem extract_json_kind ai_response :
  match extract_json "[" "]" ai_response with
  | Ok (Some v) => exists items, v = JArray items
  | _ => True
  end
  /\ match extract_json "{" "}" ai_response with
     | Ok (Some v) => exists fields, v = JObject fields
     | _ => True
     end.
Proof.
  split.
  - destruct (extract_json "[" "]" ai_response) as [[v|]|e] eqn:Hx; try done.
    revert Hx. unfold extract_json. destruct (negb _ && _) eqn:E; [|done].
    apply andb_true_iff in E as [E _]. apply negb_true_iff, Z.eqb_neq in E.
    destruct (slice_from_find "[" ai_response (Py.rfind "]" ai_response + 1) E)
      as [->|[t ->]]; [done|].
    destruct (Json.loads (String "[" t)) as [v'|] eqn:Hv; [|done].
    intros [= <-]. by eapply loads_array.
  - destruct (extract_json "{" "}" ai_response) as [[v|]|e] eqn:Hx; try done.
    by eapply extract_json_object.
Qed.
(* ===================================================================== *)
(** * Properties: what the content fetcher requests and stores *)
(* ===================================================================== *)

(** Storing succeeds on a dictionary only, and it changes the state only
    for base64 content that decodes to well-formed UTF-8. *)
Lemma store_content_outcome self file_path content_data fc total fc' total' :
  store_content self file_path content_data fc total = Ok (fc', total') ->
  (fc' = fc /\ total' = total)
  \/ exists d content decoded_bytes,
       content_data = JObject d
       /\ dict_get "encoding" d = Some (JString "base64")
       /\ dict_get "content" d = Some (JString content)
       /\ Base64.b64decode content = Some decoded_bytes
       /\ Base64.utf8_valid decoded_bytes = true
       /\ fc' = dict_set file_path
                  (truncate (max_file_size (config self)) decoded_bytes) fc
       /\ total' = total
                   + Py.len (truncate (max_file_size (config self)) decoded_bytes).
Proof.
  unfold store_content. intros H.
  repeat case_match; simplify_eq; try (by left).
  right. eexists _, _, _. repeat split; eauto.
Qed.

(** One turn of the loop of the content fetcher: one request, never an
    exception; the loop breaks exactly on a rate-limit answer, and the
    state changes only by a text stored from the answer. *)
Lemma fetch_contents_turn env self owner repo file_path fc total w :
  let url := contents_url owner repo file_path in
  exists ctl fc' total',
    try_except (fetch_one_file env self url file_path fc total)
      (fun _ => ret (Continue, (fc, total))) w
    = (Ok (ctl, (fc', total')), after_get url w)
    /\ ((fc' = fc /\ total' = total)
        \/ (ctl = Continue
            /\ exists stored,
                 stored_text env self (http_calls w) url stored
                 /\ fc' = dict_set file_path stored fc
                 /\ total' = total + Py.len stored))
    /\ (ctl = Break
        <-> exists r, http_get env (http_calls w) url = HttpResponse r
                      /\ is_rate_limited r = true).
Proof.
  intros url. unfold try_except, fetch_one_file, bind at 1, requests_get.
  destruct (http_get env (http_calls w) url) as [m|m|r] eqn:Hget.
  - exists Continue, fc, total. split; [done|]. split; [by left|].
    split; [done | by intros (r & ? & _)].
  - exists Continue, fc, total. split; [done|]. split; [by left|].
    split; [done | by intros (r & ? & _)].
  - destruct (is_rate_limited r) eqn:Hrl.
    { exists Break, fc, total. split; [done|]. split; [by left|].
      split; [by exists r | done]. }
    assert (Hnobreak : forall ctl : loop_ctl, ctl = Continue ->
              ctl = Break
              <-> exists r0, HttpResponse r = HttpResponse r0
                             /\ is_rate_limited r0 = true).
    { intros ctl ->. split; [done|]. intros (r0 & [= <-] & Hr0). congruence. }
    destruct (status_code r =? 404) eqn:H404.
    { exists Continue, fc, total. split; [done|]. split; [by left|]. auto. }
    unfold raise_for_status.
    destruct ((400 <=? status_code r) && (status_code r <? 600)) eqn:Hst.
    { exists Continue, fc, total. split; [done|]. split; [by left|]. auto. }
    unfold bind at 1, ret at 1, response_json.
    destruct (Json.loads (text r)) as [content_data|] eqn:Hjson.
    2:{ exists Continue, fc, total. split; [done|]. split; [by left|]. auto. }
    unfold bind at 1, ret at 1, bind, lift.
    destruct (store_content self file_path content_data fc total)
      as [[fc' total']|e] eqn:Hstore.
    2:{ exists Continue, fc, total. split; [done|]. split; [by left|]. auto. }
    exists Continue, fc', total'. split; [done|]. split; [|auto].
    apply store_content_outcome in Hstore
      as [?|(d & content & bytes & -> & Henc & Hcontent & Hb64 & Hutf & -> & ->)];
      [by left|].
    right. split; [done|]. eexists. split; [|done].
    exists r, d, content, bytes.
    repeat split; try done.
    apply andb_false_iff in Hst as [H|H]; lia.
Qed.

Lemma dict_set_keys {V} k (v : V) d :
  dict_keys (dict_set k v d)
  = if dict_mem k d then dict_keys d else dict_keys d ++ [k].
Proof.
  unfold dict_keys, dict_mem.
  induction d as [|[k0 v0] d IH]; cbn [dict_set dict_get fmap list_fmap]; [done|].
  destruct (String.eqb k k0) eqn:E.
  - apply String.eqb_eq in E as ->. done.
  - cbn [fmap list_fmap fst]. rewrite IH.
    by destruct (dict_get k d).
Qed.

Lemma dict_mem_keys {V} k (d : list (string * V)) :
  dict_mem k d = false -> k ∉ dict_keys d.
Proof.
  unfold dict_keys, dict_mem.
  induction d as [|[k0 v0] d IH]; cbn [dict_get fmap list_fmap];
    [intros _; apply not_elem_of_nil|].
  destruct (String.eqb k k0) eqn:E; [done|].
  apply String.eqb_neq in E. intros H. apply not_elem_of_cons. auto.
Qed.

(** Storing keeps the keys distinct and adds one entry at most. *)
Lemma dict_set_NoDup {V} k (v : V) d :
  NoDup (dict_keys d) -> NoDup (dict_keys (dict_set k v d)).
Proof.
  intros Hd. rewrite dict_set_keys.
  destruct (dict_mem k d) eqn:E; [done|].
  apply NoDup_app. split; [done|]. split; [|apply NoDup_singleton].
  intros x Hx ->%list_elem_of_singleton. by apply dict_mem_keys in E.
Qed.

Lemma dict_set_length {V} k (v : V) d :
  (length (dict_set k v d) <= S (length d))%nat.
Proof.
  induction d as [|[k0 v0] d IH]; cbn [dict_set length]; [lia|].
  destruct (String.eqb k k0); cbn [length]; lia.
Qed.

(** The loop of the content fetcher, whatever the hosting API answers:
    it returns; it requests the contents of the first [k] paths, one
    request each and in order, and does nothing else; each entry that it
    adds is the text stored from the answer to the request for its path;
    the keys stay distinct and at most [k] entries are added. *)
Lemma fetch_contents_loop_run env self owner repo max_total_size file_paths :
  forall fc total w,
  exists fc' total' w' k,
    fetch_contents_loop env self owner repo max_total_size file_paths fc total w
    = (Ok (fc', total'), w')
    /\ (k <= length file_paths)%nat
    /\ follows w w'
         (List.map (fun p => EvGet (contents_url owner repo p))
            (take k file_paths))
    /\ (forall p stored,
          (p, stored) ∈ fc' ->
          (p, stored) ∈ fc
          \/ (p ∈ take k file_paths
              /\ exists n, (http_calls w <= n < http_calls w')%nat
                           /\ stored_text env self n
                                (contents_url owner repo p) stored))
    /\ (length fc' <= length fc + k)%nat
    /\ (NoDup (dict_keys fc) -> NoDup (dict_keys fc')).
Proof.
  induction file_paths as [|file_path rest IH]; intros fc total w.
  - exists fc, total, w, 0%nat. split; [done|]. split; [done|].
    split; [apply follows_refl|]. split; [by left|]. split; [lia | done].
  - cbn [fetch_contents_loop].
    destruct (total >=? max_total_size).
    { exists fc, total, w, 0%nat. split; [done|]. split; [lia|].
      split; [apply follows_refl|]. split; [by left|]. split; [lia | done]. }
    unfold bind at 1.
    destruct (fetch_contents_turn env self owner repo file_path fc total w)
      as (ctl & fc1 & total1 & Hturn & Hstate & _).
    unfold contents_url in Hturn. rewrite Hturn.
    fold (contents_url owner repo file_path).
    set (w1 := after_get (contents_url owner repo file_path) w).
    assert (Hentries : forall p stored,
               (p, stored) ∈ fc1 ->
               (p, stored) ∈ fc
               \/ (p = file_path
                   /\ stored_text env self (http_calls w)
                        (contents_url owner repo p) stored)).
    { intros p stored Hin.
      destruct Hstate as [[-> _] | (_ & st & Hst & -> & _)]; [by left|].
      apply elem_of_dict_set in Hin as [[= -> ->] | Hin]; [by right | by left]. }
    assert (Hlen : (length fc1 <= S (length fc))%nat).
    { destruct Hstate as [[-> _] | (_ & st & _ & -> & _)];
        [lia | apply dict_set_length]. }
    assert (Hnodup : NoDup (dict_keys fc) -> NoDup (dict_keys fc1)).
    { destruct Hstate as [[-> _] | (_ & st & _ & -> & _)];
        [done | apply dict_set_NoDup]. }
    destruct ctl.
    + destruct (IH fc1 total1 w1)
        as (fc' & total' & w' & k & Hrun & Hk & Hfollows & Hin & Hlen' & Hnd).
      exists fc', total', w', (S k). split; [done|]. split; [cbn; lia|].
      split.
      { cbn [take List.map].
        change (?x :: ?l) with ([x] ++ l).
        eapply follows_trans; [apply follows_get | exact Hfollows]. }
      assert (Hcalls : (http_calls w1 <= http_calls w')%nat).
      { destruct Hfollows as (Hg & _). lia. }
      split; [|split; [lia | auto]].
      intros p stored Hp. destruct (Hin p stored Hp) as [Hold | (Hp' & n & Hn & Hst)].
      * destruct (Hentries p stored Hold) as [? | (-> & Hst)]; [by left|].
        right. split; [cbn; apply list_elem_of_here|].
        exists (http_calls w). split; [cbn in Hcalls; lia | done].
      * right. split; [cbn; by apply list_elem_of_further|].
        exists n. split; [cbn in Hn; lia | done].
    + exists fc1, total1, w1, 1%nat. split; [done|]. split; [cbn; lia|].
      split; [cbn [take List.map]; rewrite take_0; apply follows_get|].
      split; [|split; [lia | done]].
      intros p stored Hp.
      destruct (Hentries p stored Hp) as [? | (-> & Hst)]; [by left|].
      right. split; [cbn; apply list_elem_of_here|].
      exists (http_calls w). split; [cbn; lia | done].
Qed.

(** X16. Whatever the hosting API answers, the content fetcher returns
    a dictionary and makes no model call and no sleep: it requests the
    contents of the first [k] paths of the selection, one request each
    and in the order of the selection, and nothing after them; the
    dictionary has at most [k] entries, its keys are distinct and each of
    them is one of these [k] paths. *)
Theorem content_requests env self owner repo file_paths w :
  exists file_contents w' k,
    _fetch_file_contents env self owner repo file_paths w
    = (Ok file_contents, w')
    /\ (k <= length file_paths)%nat
    /\ follows w w'
         (List.map (fun p => EvGet (contents_url owner repo p))
            (take k file_paths))
    /\ (length file_contents <= k)%nat
    /\ NoDup (dict_keys file_contents)
    /\ dict_keys file_contents ⊆ take k file_paths.
Proof.
  destruct (fetch_contents_loop_run env self owner repo
              Constants.MAX_TOTAL_CONTENT_SIZE file_paths [] 0 w)
    as (fc' & total' & w' & k & Hrun & Hk & Hfollows & Hin & Hlen & Hnd).
  exists fc', w', k.
  unfold _fetch_file_contents, fetch_file_contents_with, bind.
  rewrite Hrun. split; [done|]. split; [done|]. split; [done|].
  split; [cbn in Hlen; lia|]. split; [apply Hnd, NoDup_nil_2|].
  intros p ([p' stored] & -> & Hp)%list_elem_of_fmap.
  destruct (Hin _ _ Hp) as [Hnil | [Htake _]]; [by apply elem_of_nil in Hnil|].
  done.
Qed.

(** X17. Every entry of the dictionary that the content fetcher returns
    is the text stored from the answer to one of its own requests, the
    one for the path of the entry: a response without an error status
    whose base64 content decodes to well-formed UTF-8, cut to the size
    limit. A file that is missing, binary or in another encoding, or
    whose request failed, has no entry. *)
Theorem content_provenance env self owner repo file_paths w :
  let out := _fetch_file_contents env self owner repo file_paths w in
  exists file_contents,
    out.1 = Ok file_contents
    /\ Forall (fun entry =>
                 entry.1 ∈ file_paths
                 /\ exists n, (http_calls w <= n < http_calls out.2)%nat
                              /\ stored_text env self n
                                   (contents_url owner repo entry.1) entry.2)
              file_contents.
Proof.
  destruct (fetch_contents_loop_run env self owner repo
              Constants.MAX_TOTAL_CONTENT_SIZE file_paths [] 0 w)
    as (fc' & total' & w' & k & Hrun & Hk & Hfollows & Hin & Hlen & Hnd).
  cbv zeta. exists fc'.
  unfold _fetch_file_contents, fetch_file_contents_with, bind.
  rewrite Hrun. split; [done|].
  apply Forall_forall. intros [p stored] Hp.
  destruct (Hin _ _ Hp) as [Hnil | [Htake Hst]]; [by apply elem_of_nil in Hnil|].
  split; [|exact Hst]. cbn. by eapply subseteq_take.
Qed.

(** X18. A rate-limit answer ends the loop of the content fetcher at
    once, whatever was fetched before: the state is returned as it is
    and no path after this one is requested. *)
Theorem content_rate_limit_breaks env self owner repo max_total_size
  file_path rest fc total w r :
  total < max_total_size ->
  http_get env (http_calls w) (contents_url owner repo file_path)
  = HttpResponse r ->
  is_rate_limited r = true ->
  fetch_contents_loop env self owner repo max_total_size (file_path :: rest)
    fc total w
  = (Ok (fc, total), after_get (contents_url owner repo file_path) w).
Proof.
  intros Hbelow Hget Hrl. cbn [fetch_contents_loop].
  assert ((total >=? max_total_size) = false) as -> by lia.
  unfold bind at 1.
  destruct (fetch_contents_turn env self owner repo file_path fc total w)
    as (ctl & fc1 & total1 & Hturn & Hstate & Hbreak).
  unfold contents_url in Hturn. rewrite Hturn.
  assert (ctl = Break) as -> by (apply Hbreak; by exists r).
  by destruct Hstate as [[-> ->] | [? _]].
Qed.

Lemma content_rate_limit_breaks_witness :
  fetch_contents_loop (constant_env (rate_limit_response None) ai_down)
    default_analyzer "octocat" "hello" Constants.MAX_TOTAL_CONTENT_SIZE
    ("README.md" :: ["package.json"; "src/main.py"]) [] 0 world0
  = (Ok ([], 0),
     after_get (contents_url "octocat" "hello" "README.md") world0).
Proof.
  apply (content_rate_limit_breaks
           (constant_env (rate_limit_response None) ai_down) default_analyzer
           "octocat" "hello" Constants.MAX_TOTAL_CONTENT_SIZE "README.md"
           ["package.json"; "src/main.py"] [] 0 world0
           (rate_limit_response None)); reflexivity.
Defined.

(* ===================================================================== *)
(** * Properties: the size limit per file *)
(* ===================================================================== *)

Lemma slice_to_firstn s n :
  0 <= n -> Py.slice_to s n = Py.firstn_str (Z.to_nat n) s.
Proof.
  intros Hn. unfold Py.slice_to, Py.slice.
  assert (Py.adjust_index (Py.len s) 0 = 0) as ->
    by (unfold Py.adjust_index; pose proof (len_nonneg s); cbn; lia).
  rewrite Z.sub_0_r. change (Z.to_nat 0) with O.
  change (Py.skipn_str 0 s) with s.
  unfold Py.adjust_index. destruct (n <? 0) eqn:E; [lia|].
  destruct (Z.le_gt_cases n (Py.len s)) as [Hle|Hgt].
  - by rewrite Z.min_l.
  - rewrite Z.min_r by lia. unfold Py.len in *. rewrite Nat2Z.id.
    clear -Hgt. assert (Hlen : (String.length s <= Z.to_nat n)%nat) by lia.
    revert Hlen. generalize (Z.to_nat n). clear.
    induction s as [|c s IH]; intros [|m] Hm; cbn in *; try done; try lia.
    f_equal. apply IH. lia.
Qed.

Lemma firstn_str_app_le n (a b : string) :
  (n <= String.length a)%nat ->
  Py.firstn_str n (a +:+ b) = Py.firstn_str n a.
Proof.
  revert a. induction n as [|n IH]; intros [|c a] Hn; cbn in *; try done; try lia.
  rewrite app_str_cons. cbn. f_equal. apply IH. lia.
Qed.

Lemma firstn_str_idem n s :
  Py.firstn_str n (Py.firstn_str n s) = Py.firstn_str n s.
Proof.
  revert s. induction n as [|n IH]; intros [|c s]; cbn; try done.
  by rewrite IH.
Qed.

(** X19. For a size limit that is not negative, the size limit per file
    is idempotent and keeps the head of the text: a text within the limit
    is stored unchanged, a longer one is cut to its first [max_size]
    characters followed by the marker, and limiting the stored text again
    changes nothing, although the marker makes it longer than the
    limit. *)
Theorem truncate_idempotent max_size decoded_text :
  0 <= max_size ->
  truncate max_size (truncate max_size decoded_text)
  = truncate max_size decoded_text
  /\ Py.slice_to (truncate max_size decoded_text) max_size
     = Py.slice_to decoded_text max_size
  /\ (Py.len decoded_text <= max_size ->
      truncate max_size decoded_text = decoded_text).
Proof.
  intros Hmax. unfold truncate.
  destruct (Py.len decoded_text >? max_size) eqn:Hlong.
  - assert (Hlen : Py.len (Py.slice_to decoded_text max_size) = max_size)
      by (apply len_slice_to; lia).
    assert (Hhead :
              Py.slice_to (Py.slice_to decoded_text max_size +:+ TRUNCATION_MARKER)
                max_size
              = Py.slice_to decoded_text max_size).
    { rewrite !(slice_to_firstn _ max_size) by done.
      rewrite firstn_str_app_le.
      - apply firstn_str_idem.
      - rewrite <- (slice_to_firstn _ max_size) by done.
        unfold Py.len in Hlen. lia. }
    split; [|split; [done | lia]].
    rewrite len_app, Hlen, len_marker.
    assert ((max_size + 16 >? max_size) = true) as -> by lia.
    by rewrite Hhead.
  - split; [by rewrite Hlong|]. split; done.
Qed.

Lemma truncate_idempotent_witness :
  truncate 4 (truncate 4 "import os")
  = truncate 4 "import os"
  /\ Py.slice_to (truncate 4 "import os") 4 = Py.slice_to "import os" 4
  /\ (Py.len "import os" <= 4 -> truncate 4 "import os" = "import os").
Proof. apply (truncate_idempotent 4 "import os"). lia. Defined.
(* ===================================================================== *)
(** * Properties: the model path of the selector and of the structure
      analyzer *)
(* ===================================================================== *)

(** Both [try] blocks leave the world as the call to the model left it. *)
Lemma ai_selection_attempt_world env self all_files w :
  (ai_selection_attempt env self all_files w).2 = (_call_ai_model env self w).2.
Proof.
  unfold ai_selection_attempt, bind at 1.
  destruct (_call_ai_model env self w) as [[[response_text|]|e] w1]; try done.
  unfold bind at 1, lift.
  destruct (extract_json "[" "]" response_text) as [[v|]|e]; try done.
  unfold ret at 1, bind, lift.
  destruct (iterate v) as [items|e]; [|done].
  unfold ret at 1. by destruct (valid_selection items all_files).
Qed.

Lemma ai_structure_attempt_world env self w :
  (ai_structure_attempt env self w).2 = (_call_ai_model env self w).2.
Proof.
  unfold ai_structure_attempt, bind.
  destruct (_call_ai_model env self w) as [[[response_text|]|e] w1]; try done.
  unfold lift. by destruct (extract_json "{" "}" response_text) as [[v|]|e].
Qed.

(** Whether the topics can be joined does not depend on the default. *)
Lemma topics_str_default repo_info default default' :
  match topics_str repo_info default, topics_str repo_info default' with
  | Ok _, Ok _ => True
  | Raise e, Raise e' => e = e'
  | _, _ => False
  end.
Proof.
  unfold topics_str. destruct (truthy _); [|done].
  destruct (iterate _) as [items|e]; [|done].
  by destruct (all_strings items).
Qed.

(** Once the prompt is built, the selector and the structure analyzer
    return, in the world that the call to the model left. *)
Lemma selector_returns env self all_files repo_info w topics :
  topics_str repo_info "None specified" = Ok topics ->
  exists files,
    _ai_select_files_to_analyze env self all_files repo_info w
    = (Ok files, (_call_ai_model env self w).2).
Proof.
  intros Htopics. unfold _ai_select_files_to_analyze, bind at 1, lift.
  rewrite Htopics. unfold ret at 1, bind, try_except.
  pose proof (ai_selection_attempt_world env self all_files w) as Hw.
  destruct (ai_selection_attempt env self all_files w) as [[[sel|]|e] w1];
    cbn [snd] in Hw; subst w1; unfold ret; by eexists.
Qed.

Lemma structure_analyzer_returns env self all_files repo_info w topics :
  topics_str repo_info "None" = Ok topics ->
  exists analysis,
    _ai_analyze_repo_structure env self all_files repo_info w
    = (Ok analysis, (_call_ai_model env self w).2).
Proof.
  intros Htopics. unfold _ai_analyze_repo_structure, bind at 1, lift.
  rewrite Htopics. unfold ret at 1, bind, try_except.
  pose proof (ai_structure_attempt_world env self w) as Hw.
  destruct (ai_structure_attempt env self w) as [[[v|]|e] w1];
    cbn [snd] in Hw; subst w1; unfold ret; by eexists.
Qed.

(** X20. The selector and the structure analyzer make no request to the
    hosting API: when the prompt cannot be built they raise before any
    effect, and otherwise they return (a selection, an analysis) after
    the one, two or three calls of one run of [_call_ai_model], with its
    sleeps of 2 and 4 seconds. *)
Theorem model_path_effects env self all_files repo_info w :
  let chat := EvChat (provider_model_name self) in
  let selected := _ai_select_files_to_analyze env self all_files repo_info w in
  let analyzed := _ai_analyze_repo_structure env self all_files repo_info w in
  match topics_str repo_info "None specified" with
  | Raise e => selected = (Raise e, w) /\ analyzed = (Raise e, w)
  | Ok _ =>
      (exists files t, selected.1 = Ok files
                       /\ t ∈ retry_runs chat 2 4 /\ follows w selected.2 t)
      /\ (exists analysis t, analyzed.1 = Ok analysis
                             /\ t ∈ retry_runs chat 2 4
                             /\ follows w analyzed.2 t)
  end.
Proof.
  cbv zeta.
  pose proof (topics_str_default repo_info "None specified" "None") as Hdef.
  destruct (topics_str repo_info "None specified") as [s|e] eqn:Hs,
           (topics_str repo_info "None") as [s'|e'] eqn:Hs'; try done.
  - destruct (call_ai_model_follows env self w) as (t & Ht & Hfollows).
    destruct (selector_returns env self all_files repo_info w s Hs)
      as (files & ->).
    destruct (structure_analyzer_returns env self all_files repo_info w s' Hs')
      as (analysis & ->).
    split; [by exists files, t | by exists analysis, t].
  - subst e'.
    unfold _ai_select_files_to_analyze, _ai_analyze_repo_structure.
    unfold bind, lift. by rewrite Hs, Hs'.
Qed.

(** X21. A failure of the model never fails the selection or the
    structure analysis: when [_call_ai_model] raises, be it the
    authentication failure after one call or the failure after three,
    the selector returns the heuristic selection and the structure
    analyzer the heuristic fallback, in the world that the failed calls
    left. *)
Theorem model_failure_absorbed env self all_files repo_info w e topics :
  (_call_ai_model env self w).1 = Raise e ->
  topics_str repo_info "None" = Ok topics ->
  _ai_select_files_to_analyze env self all_files repo_info w
  = (Ok (_heuristic_file_selection self all_files),
     (_call_ai_model env self w).2)
  /\ _ai_analyze_repo_structure env self all_files repo_info w
     = (Ok (_heuristic_structure_analysis all_files repo_info),
        (_call_ai_model env self w).2).
Proof.
  intros Hfail Htopics.
  pose proof (topics_str_default repo_info "None specified" "None") as Hdef.
  rewrite Htopics in Hdef.
  destruct (topics_str repo_info "None specified") as [s|e'] eqn:Hs; [|done].
  destruct (_call_ai_model env self w) as [[content|e0] w1] eqn:Hcall;
    [discriminate Hfail|].
  cbn [snd]. split.
  - unfold _ai_select_files_to_analyze, ai_selection_attempt.
    unfold bind, lift, try_except. rewrite Hs. unfold ret. cbv beta iota.
    by rewrite Hcall.
  - unfold _ai_analyze_repo_structure, ai_structure_attempt.
    unfold bind, lift, try_except. rewrite Htopics. unfold ret. cbv beta iota.
    by rewrite Hcall.
Qed.

Lemma model_failure_absorbed_witness :
  let env := constant_env (rate_limit_response None) ai_unauthorized in
  _ai_select_files_to_analyze env default_analyzer
    ["package.json"; "src/main.py"] [] world0
  = (Ok (_heuristic_file_selection default_analyzer
           ["package.json"; "src/main.py"]),
     (_call_ai_model env default_analyzer world0).2)
  /\ _ai_analyze_repo_structure env default_analyzer
       ["package.json"; "src/main.py"] [] world0
     = (Ok (_heuristic_structure_analysis ["package.json"; "src/main.py"] []),
        (_call_ai_model env default_analyzer world0).2).
Proof.
  exact (model_failure_absorbed
           (constant_env (rate_limit_response None) ai_unauthorized)
           default_analyzer ["package.json"; "src/main.py"] [] world0
           (AIModelError
              "Authentication failed for claude-sonnet: Error code: 401 - Unauthorized")
           "None" eq_refl eq_refl).
Defined.

(* ===================================================================== *)
(** * Properties: the counts of the structure fallback *)
(* ===================================================================== *)

Lemma dict_mem_set {V} k k' (v : V) d :
  dict_mem k' (dict_set k v d) = String.eqb k' k || dict_mem k' d.
Proof.
  unfold dict_mem.
  induction d as [|[k0 v0] d IH]; cbn [dict_set dict_get].
  - by destruct (String.eqb k' k).
  - destruct (String.eqb k k0) eqn:E; cbn [dict_get].
    + apply String.eqb_eq in E as <-.
      by destruct (String.eqb k' k).
    + destruct (String.eqb k' k0) eqn:E'; [|exact IH].
      by rewrite orb_true_r.
Qed.

Lemma counts_total_set k d :
  counts_total
    (dict_set k (match dict_get k d with Some n => n | None => 0 end + 1) d)
  = counts_total d + 1.
Proof.
  induction d as [|[k0 v0] d IH]; cbn [dict_set dict_get counts_total]; [lia|].
  destruct (String.eqb k k0); cbn [counts_total]; lia.
Qed.

Lemma counts_positive_set k d :
  Forall (fun e : string * Z => 0 < e.2) d ->
  Forall (fun e : string * Z => 0 < e.2)
    (dict_set k (match dict_get k d with Some n => n | None => 0 end + 1) d).
Proof.
  induction 1 as [|[k0 v0] d Hpos Hd IH]; cbn [dict_set dict_get].
  - constructor; [cbn; lia | constructor].
  - destruct (String.eqb k k0); constructor; cbn in *; try done; lia.
Qed.

(** The first loop of the fallback, from any state: one more count per
    path that holds a dot, counts that stay positive, keys that stay
    distinct, and a key for exactly the extensions counted. *)
Lemma scan_tree_counts all_files :
  forall directories file_extensions,
    let out := scan_tree all_files directories file_extensions in
    counts_total out.2
    = counts_total file_extensions
      + Py.llen (List.filter (Py.contains ".") all_files)
    /\ (Forall (fun e : string * Z => 0 < e.2) file_extensions ->
        Forall (fun e : string * Z => 0 < e.2) out.2)
    /\ (NoDup (dict_keys file_extensions) -> NoDup (dict_keys out.2))
    /\ (forall ext,
          dict_mem ext out.2 = true
          <-> dict_mem ext file_extensions = true
              \/ exists file_path, file_path ∈ all_files
                                   /\ counted_under ext file_path).
Proof.
  induction all_files as [|file_path rest IH]; intros directories file_extensions.
  - cbv zeta. cbn [scan_tree snd List.filter]. unfold Py.llen. cbn [length].
    split; [lia|]. split; [done|]. split; [done|].
    intros ext. split; [by left|].
    intros [?|(p & Hp & _)]; [done | by apply elem_of_nil in Hp].
  - cbn [scan_tree List.filter]. cbv zeta.
    destruct (Py.contains "." file_path) eqn:Hdot.
    + edestruct IH as (Htotal & Hpos & Hnodup & Hmem).
      rewrite Htotal, counts_total_set. unfold Py.llen. cbn [length].
      split; [lia|].
      split; [intros H; by apply Hpos, counts_positive_set|].
      split; [intros H; by apply Hnodup, dict_set_NoDup|].
      intros ext. rewrite Hmem, dict_mem_set. split.
      * intros [[Heq | ?]%orb_true_iff | (p & Hp & Hc)]; [| by left |].
        -- apply String.eqb_eq in Heq. right. exists file_path.
           split; [apply list_elem_of_here | done].
        -- right. exists p. split; [by apply list_elem_of_further | done].
      * intros [H | (p & [-> | Hp]%elem_of_cons & Hc)].
        -- left. by rewrite H, orb_true_r.
        -- left. destruct Hc as [_ <-]. by rewrite String.eqb_refl.
        -- right. by exists p.
    + edestruct IH as (Htotal & Hpos & Hnodup & Hmem).
      rewrite Htotal. split; [done|]. split; [done|]. split; [done|].
      intros ext. rewrite Hmem. split.
      * intros [? | (p & Hp & Hc)]; [by left|].
        right. exists p. split; [by apply list_elem_of_further | done].
      * intros [H | (p & [-> | Hp]%elem_of_cons & Hc)]; [by left | |].
        -- destruct Hc as [Hc _]. congruence.
        -- right. by exists p.
Qed.

(** X22. The extension counts of the structure fallback: every path
    that holds a dot is counted once, under its lowercased extension (the
    empty one when the dot stands in a directory name only), so the counts
    add up to the number of such paths; every count is positive, so the
    test [count > 0] of the language detection always holds; and an
    extension has a count exactly when a path of the list is counted
    under it. *)
Theorem scan_tree_extension_counts all_files :
  let file_extensions := (scan_tree all_files ∅ []).2 in
  counts_total file_extensions
  = Py.llen (List.filter (Py.contains ".") all_files)
  /\ Forall (fun e : string * Z => 0 < e.2) file_extensions
  /\ NoDup (dict_keys file_extensions)
  /\ (forall ext,
        dict_mem ext file_extensions = true
        <-> exists file_path, file_path ∈ all_files
                              /\ counted_under ext file_path).
Proof.
  destruct (scan_tree_counts all_files ∅ []) as (Htotal & Hpos & Hnodup & Hmem).
  cbv zeta. split; [by rewrite Htotal|].
  split; [by apply Hpos|]. split; [apply Hnodup, NoDup_nil_2|].
  intros ext. rewrite Hmem. split; [by intros [?|?] | by right].
Qed.
(* ===================================================================== *)
(** * Properties: the model name *)
(* ===================================================================== *)

Lemma dict_mem_elem_of_keys {V} k (d : list (string * V)) :
  dict_mem k d = true -> k ∈ dict_keys d.
Proof.
  unfold dict_mem, dict_keys.
  induction d as [|[k0 v0] d IH]; cbn [dict_get fmap list_fmap]; [done|].
  destruct (String.eqb k k0) eqn:E.
  - apply String.eqb_eq in E as ->. intros _. apply list_elem_of_here.
  - intros H. apply list_elem_of_further. by apply IH.
Qed.

(** X23. A model name that [_normalize_model_name] accepts is the
    lowercased and stripped argument; it is a key of the model map, so
    the look-up of [_call_ai_model] finds the provider's name for it
    and never falls back to the default model; and normalising it again
    returns it unchanged. *)
Theorem normalize_model_name_accepts model_arg normalized :
  _normalize_model_name model_arg = Ok normalized ->
  normalized = PyText.strip (Py.lower model_arg)
  /\ normalized ∈ dict_keys Constants.MODEL_NAME_MAP
  /\ _normalize_model_name normalized = Ok normalized
  /\ forall cfg,
       dict_get normalized Constants.MODEL_NAME_MAP
       = Some (provider_model_name {| model := normalized; config := cfg |}).
Proof.
  unfold _normalize_model_name at 1. cbv zeta.
  destruct (dict_mem (PyText.strip (Py.lower model_arg))
              Constants.MODEL_NAME_MAP) eqn:Hmem; [|done].
  cbn [negb]. intros [= <-]. split; [done|].
  set (n := PyText.strip (Py.lower model_arg)) in *. clearbody n.
  apply dict_mem_elem_of_keys in Hmem as Hkey. split; [done|].
  cbn in Hkey.
  repeat (apply elem_of_cons in Hkey as [-> | Hkey];
          [split; [vm_compute; reflexivity | intros cfg; reflexivity]|]).
  by apply elem_of_nil in Hkey.
Qed.

Lemma normalize_model_name_accepts_witness :
  "claude-sonnet" = PyText.strip (Py.lower " Claude-Sonnet ")
  /\ "claude-sonnet" ∈ dict_keys Constants.MODEL_NAME_MAP
  /\ _normalize_model_name "claude-sonnet" = Ok "claude-sonnet"
  /\ forall cfg,
       dict_get "claude-sonnet" Constants.MODEL_NAME_MAP
       = Some (provider_model_name {| model := "claude-sonnet"; config := cfg |}).
Proof.
  exact (normalize_model_name_accepts " Claude-Sonnet " "claude-sonnet" eq_refl).
Defined.

(* ===================================================================== *)
(** * Properties: the repository URL *)
(* ===================================================================== *)

(** What the class of name characters leaves out. *)
Lemma name_char_class c :
  is_name_char c = true ->
  PyText.is_space c = false /\ c <> "/"%char /\ c <> ":"%char
  /\ c <> "@"%char /\ c <> "010"%char.
Proof.
  destruct c as [[] [] [] [] [] [] [] []]; intros H; vm_compute in H;
    try discriminate H; repeat split; try reflexivity; discriminate.
Qed.

Lemma chars_app (a b : string) :
  list_ascii_of_string (a +:+ b)
  = list_ascii_of_string a ++ list_ascii_of_string b.
Proof.
  induction a as [|c a IH]; [done|].
  rewrite app_str_cons. cbn. by rewrite IH.
Qed.

Lemma all_name_chars_Forall s :
  all_name_chars s = true ->
  Forall (fun c => is_name_char c = true) (list_ascii_of_string s).
Proof.
  induction s as [|c s IH]; cbn; [constructor|].
  intros [Hc Hs]%andb_true_iff. constructor; auto.
Qed.

(** The pattern accepts a text exactly when it is a name, or a name
    followed by one newline. *)
Lemma name_re_match_shape s :
  name_re_match s = true
  <-> exists name, valid_name name
                   /\ (s = name \/ s = name +:+ String "010" "").
Proof.
  split.
  - induction s as [|c t IH]; [done|].
    cbn [name_re_match]. intros [Hc Ht]%andb_true_iff.
    destruct t as [|d [|e t']].
    + exists (String c ""). split; [|by left]. split; [done|].
      cbn. by rewrite Hc.
    + apply orb_true_iff in Ht as [Hd|Hd].
      * apply Ascii.eqb_eq in Hd as ->. exists (String c "").
        split; [|by right]. split; [done|]. cbn. by rewrite Hc.
      * exists (String c (String d "")). split; [|by left]. split; [done|].
        cbn. by rewrite Hc, Hd.
    + destruct (IH Ht) as (name & [Hne Hall] & Hs).
      exists (String c name). split.
      * split; [done|]. cbn. by rewrite Hc, Hall.
      * destruct Hs as [-> | ->]; [by left | by right].
  - intros (name & [Hne Hall] & Hs).
    assert (Hname : forall n, n <> "" -> all_name_chars n = true ->
                              name_re_match n = true
                              /\ name_re_match (n +:+ String "010" "") = true).
    { clear. induction n as [|c t IH]; [done|]. intros _.
      cbn [all_name_chars]. intros [Hc Ht]%andb_true_iff.
      rewrite app_str_cons. cbn [name_re_match]. rewrite Hc. cbn [andb].
      destruct t as [|d t'].
      - done.
      - destruct (IH ltac:(done) Ht) as [IH1 IH2].
        cbn [all_name_chars] in Ht. apply andb_true_iff in Ht as [Hd Ht'].
        rewrite app_str_cons in IH2 |- *.
        destruct t' as [|e t''].
        + rewrite Hd, orb_true_r. split; [done|].
          rewrite app_str_nil_l. done.
        + split; [exact IH1|]. rewrite app_str_cons in IH2 |- *. exact IH2. }
    destruct (Hname name Hne Hall) as [H1 H2].
    by destruct Hs as [-> | ->].
Qed.

(** X24. What [_parse_github_url] returns: an owner and a repository
    that are names (one or more letters, digits, dots, underscores and
    hyphens) or names followed by one newline, which the pattern lets
    through at the end; neither holds a slash, a colon or a space. In
    every other case it raises one [ValueError], whose message quotes the
    argument. *)
Theorem parse_github_url_outcome repo_url :
  match _parse_github_url repo_url with
  | Ok (owner, repo) =>
      exists owner_name repo_name,
        valid_name owner_name /\ valid_name repo_name
        /\ (owner = owner_name \/ owner = owner_name +:+ String "010" "")
        /\ (repo = repo_name \/ repo = repo_name +:+ String "010" "")
        /\ ("/"%char ∉ list_ascii_of_string owner)
        /\ ("/"%char ∉ list_ascii_of_string repo)
  | Raise e =>
      e = PyException "ValueError"
            ("Invalid GitHub URL format: " +:+ repo_url
             +:+ ". Expected: https://github.com/owner/repo")
  end.
Proof.
  unfold _parse_github_url, parse_github_url_body. cbv zeta.
  destruct (Py.split "/" _) as [|owner [|repo [|x parts]]]; try done.
  destruct (String.eqb owner "" || String.eqb repo ""); [done|].
  destruct (name_re_match owner) eqn:Ho; [|done].
  destruct (name_re_match repo) eqn:Hr; [|done].
  cbn [negb].
  apply name_re_match_shape in Ho as (on & Hon & Ho).
  apply name_re_match_shape in Hr as (rn & Hrn & Hr).
  exists on, rn. split; [done|]. split; [done|]. split; [done|]. split; [done|].
  assert (Hslash : forall n s, valid_name n ->
                     s = n \/ s = n +:+ String "010" "" ->
                     "/"%char ∉ list_ascii_of_string s).
  { clear. intros n s [_ Hall] Hs Hin.
    apply all_name_chars_Forall in Hall. rewrite Forall_forall in Hall.
    destruct Hs as [-> | ->].
    - apply Hall, name_char_class in Hin. by destruct Hin as (_ & ? & _).
    - rewrite chars_app in Hin. apply elem_of_app in Hin as [Hin|Hin].
      + apply Hall, name_char_class in Hin. by destruct Hin as (_ & ? & _).
      + change (list_ascii_of_string (String "010" "")) with ["010"%char] in Hin.
        apply elem_of_cons in Hin as [Hin|Hin];
          [discriminate Hin | by apply elem_of_nil in Hin]. }
  split; [by apply (Hslash on) | by apply (Hslash rn)].
Qed.
(** Stripping leaves a text without white space as it is. *)
Lemma rstrip_id s :
  Forall (fun c => PyText.is_space c = false) (list_ascii_of_string s) ->
  PyText.rstrip s = s.
Proof.
  induction s as [|c t IH]; [done|].
  cbn [list_ascii_of_string PyText.rstrip]. intros [Hc Ht]%Forall_cons.
  rewrite (IH Ht). destruct t; [by rewrite Hc | done].
Qed.

Lemma strip_id s :
  Forall (fun c => PyText.is_space c = false) (list_ascii_of_string s) ->
  PyText.strip s = s.
Proof.
  intros Hs. unfold PyText.strip.
  assert (PyText.lstrip s = s) as ->; [|by apply rstrip_id].
  destruct s as [|c t]; [done|]. cbn in *.
  apply Forall_cons in Hs as [-> _]. done.
Qed.

(** Removing the occurrences of a text: a prefix that is an occurrence
    goes, and a text without occurrence stays as it is. *)
Lemma prefix_app (a b : string) : String.prefix a (a +:+ b) = true.
Proof.
  induction a as [|c a IH]; [by destruct b|].
  rewrite app_str_cons. cbn [String.prefix].
  by destruct (ascii_dec c c).
Qed.

Lemma remove_go_skip old (a b : string) :
  PyText.remove_go old (String.length a) (a +:+ b) = PyText.remove_go old O b.
Proof.
  induction a as [|c a IH]; [done|].
  rewrite app_str_cons. cbn [String.length PyText.remove_go]. exact IH.
Qed.

Lemma remove_prefix c old rest :
  PyText.remove (String c old) (String c old +:+ rest)
  = PyText.remove (String c old) rest.
Proof.
  unfold PyText.remove. rewrite app_str_cons.
  cbn [PyText.remove_go]. rewrite <- app_str_cons.
  unfold Py.startswith. rewrite prefix_app.
  replace (String.length (String c old) - 1)%nat with (String.length old)
    by (cbn [String.length]; lia).
  apply remove_go_skip.
Qed.

Lemma remove_absent old s :
  Py.contains old s = false -> PyText.remove old s = s.
Proof.
  unfold PyText.remove. induction s as [|c t IH]; [done|].
  cbn [Py.contains PyText.remove_go].
  intros [-> Ht]%orb_false_iff. by rewrite (IH Ht).
Qed.

Lemma prefix_elem p s x :
  String.prefix p s = true ->
  x ∈ list_ascii_of_string p -> x ∈ list_ascii_of_string s.
Proof.
  revert p. induction s as [|c t IH]; intros [|y p]; cbn;
    try done; try (by intros _ ?%elem_of_nil).
  destruct (ascii_dec y c) as [->|]; [|done].
  intros Hp [->|Hin]%elem_of_cons;
    [apply list_elem_of_here | apply list_elem_of_further; by eapply IH].
Qed.

Lemma contains_absent_char old s x :
  x ∈ list_ascii_of_string old -> x ∉ list_ascii_of_string s ->
  Py.contains old s = false.
Proof.
  intros Hx. induction s as [|c t IH]; cbn [Py.contains list_ascii_of_string].
  - intros _. rewrite orb_false_r. unfold Py.startswith.
    destruct old; [by apply elem_of_nil in Hx | done].
  - intros [Hc Ht]%not_elem_of_cons. rewrite (IH Ht), orb_false_r.
    destruct (Py.startswith old (String c t)) eqn:E; [|done].
    apply (prefix_elem _ _ x) in E; [|done].
    cbn in E. apply elem_of_cons in E as [?|?]; done.
Qed.

(** An occurrence cannot lie across a character that the text removed
    does not hold. *)
Lemma prefix_app_sep p a c b :
  c ∉ list_ascii_of_string p ->
  String.prefix p a = false -> String.prefix p (a +:+ String c b) = false.
Proof.
  revert p. induction a as [|x a IH]; intros [|y p]; try done.
  - rewrite app_str_nil_l. cbn. intros [Hy _]%not_elem_of_cons _.
    by destruct (ascii_dec y c).
  - rewrite app_str_cons. cbn. intros [_ Hp]%not_elem_of_cons.
    destruct (ascii_dec y x); [by apply IH | done].
Qed.

Lemma contains_app_sep old a c b :
  c ∉ list_ascii_of_string old ->
  Py.contains old a = false -> Py.contains old b = false ->
  Py.contains old (a +:+ String c b) = false.
Proof.
  intros Hc. induction a as [|x a IH].
  - intros _ Hb. rewrite app_str_nil_l. cbn [Py.contains]. rewrite Hb.
    rewrite orb_false_r. unfold Py.startswith.
    destruct old as [|y old]; [by destruct b|].
    cbn. apply not_elem_of_cons in Hc as [Hy _].
    by destruct (ascii_dec y c).
  - cbn [Py.contains]. intros [Hx Ha]%orb_false_iff Hb.
    rewrite app_str_cons. cbn [Py.contains].
    rewrite (IH Ha Hb), orb_false_r.
    unfold Py.startswith in *. rewrite <- app_str_cons.
    by apply prefix_app_sep.
Qed.

(** The suffix [.git] goes, and no occurrence lies across the end of the
    text before it. *)
Lemma git_no_straddle c t :
  Py.startswith ".git" (String c t) = false ->
  Py.startswith ".git" (String c (t +:+ ".git")) = false.
Proof.
  unfold Py.startswith.
  destruct t as [|c2 [|c3 [|c4 t4]]];
    rewrite ?app_str_cons, ?app_str_nil_l; cbn [String.prefix];
    repeat (match goal with
            | |- context [ascii_dec ?a ?b] =>
                destruct (ascii_dec a b) as [?|?]; subst; try done;
                try discriminate
            end).
  by destruct t4.
Qed.

Lemma remove_git_suffix s :
  Py.contains ".git" s = false -> PyText.remove ".git" (s +:+ ".git") = s.
Proof.
  unfold PyText.remove. induction s as [|c t IH]; [done|].
  cbn [Py.contains]. intros [Hc Ht]%orb_false_iff.
  rewrite app_str_cons. cbn [PyText.remove_go].
  rewrite (git_no_straddle _ _ Hc). by rewrite (IH Ht).
Qed.

(** Trailing slashes go; a text that ends otherwise stays as it is. *)
Lemma rstrip_char_end ch (a b : string) :
  b <> "" -> ch ∉ list_ascii_of_string b ->
  PyText.rstrip_char ch (a +:+ b) = a +:+ b.
Proof.
  intros Hb Hch.
  assert (Hbase : PyText.rstrip_char ch b = b).
  { clear a. induction b as [|c b IH]; [done|].
    cbn [list_ascii_of_string] in Hch.
    apply not_elem_of_cons in Hch as [Hc Hch].
    cbn [PyText.rstrip_char]. destruct b as [|d b].
    - cbn. destruct (Ascii.eqb c ch) eqn:E; [|done].
      apply Ascii.eqb_eq in E. congruence.
    - rewrite IH; done. }
  induction a as [|c a IH]; [by rewrite app_str_nil_l|].
  rewrite app_str_cons. cbn [PyText.rstrip_char]. rewrite IH.
  destruct (a +:+ b) eqn:E; [|done].
  destruct a; [by rewrite app_str_nil_l in E | by rewrite app_str_cons in E].
Qed.

Lemma rstrip_char_last ch s :
  PyText.rstrip_char ch (s +:+ String ch "") = PyText.rstrip_char ch s.
Proof.
  induction s as [|c s IH].
  - rewrite app_str_nil_l. cbn [PyText.rstrip_char]. by rewrite Ascii.eqb_refl.
  - rewrite app_str_cons. cbn [PyText.rstrip_char]. by rewrite IH.
Qed.

Lemma rstrip_char_length ch s :
  (String.length (PyText.rstrip_char ch s) <= String.length s)%nat.
Proof.
  induction s as [|c s IH]; [done|].
  cbn [PyText.rstrip_char String.length].
  destruct (PyText.rstrip_char ch s); [|cbn in *; lia].
  destruct (Ascii.eqb c ch); cbn; lia.
Qed.

(** Splitting at a separator. *)
Lemma rev_app_rev_app (a b c : string) :
  String.rev_app (String.rev_app a b) c = String.rev_app b (a +:+ c).
Proof.
  revert b c. induction a as [|x a IH]; intros b c; [done|].
  cbn [String.rev_app]. rewrite IH. by rewrite app_str_cons.
Qed.

Lemma split_go_no_sep c cur s :
  c ∉ list_ascii_of_string s ->
  Py.split_go c cur s = [String.rev (String.rev_app s cur)].
Proof.
  revert cur. induction s as [|d s IH]; intros cur; [done|].
  cbn [list_ascii_of_string Py.split_go]. intros [Hd Hs]%not_elem_of_cons.
  destruct (Ascii.eqb d c) eqn:E; [apply Ascii.eqb_eq in E; congruence|].
  by rewrite IH.
Qed.

Lemma split_go_sep c cur a b :
  c ∉ list_ascii_of_string a ->
  Py.split_go c cur (a +:+ String c b)
  = String.rev (String.rev_app a cur) :: Py.split_go c "" b.
Proof.
  revert cur. induction a as [|d a IH]; intros cur.
  - intros _. rewrite app_str_nil_l. cbn [Py.split_go String.rev_app].
    by rewrite Ascii.eqb_refl.
  - cbn [list_ascii_of_string]. intros [Hd Ha]%not_elem_of_cons.
    rewrite app_str_cons. cbn [Py.split_go].
    destruct (Ascii.eqb d c) eqn:E; [apply Ascii.eqb_eq in E; congruence|].
    by rewrite IH.
Qed.

Lemma split_two c (a b : string) :
  c ∉ list_ascii_of_string a -> c ∉ list_ascii_of_string b ->
  Py.split c (a +:+ String c b) = [a; b].
Proof.
  intros Ha Hb. unfold Py.split.
  rewrite split_go_sep by done. rewrite split_go_no_sep by done.
  unfold String.rev. rewrite !rev_app_rev_app. cbn [String.rev_app].
  by rewrite !app_str_nil_r.
Qed.

(** Splitting loses nothing but the separators. *)
Lemma split_go_lengths c cur s :
  fold_right (fun part acc => String.length part + 1 + acc)%nat O
             (Py.split_go c cur s)
  = (String.length cur + String.length s + 1)%nat.
Proof.
  assert (Hrev : forall a b, String.length (String.rev_app a b)
                             = (String.length a + String.length b)%nat).
  { induction a as [|x a IH]; intros b; [done|].
    cbn [String.rev_app]. rewrite IH. cbn [String.length]. lia. }
  revert cur. induction s as [|d s IH]; intros cur.
  - cbn [Py.split_go fold_right]. unfold String.rev. rewrite Hrev.
    cbn [String.length]. lia.
  - cbn [Py.split_go]. destruct (Ascii.eqb d c).
    + cbn [fold_right]. rewrite IH. unfold String.rev. rewrite Hrev.
      cbn [String.length]. lia.
    + rewrite IH. cbn [String.length]. lia.
Qed.

Lemma split_two_length c s a b :
  Py.split c s = [a; b] ->
  String.length s = (String.length a + 1 + String.length b)%nat.
Proof.
  unfold Py.split. intros H.
  pose proof (split_go_lengths c "" s) as Hl. rewrite H in Hl.
  cbn [fold_right String.length] in Hl. lia.
Qed.

(** Removing occurrences never makes a text longer, and it makes a text
    that holds an occurrence shorter. *)
Lemma remove_go_length old skip s :
  (String.length (PyText.remove_go old skip s) <= String.length s)%nat.
Proof.
  revert skip. induction s as [|c s IH]; intros skip; [by destruct skip|].
  cbn [PyText.remove_go]. destruct skip as [|k].
  - destruct (Py.startswith old (String c s)).
    + specialize (IH (String.length old - 1)%nat). cbn. lia.
    + specialize (IH O). cbn. lia.
  - specialize (IH k). cbn. lia.
Qed.

Lemma remove_length_lt old s :
  Py.contains old s = true ->
  (String.length (PyText.remove old s) < String.length s
   \/ old = "")%nat.
Proof.
  destruct old as [|y old]; [by right|]. intros H. left. revert H.
  unfold PyText.remove. induction s as [|c s IH]; [done|].
  cbn [Py.contains PyText.remove_go].
  destruct (Py.startswith (String y old) (String c s)).
  - intros _. pose proof (remove_go_length (String y old)
                            (String.length (String y old) - 1) s).
    cbn [String.length] in *. lia.
  - cbn [orb]. intros H. specialize (IH H). cbn [String.length]. lia.
Qed.

(** The prefixes of a URL go, whatever follows them, provided that it
    holds no colon, no at sign and no white space. *)
Lemma url_prefix_removed pre tail :
  pre ∈ URL_PREFIXES ->
  Forall (fun c => PyText.is_space c = false /\ c <> ":"%char /\ c <> "@"%char)
         (list_ascii_of_string tail) ->
  PyText.remove "git@github.com:"
    (PyText.remove "http://github.com/"
       (PyText.remove "https://github.com/" (PyText.strip (pre +:+ tail))))
  = tail.
Proof.
  intros Hpre Htail.
  assert (Hcolon : ":"%char ∉ list_ascii_of_string tail).
  { intros Hin. rewrite Forall_forall in Htail.
    by destruct (Htail _ Hin) as (_ & ? & _). }
  assert (Hat : "@"%char ∉ list_ascii_of_string tail).
  { intros Hin. rewrite Forall_forall in Htail.
    by destruct (Htail _ Hin) as (_ & _ & ?). }
  assert (Hspace : Forall (fun c => PyText.is_space c = false)
                          (list_ascii_of_string tail)).
  { eapply Forall_impl; [exact Htail|]. by intros c (? & _). }
  assert (H1 : PyText.remove "https://github.com/" tail = tail).
  { apply remove_absent, (contains_absent_char _ _ ":"%char); [|done].
    apply (bool_decide_eq_true_1 _). vm_compute. reflexivity. }
  assert (H2 : PyText.remove "http://github.com/" tail = tail).
  { apply remove_absent, (contains_absent_char _ _ ":"%char); [|done].
    apply (bool_decide_eq_true_1 _). vm_compute. reflexivity. }
  assert (H3 : PyText.remove "git@github.com:" tail = tail).
  { apply remove_absent, (contains_absent_char _ _ "@"%char); [|done].
    apply (bool_decide_eq_true_1 _). vm_compute. reflexivity. }
  assert (Hstrip : forall p : string,
             Forall (fun c => PyText.is_space c = false)
                    (list_ascii_of_string p) ->
             PyText.strip (p +:+ tail) = p +:+ tail).
  { intros p Hp. apply strip_id. rewrite chars_app. by apply Forall_app. }
  unfold URL_PREFIXES in Hpre.
  repeat (apply elem_of_cons in Hpre as [-> | Hpre]).
  - rewrite app_str_nil_l, strip_id by done. by rewrite H1, H2, H3.
  - rewrite Hstrip by (vm_compute; repeat constructor).
    rewrite remove_prefix. by rewrite H1, H2, H3.
  - rewrite Hstrip by (vm_compute; repeat constructor).
    assert (PyText.remove "https://github.com/" ("http://github.com/" +:+ tail)
            = "http://github.com/" +:+ PyText.remove "https://github.com/" tail)
      as -> by (vm_compute; reflexivity).
    rewrite H1, remove_prefix. by rewrite H2, H3.
  - rewrite Hstrip by (vm_compute; repeat constructor).
    assert (PyText.remove "https://github.com/" ("git@github.com:" +:+ tail)
            = "git@github.com:" +:+ PyText.remove "https://github.com/" tail)
      as -> by (vm_compute; reflexivity).
    rewrite H1.
    assert (PyText.remove "http://github.com/" ("git@github.com:" +:+ tail)
            = "git@github.com:" +:+ PyText.remove "http://github.com/" tail)
      as -> by (vm_compute; reflexivity).
    rewrite H2, remove_prefix. by rewrite H3.
  - by apply elem_of_nil in Hpre.
Qed.

(** The characters of [owner/repo] and of what may follow it. *)
Lemma url_tail_chars owner repo suf :
  valid_name owner -> valid_name repo -> suf ∈ URL_SUFFIXES ->
  Forall (fun c => PyText.is_space c = false /\ c <> ":"%char /\ c <> "@"%char)
         (list_ascii_of_string ((owner +:+ String "/" repo) +:+ suf)).
Proof.
  intros [_ Ho] [_ Hr] Hsuf.
  assert (Hname : forall n, all_name_chars n = true ->
            Forall (fun c => PyText.is_space c = false /\ c <> ":"%char
                             /\ c <> "@"%char) (list_ascii_of_string n)).
  { intros n Hn. eapply Forall_impl; [by apply all_name_chars_Forall|].
    by intros c (? & ? & ? & ? & ?)%name_char_class. }
  rewrite !chars_app. cbn [list_ascii_of_string].
  apply Forall_app. split.
  - apply Forall_app. split; [by apply Hname|].
    constructor; [done | by apply Hname].
  - unfold URL_SUFFIXES in Hsuf.
    repeat (apply elem_of_cons in Hsuf as [-> | Hsuf]);
      [vm_compute; repeat constructor; done ..|].
    by apply elem_of_nil in Hsuf.
Qed.

Lemma valid_name_matches n : valid_name n -> name_re_match n = true.
Proof. intros Hn. apply name_re_match_shape. exists n. by split; [|left]. Qed.

Lemma valid_name_no_slash n :
  valid_name n -> "/"%char ∉ list_ascii_of_string n.
Proof.
  intros [_ Hall] Hin. apply all_name_chars_Forall in Hall.
  rewrite Forall_forall in Hall.
  apply Hall, name_char_class in Hin. by destruct Hin as (_ & ? & _).
Qed.

(** X25. Round trip: for every owner and repository that are names in
    which [.git] does not occur, each form of the repository URL (with
    or without the https, http or ssh prefix, with or without a
    trailing [.git] or slash) parses to that owner and that
    repository. *)
Theorem parse_github_url_roundtrip owner repo pre suf :
  valid_name owner -> valid_name repo ->
  Py.contains ".git" owner = false -> Py.contains ".git" repo = false ->
  pre ∈ URL_PREFIXES -> suf ∈ URL_SUFFIXES ->
  _parse_github_url (pre +:+ owner +:+ "/" +:+ repo +:+ suf)
  = Ok (owner, repo).
Proof.
  intros Ho Hr Hgo Hgr Hpre Hsuf.
  replace (pre +:+ owner +:+ "/" +:+ repo +:+ suf)
    with (pre +:+ ((owner +:+ String "/" repo) +:+ suf)).
  2:{ rewrite !app_str_assoc. rewrite (app_str_cons "/" repo suf).
      by rewrite (app_str_cons "/" "" (repo +:+ suf)), app_str_nil_l. }
  unfold _parse_github_url, parse_github_url_body. cbv zeta.
  rewrite (url_prefix_removed pre _ Hpre)
    by (by apply url_tail_chars).
  assert (Hbody : Py.contains ".git" (owner +:+ String "/" repo) = false).
  { apply contains_app_sep; [|done|done].
    apply (bool_decide_eq_false_1 _). vm_compute. reflexivity. }
  assert (Hend : PyText.rstrip_char "/" (owner +:+ String "/" repo)
                 = owner +:+ String "/" repo).
  { rewrite <- (app_str_nil_l repo) at 1 2. rewrite <- app_str_cons.
    rewrite <- app_str_assoc. apply rstrip_char_end.
    - by destruct Hr.
    - by apply valid_name_no_slash. }
  assert (Hurl : PyText.rstrip_char "/"
                   (PyText.remove ".git" ((owner +:+ String "/" repo) +:+ suf))
                 = owner +:+ String "/" repo).
  { unfold URL_SUFFIXES in Hsuf.
    repeat (apply elem_of_cons in Hsuf as [-> | Hsuf]).
    - rewrite app_str_nil_r, remove_absent by done. exact Hend.
    - rewrite remove_git_suffix by done. exact Hend.
    - rewrite remove_absent.
      + rewrite rstrip_char_last. exact Hend.
      + apply contains_app_sep; [|done|done].
        apply (bool_decide_eq_false_1 _). vm_compute. reflexivity.
    - by apply elem_of_nil in Hsuf. }
  rewrite Hurl.
  rewrite split_two by (by apply valid_name_no_slash).
  destruct Ho as [Hone Hoall], Hr as [Hrne Hrall].
  assert (String.eqb owner "" = false) as -> by (by apply String.eqb_neq).
  assert (String.eqb repo "" = false) as -> by (by apply String.eqb_neq).
  cbn [orb].
  rewrite !valid_name_matches by done. done.
Qed.

Lemma parse_github_url_roundtrip_witness :
  _parse_github_url ("git@github.com:" +:+ "octocat" +:+ "/" +:+ "hello-world"
                     +:+ ".git")
  = Ok ("octocat", "hello-world").
Proof.
  apply (parse_github_url_roundtrip "octocat" "hello-world"
           "git@github.com:" ".git");
    try (split; [discriminate | reflexivity]); try reflexivity;
    apply (bool_decide_eq_true_1 _); vm_compute; reflexivity.
Defined.

(** X26. A repository whose name, or whose owner's name, holds [.git]
    cannot be designated: every occurrence of [.git] is removed, not only
    a trailing one, so the parser never returns that owner and that
    repository for a URL made of them. *)
Theorem parse_github_url_loses_dot_git owner repo pre :
  valid_name owner -> valid_name repo ->
  Py.contains ".git" (owner +:+ "/" +:+ repo) = true ->
  pre ∈ URL_PREFIXES ->
  _parse_github_url (pre +:+ owner +:+ "/" +:+ repo) <> Ok (owner, repo).
Proof.
  intros Ho Hr Hgit Hpre.
  replace (pre +:+ owner +:+ "/" +:+ repo)
    with (pre +:+ ((owner +:+ String "/" repo) +:+ "")).
  2:{ by rewrite app_str_nil_r. }
  change (owner +:+ "/" +:+ repo) with (owner +:+ String "/" repo) in Hgit.
  unfold _parse_github_url, parse_github_url_body. cbv zeta.
  rewrite (url_prefix_removed pre _ Hpre).
  2:{ apply url_tail_chars; [done | done |]. apply list_elem_of_here. }
  rewrite app_str_nil_r.
  destruct (Py.split "/" _) as [|o [|r [|x parts]]] eqn:Hsplit; try done.
  destruct (String.eqb o "" || String.eqb r ""); [done|].
  destruct (negb (name_re_match o)); [done|].
  destruct (negb (name_re_match r)); [done|].
  intros [= -> ->].
  apply split_two_length in Hsplit.
  pose proof (rstrip_char_length "/"
                (PyText.remove ".git" (owner +:+ String "/" repo))) as H1.
  destruct (remove_length_lt _ _ Hgit) as [H2|H2]; [|done].
  rewrite length_app_str in H2. cbn [String.length] in H2. lia.
Qed.

Lemma parse_github_url_loses_dot_git_witness :
  _parse_github_url ("https://github.com/" +:+ "octocat" +:+ "/"
                     +:+ "octocat.github.io")
  <> Ok ("octocat", "octocat.github.io").
Proof.
  apply (parse_github_url_loses_dot_git "octocat" "octocat.github.io"
           "https://github.com/");
    try (split; [discriminate | reflexivity]); try reflexivity.
  apply (bool_decide_eq_true_1 _). vm_compute. reflexivity.
Defined.
(* ===================================================================== *)
(** * Properties: the pipeline *)
(* ===================================================================== *)

(** The stages of the pipeline, each with what it costs. *)
Lemma fetch_repo_info_within env owner repo w :
  within w (_fetch_repo_info env owner repo w).2 3 0 3.
Proof.
  unfold _fetch_repo_info. cbv zeta. rewrite fetch_repo_info_loop_shape.
  destruct (retry_loop_follows (fetch_repo_info_attempt env (repo_url owner repo))
              "Failed to fetch repository info: " (JObject [])
              (repo_url owner repo) w) as (t & Ht & Hf).
  { apply fetch_repo_info_attempt_world. }
  by eapply retry_runs_get_within.
Qed.

Lemma fetch_tree_within env owner repo w :
  within w (_fetch_complete_file_tree env owner repo w).2 3 0 3.
Proof.
  unfold _fetch_complete_file_tree. cbv zeta. rewrite fetch_tree_loop_shape.
  destruct (retry_loop_follows (fetch_tree_attempt env (tree_url owner repo))
              "Failed to fetch file tree: " [] (tree_url owner repo) w)
    as (t & Ht & Hf).
  { apply fetch_tree_attempt_world. }
  by eapply retry_runs_get_within.
Qed.

Lemma call_ai_model_within env self w :
  within w (_call_ai_model env self w).2 0 3 6.
Proof.
  destruct (call_ai_model_follows env self w) as (t & Ht & Hf).
  by eapply retry_runs_chat_within.
Qed.

(** The selector: at most three model calls; the selection is made of
    paths of the list, at most as many as the limit when the limit is
    not negative; when the model fails it is the heuristic selection. *)
Lemma selector_stage env self all_files repo_info w :
  let out := _ai_select_files_to_analyze env self all_files repo_info w in
  within w out.2 0 3 6
  /\ match out.1 with
     | Ok files =>
         files ⊆ all_files
         /\ (0 <= max_files_to_analyze (config self) ->
             Py.llen files <= max_files_to_analyze (config self))
         /\ ((exists e, (_call_ai_model env self w).1 = Raise e) ->
             files = _heuristic_file_selection self all_files)
     | Raise _ => True
     end.
Proof.
  cbv zeta.
  destruct (topics_str repo_info "None specified") as [topics|e] eqn:Htopics.
  - destruct (selector_returns env self all_files repo_info w topics Htopics)
      as (files & Hrun).
    pose proof (ai_select_cases env self all_files repo_info w) as Hcases.
    rewrite Hrun in Hcases |- *. cbn [fst snd].
    split; [apply call_ai_model_within|].
    split; [|split].
    + destruct Hcases as [[items ->] | [-> _]].
      * intros p Hp%elem_of_lslice_to. by eapply valid_selection_subset.
      * intros p. apply heuristic_rank_subset.
    + intros Hlimit. destruct Hcases as [[items ->] | [-> _]].
      * by apply llen_lslice_to.
      * by apply heuristic_rank_bounded.
    + intros (e & Hfail).
      revert Hrun. unfold _ai_select_files_to_analyze, ai_selection_attempt.
      unfold bind, lift, try_except. rewrite Htopics. unfold ret.
      cbv beta iota.
      destruct (_call_ai_model env self w) as [[content|e0] w1];
        [discriminate Hfail|].
      by intros [= <-].
  - unfold _ai_select_files_to_analyze, bind, lift. rewrite Htopics.
    cbn [fst snd]. split; [|done].
    eapply within_weaken; [apply within_refl | lia | lia | lia].
Qed.

(** The structure analyzer: at most three model calls; when the model
    fails the analysis is the heuristic fallback. *)
Lemma structure_stage env self all_files repo_info w :
  let out := _ai_analyze_repo_structure env self all_files repo_info w in
  within w out.2 0 3 6
  /\ match out.1 with
     | Ok analysis =>
         (exists e, (_call_ai_model env self w).1 = Raise e) ->
         analysis = _heuristic_structure_analysis all_files repo_info
     | Raise _ => True
     end.
Proof.
  cbv zeta.
  destruct (topics_str repo_info "None") as [topics|e] eqn:Htopics.
  - destruct (structure_analyzer_returns env self all_files repo_info w topics
                Htopics) as (analysis & Hrun).
    rewrite Hrun. cbn [fst snd]. split; [apply call_ai_model_within|].
    intros (e & Hfail).
    revert Hrun. unfold _ai_analyze_repo_structure, ai_structure_attempt.
    unfold bind, lift, try_except. rewrite Htopics. unfold ret.
    cbv beta iota.
    destruct (_call_ai_model env self w) as [[content|e0] w1];
      [discriminate Hfail|].
    by intros [= <-].
  - unfold _ai_analyze_repo_structure, bind, lift. rewrite Htopics.
    cbn [fst snd]. split; [|done].
    eapply within_weaken; [apply within_refl | lia | lia | lia].
Qed.

(** The content fetcher: one request per path at most; the keys of the
    dictionary are distinct paths of the selection. *)
Lemma contents_stage env self owner repo file_paths w :
  exists file_contents w',
    _fetch_file_contents env self owner repo file_paths w
    = (Ok file_contents, w')
    /\ within w w' (length file_paths) 0 0
    /\ NoDup (dict_keys file_contents)
    /\ dict_keys file_contents ⊆ file_paths.
Proof.
  destruct (fetch_contents_loop_run env self owner repo
              Constants.MAX_TOTAL_CONTENT_SIZE file_paths [] 0 w)
    as (fc' & total' & w' & k & Hrun & Hk & Hfollows & Hin & Hlen & Hnd).
  exists fc', w'.
  unfold _fetch_file_contents, fetch_file_contents_with, bind.
  rewrite Hrun. split; [done|]. split; [|split; [apply Hnd, NoDup_nil_2|]].
  - eexists. split; [exact Hfollows|].
    assert (Hgets : forall l : list string,
               List.filter is_get
                 (List.map (fun p => EvGet (contents_url owner repo p)) l)
               = List.map (fun p => EvGet (contents_url owner repo p)) l
               /\ List.filter is_chat
                    (List.map (fun p => EvGet (contents_url owner repo p)) l)
                  = []
               /\ slept (List.map (fun p => EvGet (contents_url owner repo p)) l)
                  = 0).
    { induction l as [|p l (IH1 & IH2 & IH3)]; [done|].
      cbn. by rewrite IH1, IH2, IH3. }
    destruct (Hgets (take k file_paths)) as (-> & -> & ->).
    rewrite length_map, length_take. cbn. split; [lia | split; lia].
  - intros p ([p' stored] & -> & Hp)%list_elem_of_fmap.
    destruct (Hin _ _ Hp) as [Hnil | [Htake _]];
      [by apply elem_of_nil in Hnil|].
    by eapply subseteq_take.
Qed.

Lemma filter_tree_ok self all_files filtered_files :
  filter_tree self all_files = Ok filtered_files ->
  exists paths, path_strings all_files = Some paths
                /\ filtered_files = _filter_files self paths.
Proof.
  unfold filter_tree.
  destruct (first_non_string all_files) as [v|] eqn:Hv.
  - by repeat case_match.
  - assert (exists paths, path_strings all_files = Some paths) as [paths Hp].
    { clear -Hv. induction all_files as [|item rest IH]; [by exists []|].
      cbn in *. destruct item; try done.
      destruct (IH Hv) as [paths ->]. by eexists. }
    rewrite Hp. intros [= <-]. by exists paths.
Qed.

(** The distinct members of a list are no more than the list holds. *)
Lemma NoDup_subseteq_length (l k : list string) :
  NoDup l -> l ⊆ k -> (length l <= length k)%nat.
Proof.
  intros Hnd Hsub. apply submseteq_length. by apply NoDup_submseteq.
Qed.

(** What a run of the [try] block costs, and what a context that it
    returns holds. *)
Lemma context_steps_run env self repo_url now w :
  let out := repository_context_steps env self repo_url now w in
  exists n : nat,
    within w out.2 (6 + n) 6 18
    /\ (0 <= max_files_to_analyze (config self) ->
        Z.of_nat n <= max_files_to_analyze (config self))
    /\ match out.1 with
       | Raise _ => True
       | Ok c =>
           _parse_github_url repo_url = Ok (ctx_owner c, ctx_repo c)
           /\ (exists d, ctx_metadata c = JObject d
                 /\ d <> []
                 /\ ((forall w0, exists e,
                        (_call_ai_model env self w0).1 = Raise e) ->
                     ctx_structure c
                     = _heuristic_structure_analysis (ctx_all_files c) d))
           /\ (exists all_files paths,
                 all_files <> []
                 /\ path_strings all_files = Some paths
                 /\ ctx_all_files c = _filter_files self paths)
           /\ ctx_total_files c = Py.llen (ctx_all_files c)
           /\ ctx_analyzed_files c = Py.llen (ctx_file_contents c)
           /\ NoDup (dict_keys (ctx_file_contents c))
           /\ dict_keys (ctx_file_contents c) ⊆ ctx_all_files c
           /\ (length (ctx_file_contents c) <= n)%nat
           /\ ((forall w0, exists e,
                  (_call_ai_model env self w0).1 = Raise e) ->
               dict_keys (ctx_file_contents c)
               ⊆ _heuristic_file_selection self (ctx_all_files c))
           /\ ctx_analysis_timestamp c = now
           /\ ctx_analyzer_version c = APP_VERSION
       end.
Proof.
  cbv zeta.
  destruct (repository_context_steps env self repo_url now w) as [r w']
    eqn:Hrun.
  cbn [fst snd]. revert Hrun. unfold repository_context_steps.
  pose proof (within_refl w) as H0.
  unfold bind at 1, lift at 1.
  destruct (_parse_github_url repo_url) as [[owner repo]|e] eqn:Hparse.
  2:{ intros [= <- <-]. exists 0%nat. split; [|split; [lia | done]].
      eapply within_weaken; [exact H0 | lia | lia | lia]. }
  unfold ret at 1. cbn [fst snd]. unfold bind at 1.
  pose proof (fetch_repo_info_within env owner repo w) as H1.
  destruct (_fetch_repo_info env owner repo w) as [[repo_info|e] w1].
  2:{ intros [= <- <-]. exists 0%nat. split; [|split; [lia | done]].
      eapply within_weaken; [exact H1 | lia | lia | lia]. }
  cbn [snd] in H1.
  destruct (truthy repo_info) eqn:Htruthy; cbn [negb].
  2:{ intros [= <- <-]. exists 0%nat. split; [|split; [lia | done]].
      eapply within_weaken; [exact H1 | lia | lia | lia]. }
  unfold bind at 1.
  pose proof (fetch_tree_within env owner repo w1) as H2.
  destruct (_fetch_complete_file_tree env owner repo w1) as [[all_files|e] w2].
  2:{ intros [= <- <-]. exists 0%nat. split; [|split; [lia | done]].
      eapply within_weaken; [exact (within_trans _ _ _ _ _ _ _ _ _ H1 H2)
                            | lia | lia | lia]. }
  cbn [snd] in H2.
  pose proof (within_trans _ _ _ _ _ _ _ _ _ H1 H2) as H12.
  destruct all_files as [|item rest].
  { intros [= <- <-]. exists 0%nat. split; [|split; [lia | done]].
    eapply within_weaken; [exact H12 | lia | lia | lia]. }
  set (all_files := item :: rest) in *.
  unfold bind at 1, lift at 1.
  destruct (filter_tree self all_files) as [filtered_files|e] eqn:Hfilter.
  2:{ intros [= <- <-]. exists 0%nat. split; [|split; [lia | done]].
      eapply within_weaken; [exact H12 | lia | lia | lia]. }
  unfold ret at 1. unfold bind at 1, lift at 1.
  destruct (metadata_dict repo_info) as [metadata|e] eqn:Hmeta.
  2:{ intros [= <- <-]. exists 0%nat. split; [|split; [lia | done]].
      eapply within_weaken; [exact H12 | lia | lia | lia]. }
  unfold ret at 1. unfold bind at 1.
  destruct (selector_stage env self filtered_files metadata w2) as [H3 Hsel].
  destruct (_ai_select_files_to_analyze env self filtered_files metadata w2)
    as [[important_files|e] w3].
  2:{ intros [= <- <-]. exists 0%nat. cbn [fst snd] in *.
      split; [|split; [lia | done]].
      eapply within_weaken; [exact (within_trans _ _ _ _ _ _ _ _ _ H12 H3)
                            | lia | lia | lia]. }
  cbn [fst snd] in H3, Hsel. destruct Hsel as (Hsub & Hlimit & Hheur).
  pose proof (within_trans _ _ _ _ _ _ _ _ _ H12 H3) as H123.
  unfold bind at 1.
  destruct (contents_stage env self owner repo important_files w3)
    as (file_contents & w4 & -> & H4 & Hnodup & Hkeys).
  pose proof (within_trans _ _ _ _ _ _ _ _ _ H123 H4) as H1234.
  unfold bind at 1.
  destruct (structure_stage env self filtered_files metadata w4) as [H5 Hstr].
  pose proof (within_trans _ _ _ _ _ _ _ _ _ H1234 H5) as Hall.
  destruct (_ai_analyze_repo_structure env self filtered_files metadata w4)
    as [[structure_analysis|e] w5]; cbn [fst snd] in *.
  2:{ intros [= <- <-]. exists (length important_files).
      split; [|split; [exact Hlimit | done]].
      eapply within_weaken; [exact Hall | lia | lia | lia]. }
  unfold ret. intros [= <- <-]. exists (length important_files).
  split; [eapply within_weaken; [exact Hall | lia | lia | lia]|].
  split; [exact Hlimit|].
  cbn [ctx_owner ctx_repo ctx_metadata ctx_all_files ctx_structure
       ctx_file_contents ctx_total_files ctx_analyzed_files
       ctx_analysis_timestamp ctx_analyzer_version].
  split; [done|]. split.
  { destruct repo_info; try discriminate Hmeta.
    injection Hmeta as <-. eexists. split; [done|].
    split; [by destruct fields|]. intros Hdown. apply Hstr, Hdown. }
  split.
  { apply filter_tree_ok in Hfilter as (paths & Hp & ->).
    by exists all_files, paths. }
  split; [done|]. split; [done|]. split; [done|].
  split; [by etrans|].
  split.
  { transitivity (length (dict_keys file_contents));
      [unfold dict_keys; by rewrite length_fmap|].
    by apply NoDup_subseteq_length. }
  split; [|done].
  intros Hdown. rewrite <- (Hheur (Hdown w2)). done.
Qed.
(** The handler of [get_full_repository_context]: a context when the
    [try] block returns one, the error record when it raises. *)
Lemma get_full_repository_context_run env self url now w :
  get_full_repository_context env self url now w
  = match repository_context_steps env self url now w with
    | (Ok c, w') => (Ok (Context c), w')
    | (Raise e, w') =>
        (Ok (ContextFailed
               {| err_error := "Error fetching repository context: "
                               +:+ exn_str e;
                  err_error_type := exn_class e;
                  err_repo_url := url;
                  err_timestamp := now |}), w')
    end.
Proof.
  unfold get_full_repository_context, try_except, bind.
  by destruct (repository_context_steps env self url now w) as [[c|e] w'].
Qed.

(** X27. [get_full_repository_context] never raises: it returns a
    context or an error record. The error record quotes the URL, the
    time and the exception that stopped the run. A context holds the
    owner and the repository that the URL parses to, metadata that is a
    dictionary and not empty, the filtered paths of a tree that is not
    empty, counts that are the lengths of the file list and of the
    contents, and contents whose keys are distinct paths of the file
    list, so that no more files are analyzed than are listed. *)
Theorem repository_context_invariants env self url now w :
  match (get_full_repository_context env self url now w).1 with
  | Ok (Context c) =>
      _parse_github_url url = Ok (ctx_owner c, ctx_repo c)
      /\ (exists d, ctx_metadata c = JObject d /\ d <> [])
      /\ (exists all_files paths,
            all_files <> []
            /\ path_strings all_files = Some paths
            /\ ctx_all_files c = _filter_files self paths)
      /\ ctx_total_files c = Py.llen (ctx_all_files c)
      /\ ctx_analyzed_files c = Py.llen (ctx_file_contents c)
      /\ NoDup (dict_keys (ctx_file_contents c))
      /\ dict_keys (ctx_file_contents c) ⊆ ctx_all_files c
      /\ ctx_analyzed_files c <= ctx_total_files c
      /\ ctx_analysis_timestamp c = now
      /\ ctx_analyzer_version c = APP_VERSION
  | Ok (ContextFailed e) =>
      err_repo_url e = url /\ err_timestamp e = now
      /\ exists raised,
           (repository_context_steps env self url now w).1 = Raise raised
           /\ err_error e
              = "Error fetching repository context: " +:+ exn_str raised
           /\ err_error_type e = exn_class raised
  | Raise _ => False
  end.
Proof.
  rewrite get_full_repository_context_run.
  destruct (context_steps_run env self url now w) as (n & _ & _ & Hc).
  destruct (repository_context_steps env self url now w) as [[c|e] w'];
    cbn [fst snd] in *.
  - destruct Hc as (Hparse & (d & Hd & Hne & _) & Hfiles & Htotal & Han
                    & Hnodup & Hkeys & _ & _ & Hnow & Hver).
    split; [done|]. split; [by exists d|]. split; [done|].
    split; [done|]. split; [done|]. split; [done|]. split; [done|].
    split; [|done].
    rewrite Htotal, Han. unfold Py.llen.
    apply inj_le.
    transitivity (length (dict_keys (ctx_file_contents c)));
      [unfold dict_keys; by rewrite length_fmap|].
    by apply NoDup_subseteq_length.
  - split; [done|]. split; [done|]. by exists e.
Qed.

(** X28. For a limit that is not negative, a run of
    [get_full_repository_context] makes at most [6 + max_files_to_analyze]
    requests to the hosting API and at most 6 calls to the model, and
    sleeps at most 18 seconds, whatever the two services answer. *)
Theorem repository_context_budget env self url now w :
  0 <= max_files_to_analyze (config self) ->
  within w (get_full_repository_context env self url now w).2
    (6 + Z.to_nat (max_files_to_analyze (config self))) 6 18.
Proof.
  intros Hlimit. rewrite get_full_repository_context_run.
  destruct (context_steps_run env self url now w) as (n & Hw & Hn & _).
  specialize (Hn Hlimit).
  assert (within w (repository_context_steps env self url now w).2
            (6 + Z.to_nat (max_files_to_analyze (config self))) 6 18)
    by (eapply within_weaken; [exact Hw | lia | lia | lia]).
  by destruct (repository_context_steps env self url now w) as [[c|e] w'].
Qed.

Lemma repository_context_budget_witness :
  within world0
    (get_full_repository_context (env_small_repo ai_down) default_analyzer
       "https://github.com/octocat/hello.git" "2026-01-01T00:00:00" world0).2
    (6 + Z.to_nat (max_files_to_analyze (config default_analyzer))) 6 18.
Proof.
  apply (repository_context_budget (env_small_repo ai_down) default_analyzer
           "https://github.com/octocat/hello.git" "2026-01-01T00:00:00" world0).
  vm_compute. discriminate.
Defined.

(** X29. The two failures that end a run before anything is analyzed. A
    URL that does not parse costs nothing: the error record of type
    [ValueError] is returned in the world as it was. A rate-limit answer
    to the first request ends the run after that one request, without
    any call to the model, with an error record: of type
    [GitHubAPIError] when the reset header of the answer is absent, empty
    or a time stamp, and of the class and with the text of the exception
    of the conversion when the header cannot be converted. *)
Theorem repository_context_early_failures env self url now w :
  (forall e, _parse_github_url url = Raise e ->
     get_full_repository_context env self url now w
     = (Ok (ContextFailed
              {| err_error := "Error fetching repository context: "
                              +:+ invalid_url_msg url;
                 err_error_type := "ValueError";
                 err_repo_url := url;
                 err_timestamp := now |}), w))
  /\ (forall owner repo r,
        _parse_github_url url = Ok (owner, repo) ->
        http_get env (http_calls w) (repo_url owner repo) = HttpResponse r ->
        is_rate_limited r = true ->
        (reset_readable r ->
         get_full_repository_context env self url now w
         = (Ok (ContextFailed
                  {| err_error := "Error fetching repository context: "
                                  +:+ "GitHub API rate limit exceeded";
                     err_error_type := "GitHubAPIError";
                     err_repo_url := url;
                     err_timestamp := now |}),
            after_get (repo_url owner repo) w))
        /\ (forall cls msg,
              rate_limit_reset r = Some (ResetUnreadable cls msg) ->
              get_full_repository_context env self url now w
              = (Ok (ContextFailed
                       {| err_error := "Error fetching repository context: "
                                       +:+ msg;
                          err_error_type := cls;
                          err_repo_url := url;
                          err_timestamp := now |}),
                 after_get (repo_url owner repo) w))).
Proof.
  split.
  - intros e. rewrite get_full_repository_context_run.
    unfold repository_context_steps, bind at 1, lift at 1.
    unfold _parse_github_url.
    destruct (parse_github_url_body url); [done|]. by intros [= <-].
  - intros owner repo r Hparse Hget Hrl.
    set (raised := match rate_limit_reset r with
                   | Some (ResetUnreadable cls msg) => PyException cls msg
                   | _ => GitHubAPIError "GitHub API rate limit exceeded"
                   end).
    assert (Hrun : get_full_repository_context env self url now w
                   = (Ok (ContextFailed
                            {| err_error := "Error fetching repository context: "
                                            +:+ exn_str raised;
                               err_error_type := exn_class raised;
                               err_repo_url := url;
                               err_timestamp := now |}),
                      after_get (repo_url owner repo) w)).
    { rewrite get_full_repository_context_run.
      unfold repository_context_steps, bind at 1, lift at 1.
      rewrite Hparse. unfold ret at 1. cbn [fst snd]. unfold bind at 1.
      unfold _fetch_repo_info. cbv zeta. change (Py.range 3) with [0; 1; 2].
      by rewrite (fetch_repo_info_loop_rate_limited _ _ _ _ _ _ Hget Hrl). }
    rewrite Hrun. unfold raised. split.
    + intros Hreset. unfold reset_readable in Hreset.
      by destruct (rate_limit_reset r) as [[]|].
    + intros cls msg Hreset. by rewrite Hreset.
Qed.

Lemma repository_context_early_failures_witness :
  get_full_repository_context
    (constant_env (rate_limit_response None) ai_down) default_analyzer
    "https://github.com/octocat/hello/tree/main" "2026-01-01T00:00:00" world0
  = (Ok (ContextFailed
           {| err_error := "Error fetching repository context: "
                           +:+ invalid_url_msg
                                 "https://github.com/octocat/hello/tree/main";
              err_error_type := "ValueError";
              err_repo_url := "https://github.com/octocat/hello/tree/main";
              err_timestamp := "2026-01-01T00:00:00" |}), world0)
  /\ get_full_repository_context
       (constant_env (rate_limit_response None) ai_down) default_analyzer
       "https://github.com/octocat/hello" "2026-01-01T00:00:00" world0
     = (Ok (ContextFailed
              {| err_error := "Error fetching repository context: "
                              +:+ "GitHub API rate limit exceeded";
                 err_error_type := "GitHubAPIError";
                 err_repo_url := "https://github.com/octocat/hello";
                 err_timestamp := "2026-01-01T00:00:00" |}),
        after_get (repo_url "octocat" "hello") world0)
  /\ get_full_repository_context
       (constant_env (rate_limit_response (Some unreadable_reset)) ai_down)
       default_analyzer
       "https://github.com/octocat/hello" "2026-01-01T00:00:00" world0
     = (Ok (ContextFailed
              {| err_error := "Error fetching repository context: "
                              +:+ "invalid literal for int() with base 10: 'soon'";
                 err_error_type := "ValueError";
                 err_repo_url := "https://github.com/octocat/hello";
                 err_timestamp := "2026-01-01T00:00:00" |}),
        after_get (repo_url "octocat" "hello") world0).
Proof.
  split; [|split].
  - eapply (proj1 (repository_context_early_failures
                     (constant_env (rate_limit_response None) ai_down)
                     default_analyzer
                     "https://github.com/octocat/hello/tree/main"
                     "2026-01-01T00:00:00" world0)).
    vm_compute. reflexivity.
  - destruct (proj2 (repository_context_early_failures
                       (constant_env (rate_limit_response None) ai_down)
                       default_analyzer "https://github.com/octocat/hello"
                       "2026-01-01T00:00:00" world0)
                "octocat" "hello" (rate_limit_response None))
      as [Hreadable _];
      [vm_compute; reflexivity | reflexivity | reflexivity |].
    exact (Hreadable I).
  - destruct (proj2 (repository_context_early_failures
                       (constant_env (rate_limit_response (Some unreadable_reset))
                          ai_down)
                       default_analyzer "https://github.com/octocat/hello"
                       "2026-01-01T00:00:00" world0)
                "octocat" "hello" (rate_limit_response (Some unreadable_reset)))
      as [_ Hunreadable];
      [vm_compute; reflexivity | reflexivity | reflexivity |].
    exact (Hunreadable _ _ eq_refl).
Defined.

(** A model endpoint that answers every call with an exception makes
    [_call_ai_model] raise. *)
Lemma call_ai_model_down env self w :
  (forall n model_name, exists e, chat_create env n model_name = AIRaises e) ->
  exists e, (_call_ai_model env self w).1 = Raise e.
Proof.
  intros Hdown.
  assert (Hbody : forall (last : bool) (w0 : world),
             exists e, ai_outcome_of self (provider_model_name self) last
                         (call_ai_attempt env (provider_model_name self) w0).1
                       = Raise e).
  { intros last w0. rewrite call_ai_attempt_outcome.
    destruct (Hdown (ai_calls w0) (provider_model_name self)) as [e ->].
    cbn [ai_outcome_of]. destruct (is_auth_error e); [by eexists|].
    destruct last; by eexists. }
  destruct (call_ai_model_cases env self w)
    as [(_ & ->) | [(_ & _ & ->) | (_ & _ & ->)]]; cbn [fst]; apply Hbody.
Qed.

(** X30. A model endpoint that is down does not fail the retrieval: when
    every call to the model raises, a context that the run returns holds
    the heuristic fallback as its structure analysis, with the full shape
    and the fallback marker, and contents only for paths of the heuristic
    selection. *)
Theorem repository_context_model_down env self url now w :
  (forall n model_name, exists e, chat_create env n model_name = AIRaises e) ->
  match (get_full_repository_context env self url now w).1 with
  | Ok (Context c) =>
      (exists d, ctx_metadata c = JObject d
                 /\ ctx_structure c
                    = _heuristic_structure_analysis (ctx_all_files c) d)
      /\ has_full_shape (ctx_structure c) = true
      /\ is_fallback (ctx_structure c) = true
      /\ dict_keys (ctx_file_contents c)
         ⊆ _heuristic_file_selection self (ctx_all_files c)
  | _ => True
  end.
Proof.
  intros Hdown. rewrite get_full_repository_context_run.
  destruct (context_steps_run env self url now w) as (n & _ & _ & Hc).
  destruct (repository_context_steps env self url now w) as [[c|e] w'];
    cbn [fst snd] in *; [|done].
  destruct Hc as (_ & (d & Hd & _ & Hstr) & _ & _ & _ & _ & _ & _ & Hheur & _).
  assert (Hfail : forall w0, exists e, (_call_ai_model env self w0).1 = Raise e)
    by (intros w0; by apply call_ai_model_down).
  specialize (Hstr Hfail). specialize (Hheur Hfail).
  split; [by exists d|].
  rewrite Hstr.
  destruct (heuristic_structure_full_shape (ctx_all_files c) d) as [-> ->].
  done.
Qed.

Lemma repository_context_model_down_witness :
  match (get_full_repository_context (env_small_repo ai_down) default_analyzer
           "https://github.com/octocat/hello.git" "2026-01-01T00:00:00"
           world0).1 with
  | Ok (Context c) =>
      (exists d, ctx_metadata c = JObject d
                 /\ ctx_structure c
                    = _heuristic_structure_analysis (ctx_all_files c) d)
      /\ has_full_shape (ctx_structure c) = true
      /\ is_fallback (ctx_structure c) = true
      /\ dict_keys (ctx_file_contents c)
         ⊆ _heuristic_file_selection default_analyzer (ctx_all_files c)
  | _ => True
  end.
Proof.
  apply (repository_context_model_down (env_small_repo ai_down)
           default_analyzer "https://github.com/octocat/hello.git"
           "2026-01-01T00:00:00" world0).
  intros n model_name. by eexists.
Defined.
